(** * Trolley motion-control core: mode coordination and hardware control

    A shallow embedding of the ESP32 firmware's control logic:
    [hardware_control.cpp], [wire_learning_mode.cpp], [automatic_mode.cpp],
    [manual_mode.cpp] and [mode_coordinator.cpp].

    Conventions.
    - C [float] is IEEE-754 binary32, modelled exactly with the standard
      library's [spec_float] operations at precision 24 and maximal exponent
      128 (round to nearest, ties to even).
    - [uint16_t], [uint32_t] and [uint64_t] are [Z] with the wrap-around
      written out.
    - The global [static] variables of each translation unit are the fields
      of one record per unit; the whole firmware state is the record [system].
      Functions are state transformers in the monad [M].
    - [esp_timer_get_time()] reads the field [clock] (microseconds);
      [vTaskDelay] advances it.  The interleaving of the FreeRTOS tasks is not
      modelled: every function and every task iteration runs atomically.
    - Log output and the texts formatted with [snprintf] are left out; the
      fixed status and error messages are kept, without the pictographs
      that open the validation messages. *)

From Stdlib Require Import ZArith Bool List String Lia.
From Stdlib Require Import SpecFloat.
Import ListNotations.
Set Primitive Projections.
Local Open Scope Z_scope.

(* ================================================================== *)
(** * Binary32 arithmetic *)
(* ================================================================== *)

Definition f32 : Type := spec_float.

Module F32.

Definition prec : Z := 24.
Definition emax : Z := 128.

Definition add : f32 -> f32 -> f32 := SFadd prec emax.
Definition sub : f32 -> f32 -> f32 := SFsub prec emax.
Definition mul : f32 -> f32 -> f32 := SFmul prec emax.
Definition div : f32 -> f32 -> f32 := SFdiv prec emax.
Definition abs : f32 -> f32 := SFabs.

  (** C comparisons; every comparison with a NaN is false. *)
Definition lt (x y : f32) : bool := SFltb x y.
Definition le (x y : f32) : bool := SFleb x y.
Definition gt (x y : f32) : bool := SFltb y x.
Definition ge (x y : f32) : bool := SFleb y x.
Definition eq (x y : f32) : bool := SFeqb x y.

  (** Conversion of an integer to [float] (rounded to nearest). *)
Definition of_Z (n : Z) : f32 := binary_normalize prec emax n 0 false.

  (** The literal [n/d] with [n] and [d] exactly representable: the
      correctly rounded quotient is the binary32 value nearest to the
      decimal literal. *)
Definition lit (n d : Z) : f32 := div (of_Z n) (of_Z d).

  (** [(uint16_t) x]: truncation toward zero, then reduction modulo [2^16].
      (The conversion of a NaN, an infinity or an out-of-range value is
      undefined in C; it is given the value [0] here.) *)
Definition trunc (x : f32) : Z :=
    match x with
    | S754_finite s m e =>
        let a := if 0 <=? e then Zpos m * 2 ^ e else Zpos m / 2 ^ (- e) in
        if s then - a else a
    | _ => 0
    end.

  (** The exact rational value [num / 2^sh] of a finite float, as the pair
      [(num, sh)] with [sh >= 0]; used to state bounds on results. *)
Definition to_frac (x : f32) : option (Z * Z) :=
    match x with
    | S754_zero _ => Some (0, 0)
    | S754_finite s m e =>
        let n := if s then Zneg m else Zpos m in
        if 0 <=? e then Some (n * 2 ^ e, 0) else Some (n, - e)
    | _ => None
    end.

Definition is_nan (x : f32) : bool :=
    match x with S754_nan => true | _ => false end.

Definition zero : f32 := S754_zero false.
Definition c0_05 : f32 := Eval vm_compute in lit 5 100.
Definition c0_1 : f32 := Eval vm_compute in lit 1 10.
Definition c0_2 : f32 := Eval vm_compute in lit 2 10.
Definition c0_5 : f32 := Eval vm_compute in lit 1 2.
Definition c0_8 : f32 := Eval vm_compute in lit 8 10.
Definition c1_0 : f32 := Eval vm_compute in of_Z 1.
Definition c1_5 : f32 := Eval vm_compute in lit 3 2.
Definition c2_0 : f32 := Eval vm_compute in of_Z 2.
Definition c4_0 : f32 := Eval vm_compute in of_Z 4.
Definition c4_8 : f32 := Eval vm_compute in lit 48 10.
Definition c5_0 : f32 := Eval vm_compute in of_Z 5.
Definition c100 : f32 := Eval vm_compute in of_Z 100.

End F32.

(** C unsigned arithmetic. *)
Definition wrap16 (z : Z) : Z := z mod 2 ^ 16.
Definition wrap32 (z : Z) : Z := z mod 2 ^ 32.
Definition wrap64 (z : Z) : Z := z mod 2 ^ 64.
(** Conversion to [int16_t]. *)
Definition to_int16 (z : Z) : Z :=
  let w := wrap16 z in if w <? 2 ^ 15 then w else w - 2 ^ 16.

(** [esp_err_t], restricted to the codes the firmware returns. *)
Inductive esp_err_t : Type :=
| ESP_OK
| ESP_FAIL
| ESP_ERR_NO_MEM
| ESP_ERR_INVALID_ARG
| ESP_ERR_INVALID_STATE
| ESP_ERR_INVALID_SIZE
| ESP_ERR_TIMEOUT.

Definition esp_err_eqb (a b : esp_err_t) : bool :=
  match a, b with
  | ESP_OK, ESP_OK | ESP_FAIL, ESP_FAIL | ESP_ERR_NO_MEM, ESP_ERR_NO_MEM
  | ESP_ERR_INVALID_ARG, ESP_ERR_INVALID_ARG
  | ESP_ERR_INVALID_STATE, ESP_ERR_INVALID_STATE
  | ESP_ERR_INVALID_SIZE, ESP_ERR_INVALID_SIZE
  | ESP_ERR_TIMEOUT, ESP_ERR_TIMEOUT => true
  | _, _ => false
  end.

(* ================================================================== *)
(** * Data model *)
(* ================================================================== *)

(** ** Enumerations ([*_to_Z] is the value of the C enumerator) *)

Inductive hardware_error_t : Type :=
| HW_ERROR_NONE
| HW_ERROR_ESC_NOT_RESPONDING
| HW_ERROR_HALL_SENSOR_TIMEOUT
| HW_ERROR_PWM_INIT_FAILED
| HW_ERROR_GPIO_INIT_FAILED
| HW_ERROR_SPEED_OUT_OF_RANGE
| HW_ERROR_SYSTEM_NOT_INITIALIZED.

Inductive wire_learning_state_t : Type :=
| WIRE_LEARNING_IDLE
| WIRE_LEARNING_INITIALIZING
| WIRE_LEARNING_FORWARD_DIRECTION
| WIRE_LEARNING_DIRECTION_PAUSE
| WIRE_LEARNING_REVERSE_DIRECTION
| WIRE_LEARNING_CALCULATING_RESULTS
| WIRE_LEARNING_COMPLETE
| WIRE_LEARNING_FAILED
| WIRE_LEARNING_STOPPING.

Definition wire_learning_state_to_Z (s : wire_learning_state_t) : Z :=
  match s with
  | WIRE_LEARNING_IDLE => 0
  | WIRE_LEARNING_INITIALIZING => 1
  | WIRE_LEARNING_FORWARD_DIRECTION => 2
  | WIRE_LEARNING_DIRECTION_PAUSE => 3
  | WIRE_LEARNING_REVERSE_DIRECTION => 4
  | WIRE_LEARNING_CALCULATING_RESULTS => 5
  | WIRE_LEARNING_COMPLETE => 6
  | WIRE_LEARNING_FAILED => 7
  | WIRE_LEARNING_STOPPING => 8
  end.

Inductive wire_end_detection_method_t : Type :=
| WIRE_END_NONE
| WIRE_END_IMPACT_DETECTED
| WIRE_END_HALL_TIMEOUT
| WIRE_END_SPEED_DROP
| WIRE_END_USER_STOP.

Inductive automatic_mode_state_t : Type :=
| AUTO_MODE_IDLE
| AUTO_MODE_INITIALIZING
| AUTO_MODE_ARMING_ESC
| AUTO_MODE_ACCELERATING
| AUTO_MODE_CRUISING
| AUTO_MODE_COASTING_CALIBRATION
| AUTO_MODE_COASTING
| AUTO_MODE_WIRE_END_APPROACH
| AUTO_MODE_DIRECTION_CHANGE
| AUTO_MODE_CYCLE_COMPLETE
| AUTO_MODE_STOPPING_GRACEFUL
| AUTO_MODE_STOPPING_INTERRUPTED
| AUTO_MODE_ERROR
| AUTO_MODE_COMPLETE.

Definition automatic_mode_state_to_Z (s : automatic_mode_state_t) : Z :=
  match s with
  | AUTO_MODE_IDLE => 0
  | AUTO_MODE_INITIALIZING => 1
  | AUTO_MODE_ARMING_ESC => 2
  | AUTO_MODE_ACCELERATING => 3
  | AUTO_MODE_CRUISING => 4
  | AUTO_MODE_COASTING_CALIBRATION => 5
  | AUTO_MODE_COASTING => 6
  | AUTO_MODE_WIRE_END_APPROACH => 7
  | AUTO_MODE_DIRECTION_CHANGE => 8
  | AUTO_MODE_CYCLE_COMPLETE => 9
  | AUTO_MODE_STOPPING_GRACEFUL => 10
  | AUTO_MODE_STOPPING_INTERRUPTED => 11
  | AUTO_MODE_ERROR => 12
  | AUTO_MODE_COMPLETE => 13
  end.

Inductive manual_mode_state_t : Type :=
| MANUAL_MODE_IDLE
| MANUAL_MODE_INITIALIZING
| MANUAL_MODE_READY
| MANUAL_MODE_ESC_ARMING
| MANUAL_MODE_ACTIVE
| MANUAL_MODE_MOVING_FORWARD
| MANUAL_MODE_MOVING_BACKWARD
| MANUAL_MODE_STOPPING
| MANUAL_MODE_ESC_DISARMING
| MANUAL_MODE_ERROR
| MANUAL_MODE_EMERGENCY_STOP.

Definition manual_mode_state_to_Z (s : manual_mode_state_t) : Z :=
  match s with
  | MANUAL_MODE_IDLE => 0
  | MANUAL_MODE_INITIALIZING => 1
  | MANUAL_MODE_READY => 2
  | MANUAL_MODE_ESC_ARMING => 3
  | MANUAL_MODE_ACTIVE => 4
  | MANUAL_MODE_MOVING_FORWARD => 5
  | MANUAL_MODE_MOVING_BACKWARD => 6
  | MANUAL_MODE_STOPPING => 7
  | MANUAL_MODE_ESC_DISARMING => 8
  | MANUAL_MODE_ERROR => 9
  | MANUAL_MODE_EMERGENCY_STOP => 10
  end.

Inductive trolley_operation_mode_t : Type :=
| TROLLEY_MODE_NONE
| TROLLEY_MODE_WIRE_LEARNING
| TROLLEY_MODE_AUTOMATIC
| TROLLEY_MODE_MANUAL.

Inductive mode_availability_t : Type :=
| MODE_BLOCKED_SENSORS_NOT_VALIDATED
| MODE_BLOCKED_WIRE_LEARNING_REQUIRED
| MODE_BLOCKED_SYSTEM_ERROR
| MODE_AVAILABLE
| MODE_ACTIVE
| MODE_STOPPING.

Definition mode_availability_eqb (a b : mode_availability_t) : bool :=
  match a, b with
  | MODE_BLOCKED_SENSORS_NOT_VALIDATED, MODE_BLOCKED_SENSORS_NOT_VALIDATED
  | MODE_BLOCKED_WIRE_LEARNING_REQUIRED, MODE_BLOCKED_WIRE_LEARNING_REQUIRED
  | MODE_BLOCKED_SYSTEM_ERROR, MODE_BLOCKED_SYSTEM_ERROR
  | MODE_AVAILABLE, MODE_AVAILABLE
  | MODE_ACTIVE, MODE_ACTIVE
  | MODE_STOPPING, MODE_STOPPING => true
  | _, _ => false
  end.

Inductive sensor_validation_state_t : Type :=
| SENSOR_VALIDATION_NOT_STARTED
| SENSOR_VALIDATION_IN_PROGRESS
| SENSOR_VALIDATION_HALL_PENDING
| SENSOR_VALIDATION_ACCEL_PENDING
| SENSOR_VALIDATION_COMPLETE
| SENSOR_VALIDATION_FAILED.

Definition sensor_validation_state_to_Z (s : sensor_validation_state_t) : Z :=
  match s with
  | SENSOR_VALIDATION_NOT_STARTED => 0
  | SENSOR_VALIDATION_IN_PROGRESS => 1
  | SENSOR_VALIDATION_HALL_PENDING => 2
  | SENSOR_VALIDATION_ACCEL_PENDING => 3
  | SENSOR_VALIDATION_COMPLETE => 4
  | SENSOR_VALIDATION_FAILED => 5
  end.

(** ** Structures and the globals of each translation unit

    One module per component.  Fields that the firmware only writes for
    reporting (statistics, formatted status lines, the copies of the
    learning and coasting results embedded in [system_mode_status_t]) are
    left out.  [set_f v r] is the C assignment [r.f = v]. *)

Module Hw.

Record hardware_status_t : Type := Build_hardware_status_t {
  esc_armed : bool;
  esc_responding : bool;
  current_esc_duty : Z;  (* uint16_t *)
  current_speed_ms : f32;
  target_speed_ms : f32;
  direction_forward : bool;
  total_rotations : Z;  (* uint32_t *)
  last_hall_time : Z;  (* uint64_t *)
  hall_sensor_healthy : bool;
  system_initialized : bool
}.

Definition set_esc_armed (v : bool) (r : hardware_status_t) : hardware_status_t :=
  let '(Build_hardware_status_t _ x1 x2 x3 x4 x5 x6 x7 x8 x9) := r in
    Build_hardware_status_t v x1 x2 x3 x4 x5 x6 x7 x8 x9.
Definition set_esc_responding (v : bool) (r : hardware_status_t) : hardware_status_t :=
  let '(Build_hardware_status_t x0 _ x2 x3 x4 x5 x6 x7 x8 x9) := r in
    Build_hardware_status_t x0 v x2 x3 x4 x5 x6 x7 x8 x9.
Definition set_current_esc_duty (v : Z) (r : hardware_status_t) : hardware_status_t :=
  let '(Build_hardware_status_t x0 x1 _ x3 x4 x5 x6 x7 x8 x9) := r in
    Build_hardware_status_t x0 x1 v x3 x4 x5 x6 x7 x8 x9.
Definition set_current_speed_ms (v : f32) (r : hardware_status_t) : hardware_status_t :=
  let '(Build_hardware_status_t x0 x1 x2 _ x4 x5 x6 x7 x8 x9) := r in
    Build_hardware_status_t x0 x1 x2 v x4 x5 x6 x7 x8 x9.
Definition set_target_speed_ms (v : f32) (r : hardware_status_t) : hardware_status_t :=
  let '(Build_hardware_status_t x0 x1 x2 x3 _ x5 x6 x7 x8 x9) := r in
    Build_hardware_status_t x0 x1 x2 x3 v x5 x6 x7 x8 x9.
Definition set_direction_forward (v : bool) (r : hardware_status_t) : hardware_status_t :=
  let '(Build_hardware_status_t x0 x1 x2 x3 x4 _ x6 x7 x8 x9) := r in
    Build_hardware_status_t x0 x1 x2 x3 x4 v x6 x7 x8 x9.
Definition set_total_rotations (v : Z) (r : hardware_status_t) : hardware_status_t :=
  let '(Build_hardware_status_t x0 x1 x2 x3 x4 x5 _ x7 x8 x9) := r in
    Build_hardware_status_t x0 x1 x2 x3 x4 x5 v x7 x8 x9.
Definition set_last_hall_time (v : Z) (r : hardware_status_t) : hardware_status_t :=
  let '(Build_hardware_status_t x0 x1 x2 x3 x4 x5 x6 _ x8 x9) := r in
    Build_hardware_status_t x0 x1 x2 x3 x4 x5 x6 v x8 x9.
Definition set_hall_sensor_healthy (v : bool) (r : hardware_status_t) : hardware_status_t :=
  let '(Build_hardware_status_t x0 x1 x2 x3 x4 x5 x6 x7 _ x9) := r in
    Build_hardware_status_t x0 x1 x2 x3 x4 x5 x6 x7 v x9.
Definition set_system_initialized (v : bool) (r : hardware_status_t) : hardware_status_t :=
  let '(Build_hardware_status_t x0 x1 x2 x3 x4 x5 x6 x7 x8 _) := r in
    Build_hardware_status_t x0 x1 x2 x3 x4 x5 x6 x7 x8 v.

Record globals : Type := Build_globals {
  g_hw_status : hardware_status_t;
  g_last_error : hardware_error_t;
  g_current_position_m : f32;
  g_rotation_count_offset : Z;  (* uint32_t *)
  g_rate_limiting_enabled : bool;
  g_last_esc_duty : Z;  (* uint16_t *)
  last_time : Z;  (* the local variable of hall_processing_task *)
  ledc_duty : Z  (* the PWM duty register written by ledc_set_duty *)
}.

Definition set_g_hw_status (v : hardware_status_t) (r : globals) : globals :=
  let '(Build_globals _ x1 x2 x3 x4 x5 x6 x7) := r in Build_globals v x1 x2 x3
    x4 x5 x6 x7.
Definition set_g_last_error (v : hardware_error_t) (r : globals) : globals :=
  let '(Build_globals x0 _ x2 x3 x4 x5 x6 x7) := r in Build_globals x0 v x2 x3
    x4 x5 x6 x7.
Definition set_g_current_position_m (v : f32) (r : globals) : globals :=
  let '(Build_globals x0 x1 _ x3 x4 x5 x6 x7) := r in Build_globals x0 x1 v x3
    x4 x5 x6 x7.
Definition set_g_rotation_count_offset (v : Z) (r : globals) : globals :=
  let '(Build_globals x0 x1 x2 _ x4 x5 x6 x7) := r in Build_globals x0 x1 x2 v
    x4 x5 x6 x7.
Definition set_g_rate_limiting_enabled (v : bool) (r : globals) : globals :=
  let '(Build_globals x0 x1 x2 x3 _ x5 x6 x7) := r in Build_globals x0 x1 x2
    x3 v x5 x6 x7.
Definition set_g_last_esc_duty (v : Z) (r : globals) : globals :=
  let '(Build_globals x0 x1 x2 x3 x4 _ x6 x7) := r in Build_globals x0 x1 x2
    x3 x4 v x6 x7.
Definition set_last_time (v : Z) (r : globals) : globals :=
  let '(Build_globals x0 x1 x2 x3 x4 x5 _ x7) := r in Build_globals x0 x1 x2
    x3 x4 x5 v x7.
Definition set_ledc_duty (v : Z) (r : globals) : globals :=
  let '(Build_globals x0 x1 x2 x3 x4 x5 x6 _) := r in Build_globals x0 x1 x2
    x3 x4 x5 x6 v.

End Hw.

Module Sh.

Record sensor_health_t : Type := Build_sensor_health_t {
  wheel_rotation_detected : bool;
  total_accel_g : f32;
  trolley_shake_detected : bool;
  system_ready : bool
}.

Definition set_wheel_rotation_detected (v : bool) (r : sensor_health_t) : sensor_health_t :=
  let '(Build_sensor_health_t _ x1 x2 x3) := r in Build_sensor_health_t v x1
    x2 x3.
Definition set_total_accel_g (v : f32) (r : sensor_health_t) : sensor_health_t :=
  let '(Build_sensor_health_t x0 _ x2 x3) := r in Build_sensor_health_t x0 v
    x2 x3.
Definition set_trolley_shake_detected (v : bool) (r : sensor_health_t) : sensor_health_t :=
  let '(Build_sensor_health_t x0 x1 _ x3) := r in Build_sensor_health_t x0 x1
    v x3.
Definition set_system_ready (v : bool) (r : sensor_health_t) : sensor_health_t :=
  let '(Build_sensor_health_t x0 x1 x2 _) := r in Build_sensor_health_t x0 x1
    x2 v.

End Sh.

Module Wl.

Record wire_learning_progress_t : Type := Build_wire_learning_progress_t {
  state : wire_learning_state_t;
  learning_start_time : Z;  (* uint64_t *)
  current_direction_forward : bool;
  direction_start_rotations : Z;  (* uint32_t *)
  direction_start_time : Z;  (* uint64_t *)
  current_learning_speed : f32;
  forward_rotations : Z;  (* uint32_t *)
  forward_distance_m : f32;
  forward_time_ms : Z;  (* uint32_t *)
  forward_end_method : wire_end_detection_method_t;
  reverse_rotations : Z;  (* uint32_t *)
  reverse_distance_m : f32;
  reverse_time_ms : Z;  (* uint32_t *)
  reverse_end_method : wire_end_detection_method_t;
  calculated_wire_length_m : f32;
  length_difference_percent : f32;
  learning_successful : bool;
  status_message : string;
  error_message : string
}.

Definition set_state (v : wire_learning_state_t) (r : wire_learning_progress_t) : wire_learning_progress_t :=
  let '(Build_wire_learning_progress_t _ x1 x2 x3 x4 x5 x6 x7 x8 x9 x10 x11
    x12 x13 x14 x15 x16 x17 x18) := r in Build_wire_learning_progress_t v x1
    x2 x3 x4 x5 x6 x7 x8 x9 x10 x11 x12 x13 x14 x15 x16 x17 x18.
Definition set_learning_start_time (v : Z) (r : wire_learning_progress_t) : wire_learning_progress_t :=
  let '(Build_wire_learning_progress_t x0 _ x2 x3 x4 x5 x6 x7 x8 x9 x10 x11
    x12 x13 x14 x15 x16 x17 x18) := r in Build_wire_learning_progress_t x0 v
    x2 x3 x4 x5 x6 x7 x8 x9 x10 x11 x12 x13 x14 x15 x16 x17 x18.
Definition set_current_direction_forward (v : bool) (r : wire_learning_progress_t) : wire_learning_progress_t :=
  let '(Build_wire_learning_progress_t x0 x1 _ x3 x4 x5 x6 x7 x8 x9 x10 x11
    x12 x13 x14 x15 x16 x17 x18) := r in Build_wire_learning_progress_t x0 x1
    v x3 x4 x5 x6 x7 x8 x9 x10 x11 x12 x13 x14 x15 x16 x17 x18.
Definition set_direction_start_rotations (v : Z) (r : wire_learning_progress_t) : wire_learning_progress_t :=
  let '(Build_wire_learning_progress_t x0 x1 x2 _ x4 x5 x6 x7 x8 x9 x10 x11
    x12 x13 x14 x15 x16 x17 x18) := r in Build_wire_learning_progress_t x0 x1
    x2 v x4 x5 x6 x7 x8 x9 x10 x11 x12 x13 x14 x15 x16 x17 x18.
Definition set_direction_start_time (v : Z) (r : wire_learning_progress_t) : wire_learning_progress_t :=
  let '(Build_wire_learning_progress_t x0 x1 x2 x3 _ x5 x6 x7 x8 x9 x10 x11
    x12 x13 x14 x15 x16 x17 x18) := r in Build_wire_learning_progress_t x0 x1
    x2 x3 v x5 x6 x7 x8 x9 x10 x11 x12 x13 x14 x15 x16 x17 x18.
Definition set_current_learning_speed (v : f32) (r : wire_learning_progress_t) : wire_learning_progress_t :=
  let '(Build_wire_learning_progress_t x0 x1 x2 x3 x4 _ x6 x7 x8 x9 x10 x11
    x12 x13 x14 x15 x16 x17 x18) := r in Build_wire_learning_progress_t x0 x1
    x2 x3 x4 v x6 x7 x8 x9 x10 x11 x12 x13 x14 x15 x16 x17 x18.
Definition set_forward_rotations (v : Z) (r : wire_learning_progress_t) : wire_learning_progress_t :=
  let '(Build_wire_learning_progress_t x0 x1 x2 x3 x4 x5 _ x7 x8 x9 x10 x11
    x12 x13 x14 x15 x16 x17 x18) := r in Build_wire_learning_progress_t x0 x1
    x2 x3 x4 x5 v x7 x8 x9 x10 x11 x12 x13 x14 x15 x16 x17 x18.
Definition set_forward_distance_m (v : f32) (r : wire_learning_progress_t) : wire_learning_progress_t :=
  let '(Build_wire_learning_progress_t x0 x1 x2 x3 x4 x5 x6 _ x8 x9 x10 x11
    x12 x13 x14 x15 x16 x17 x18) := r in Build_wire_learning_progress_t x0 x1
    x2 x3 x4 x5 x6 v x8 x9 x10 x11 x12 x13 x14 x15 x16 x17 x18.
Definition set_forward_time_ms (v : Z) (r : wire_learning_progress_t) : wire_learning_progress_t :=
  let '(Build_wire_learning_progress_t x0 x1 x2 x3 x4 x5 x6 x7 _ x9 x10 x11
    x12 x13 x14 x15 x16 x17 x18) := r in Build_wire_learning_progress_t x0 x1
    x2 x3 x4 x5 x6 x7 v x9 x10 x11 x12 x13 x14 x15 x16 x17 x18.
Definition set_forward_end_method (v : wire_end_detection_method_t) (r : wire_learning_progress_t) : wire_learning_progress_t :=
  let '(Build_wire_learning_progress_t x0 x1 x2 x3 x4 x5 x6 x7 x8 _ x10 x11
    x12 x13 x14 x15 x16 x17 x18) := r in Build_wire_learning_progress_t x0 x1
    x2 x3 x4 x5 x6 x7 x8 v x10 x11 x12 x13 x14 x15 x16 x17 x18.
Definition set_reverse_rotations (v : Z) (r : wire_learning_progress_t) : wire_learning_progress_t :=
  let '(Build_wire_learning_progress_t x0 x1 x2 x3 x4 x5 x6 x7 x8 x9 _ x11 x12
    x13 x14 x15 x16 x17 x18) := r in Build_wire_learning_progress_t x0 x1 x2
    x3 x4 x5 x6 x7 x8 x9 v x11 x12 x13 x14 x15 x16 x17 x18.
Definition set_reverse_distance_m (v : f32) (r : wire_learning_progress_t) : wire_learning_progress_t :=
  let '(Build_wire_learning_progress_t x0 x1 x2 x3 x4 x5 x6 x7 x8 x9 x10 _ x12
    x13 x14 x15 x16 x17 x18) := r in Build_wire_learning_progress_t x0 x1 x2
    x3 x4 x5 x6 x7 x8 x9 x10 v x12 x13 x14 x15 x16 x17 x18.
Definition set_reverse_time_ms (v : Z) (r : wire_learning_progress_t) : wire_learning_progress_t :=
  let '(Build_wire_learning_progress_t x0 x1 x2 x3 x4 x5 x6 x7 x8 x9 x10 x11 _
    x13 x14 x15 x16 x17 x18) := r in Build_wire_learning_progress_t x0 x1 x2
    x3 x4 x5 x6 x7 x8 x9 x10 x11 v x13 x14 x15 x16 x17 x18.
Definition set_reverse_end_method (v : wire_end_detection_method_t) (r : wire_learning_progress_t) : wire_learning_progress_t :=
  let '(Build_wire_learning_progress_t x0 x1 x2 x3 x4 x5 x6 x7 x8 x9 x10 x11
    x12 _ x14 x15 x16 x17 x18) := r in Build_wire_learning_progress_t x0 x1 x2
    x3 x4 x5 x6 x7 x8 x9 x10 x11 x12 v x14 x15 x16 x17 x18.
Definition set_calculated_wire_length_m (v : f32) (r : wire_learning_progress_t) : wire_learning_progress_t :=
  let '(Build_wire_learning_progress_t x0 x1 x2 x3 x4 x5 x6 x7 x8 x9 x10 x11
    x12 x13 _ x15 x16 x17 x18) := r in Build_wire_learning_progress_t x0 x1 x2
    x3 x4 x5 x6 x7 x8 x9 x10 x11 x12 x13 v x15 x16 x17 x18.
Definition set_length_difference_percent (v : f32) (r : wire_learning_progress_t) : wire_learning_progress_t :=
  let '(Build_wire_learning_progress_t x0 x1 x2 x3 x4 x5 x6 x7 x8 x9 x10 x11
    x12 x13 x14 _ x16 x17 x18) := r in Build_wire_learning_progress_t x0 x1 x2
    x3 x4 x5 x6 x7 x8 x9 x10 x11 x12 x13 x14 v x16 x17 x18.
Definition set_learning_successful (v : bool) (r : wire_learning_progress_t) : wire_learning_progress_t :=
  let '(Build_wire_learning_progress_t x0 x1 x2 x3 x4 x5 x6 x7 x8 x9 x10 x11
    x12 x13 x14 x15 _ x17 x18) := r in Build_wire_learning_progress_t x0 x1 x2
    x3 x4 x5 x6 x7 x8 x9 x10 x11 x12 x13 x14 x15 v x17 x18.
Definition set_status_message (v : string) (r : wire_learning_progress_t) : wire_learning_progress_t :=
  let '(Build_wire_learning_progress_t x0 x1 x2 x3 x4 x5 x6 x7 x8 x9 x10 x11
    x12 x13 x14 x15 x16 _ x18) := r in Build_wire_learning_progress_t x0 x1 x2
    x3 x4 x5 x6 x7 x8 x9 x10 x11 x12 x13 x14 x15 x16 v x18.
Definition set_error_message (v : string) (r : wire_learning_progress_t) : wire_learning_progress_t :=
  let '(Build_wire_learning_progress_t x0 x1 x2 x3 x4 x5 x6 x7 x8 x9 x10 x11
    x12 x13 x14 x15 x16 x17 _) := r in Build_wire_learning_progress_t x0 x1 x2
    x3 x4 x5 x6 x7 x8 x9 x10 x11 x12 x13 x14 x15 x16 x17 v.

Record wire_learning_results_t : Type := Build_wire_learning_results_t {
  complete : bool;
  wire_length_m : f32;
  optimal_learning_speed_ms : f32;
  optimal_cruise_speed_ms : f32;
  res_forward_rotations : Z;  (* forward_rotations *)
  res_reverse_rotations : Z;  (* reverse_rotations *)
  total_learning_time_ms : Z;  (* uint32_t *)
  primary_detection_method : wire_end_detection_method_t;
  learning_accuracy_percent : f32
}.

Definition set_complete (v : bool) (r : wire_learning_results_t) : wire_learning_results_t :=
  let '(Build_wire_learning_results_t _ x1 x2 x3 x4 x5 x6 x7 x8) := r in
    Build_wire_learning_results_t v x1 x2 x3 x4 x5 x6 x7 x8.
Definition set_wire_length_m (v : f32) (r : wire_learning_results_t) : wire_learning_results_t :=
  let '(Build_wire_learning_results_t x0 _ x2 x3 x4 x5 x6 x7 x8) := r in
    Build_wire_learning_results_t x0 v x2 x3 x4 x5 x6 x7 x8.
Definition set_optimal_learning_speed_ms (v : f32) (r : wire_learning_results_t) : wire_learning_results_t :=
  let '(Build_wire_learning_results_t x0 x1 _ x3 x4 x5 x6 x7 x8) := r in
    Build_wire_learning_results_t x0 x1 v x3 x4 x5 x6 x7 x8.
Definition set_optimal_cruise_speed_ms (v : f32) (r : wire_learning_results_t) : wire_learning_results_t :=
  let '(Build_wire_learning_results_t x0 x1 x2 _ x4 x5 x6 x7 x8) := r in
    Build_wire_learning_results_t x0 x1 x2 v x4 x5 x6 x7 x8.
Definition set_res_forward_rotations (v : Z) (r : wire_learning_results_t) : wire_learning_results_t :=
  let '(Build_wire_learning_results_t x0 x1 x2 x3 _ x5 x6 x7 x8) := r in
    Build_wire_learning_results_t x0 x1 x2 x3 v x5 x6 x7 x8.
Definition set_res_reverse_rotations (v : Z) (r : wire_learning_results_t) : wire_learning_results_t :=
  let '(Build_wire_learning_results_t x0 x1 x2 x3 x4 _ x6 x7 x8) := r in
    Build_wire_learning_results_t x0 x1 x2 x3 x4 v x6 x7 x8.
Definition set_total_learning_time_ms (v : Z) (r : wire_learning_results_t) : wire_learning_results_t :=
  let '(Build_wire_learning_results_t x0 x1 x2 x3 x4 x5 _ x7 x8) := r in
    Build_wire_learning_results_t x0 x1 x2 x3 x4 x5 v x7 x8.
Definition set_primary_detection_method (v : wire_end_detection_method_t) (r : wire_learning_results_t) : wire_learning_results_t :=
  let '(Build_wire_learning_results_t x0 x1 x2 x3 x4 x5 x6 _ x8) := r in
    Build_wire_learning_results_t x0 x1 x2 x3 x4 x5 x6 v x8.
Definition set_learning_accuracy_percent (v : f32) (r : wire_learning_results_t) : wire_learning_results_t :=
  let '(Build_wire_learning_results_t x0 x1 x2 x3 x4 x5 x6 x7 _) := r in
    Build_wire_learning_results_t x0 x1 x2 x3 x4 x5 x6 x7 v.

Record globals : Type := Build_globals {
  g_learning_progress : wire_learning_progress_t;
  g_learning_results : wire_learning_results_t;
  g_learning_initialized : bool;
  g_current_test_speed : f32;
  g_hall_pulses_at_speed_start : Z;  (* uint32_t *)
  g_speed_test_start_time : Z;  (* uint64_t *)
  g_speed_validated : bool;
  g_coasting_calibration_active : bool;
  g_coasting_start_rotations : Z;  (* uint32_t *)
  g_coasting_start_time : Z;  (* uint64_t *)
  g_coasting_start_speed : f32;
  g_consecutive_hall_timeouts : Z;  (* uint32_t *)
  g_speed_history : list f32;  (* float[5] *)
  g_speed_history_index : Z  (* int *)
}.

Definition set_g_learning_progress (v : wire_learning_progress_t) (r : globals) : globals :=
  let '(Build_globals _ x1 x2 x3 x4 x5 x6 x7 x8 x9 x10 x11 x12 x13) := r in
    Build_globals v x1 x2 x3 x4 x5 x6 x7 x8 x9 x10 x11 x12 x13.
Definition set_g_learning_results (v : wire_learning_results_t) (r : globals) : globals :=
  let '(Build_globals x0 _ x2 x3 x4 x5 x6 x7 x8 x9 x10 x11 x12 x13) := r in
    Build_globals x0 v x2 x3 x4 x5 x6 x7 x8 x9 x10 x11 x12 x13.
Definition set_g_learning_initialized (v : bool) (r : globals) : globals :=
  let '(Build_globals x0 x1 _ x3 x4 x5 x6 x7 x8 x9 x10 x11 x12 x13) := r in
    Build_globals x0 x1 v x3 x4 x5 x6 x7 x8 x9 x10 x11 x12 x13.
Definition set_g_current_test_speed (v : f32) (r : globals) : globals :=
  let '(Build_globals x0 x1 x2 _ x4 x5 x6 x7 x8 x9 x10 x11 x12 x13) := r in
    Build_globals x0 x1 x2 v x4 x5 x6 x7 x8 x9 x10 x11 x12 x13.
Definition set_g_hall_pulses_at_speed_start (v : Z) (r : globals) : globals :=
  let '(Build_globals x0 x1 x2 x3 _ x5 x6 x7 x8 x9 x10 x11 x12 x13) := r in
    Build_globals x0 x1 x2 x3 v x5 x6 x7 x8 x9 x10 x11 x12 x13.
Definition set_g_speed_test_start_time (v : Z) (r : globals) : globals :=
  let '(Build_globals x0 x1 x2 x3 x4 _ x6 x7 x8 x9 x10 x11 x12 x13) := r in
    Build_globals x0 x1 x2 x3 x4 v x6 x7 x8 x9 x10 x11 x12 x13.
Definition set_g_speed_validated (v : bool) (r : globals) : globals :=
  let '(Build_globals x0 x1 x2 x3 x4 x5 _ x7 x8 x9 x10 x11 x12 x13) := r in
    Build_globals x0 x1 x2 x3 x4 x5 v x7 x8 x9 x10 x11 x12 x13.
Definition set_g_coasting_calibration_active (v : bool) (r : globals) : globals :=
  let '(Build_globals x0 x1 x2 x3 x4 x5 x6 _ x8 x9 x10 x11 x12 x13) := r in
    Build_globals x0 x1 x2 x3 x4 x5 x6 v x8 x9 x10 x11 x12 x13.
Definition set_g_coasting_start_rotations (v : Z) (r : globals) : globals :=
  let '(Build_globals x0 x1 x2 x3 x4 x5 x6 x7 _ x9 x10 x11 x12 x13) := r in
    Build_globals x0 x1 x2 x3 x4 x5 x6 x7 v x9 x10 x11 x12 x13.
Definition set_g_coasting_start_time (v : Z) (r : globals) : globals :=
  let '(Build_globals x0 x1 x2 x3 x4 x5 x6 x7 x8 _ x10 x11 x12 x13) := r in
    Build_globals x0 x1 x2 x3 x4 x5 x6 x7 x8 v x10 x11 x12 x13.
Definition set_g_coasting_start_speed (v : f32) (r : globals) : globals :=
  let '(Build_globals x0 x1 x2 x3 x4 x5 x6 x7 x8 x9 _ x11 x12 x13) := r in
    Build_globals x0 x1 x2 x3 x4 x5 x6 x7 x8 x9 v x11 x12 x13.
Definition set_g_consecutive_hall_timeouts (v : Z) (r : globals) : globals :=
  let '(Build_globals x0 x1 x2 x3 x4 x5 x6 x7 x8 x9 x10 _ x12 x13) := r in
    Build_globals x0 x1 x2 x3 x4 x5 x6 x7 x8 x9 x10 v x12 x13.
Definition set_g_speed_history (v : list f32) (r : globals) : globals :=
  let '(Build_globals x0 x1 x2 x3 x4 x5 x6 x7 x8 x9 x10 x11 _ x13) := r in
    Build_globals x0 x1 x2 x3 x4 x5 x6 x7 x8 x9 x10 x11 v x13.
Definition set_g_speed_history_index (v : Z) (r : globals) : globals :=
  let '(Build_globals x0 x1 x2 x3 x4 x5 x6 x7 x8 x9 x10 x11 x12 _) := r in
    Build_globals x0 x1 x2 x3 x4 x5 x6 x7 x8 x9 x10 x11 x12 v.

End Wl.

Module Mc.

Record coasting_data_t : Type := Build_coasting_data_t {
  calibrated : bool;
  coasting_distance_m : f32;
  coast_start_distance_m : f32;
  coast_time_ms : Z;  (* uint32_t *)
  decel_rate_ms2 : f32
}.

Definition set_calibrated (v : bool) (r : coasting_data_t) : coasting_data_t :=
  let '(Build_coasting_data_t _ x1 x2 x3 x4) := r in Build_coasting_data_t v
    x1 x2 x3 x4.
Definition set_coasting_distance_m (v : f32) (r : coasting_data_t) : coasting_data_t :=
  let '(Build_coasting_data_t x0 _ x2 x3 x4) := r in Build_coasting_data_t x0
    v x2 x3 x4.
Definition set_coast_start_distance_m (v : f32) (r : coasting_data_t) : coasting_data_t :=
  let '(Build_coasting_data_t x0 x1 _ x3 x4) := r in Build_coasting_data_t x0
    x1 v x3 x4.
Definition set_coast_time_ms (v : Z) (r : coasting_data_t) : coasting_data_t :=
  let '(Build_coasting_data_t x0 x1 x2 _ x4) := r in Build_coasting_data_t x0
    x1 x2 v x4.
Definition set_decel_rate_ms2 (v : f32) (r : coasting_data_t) : coasting_data_t :=
  let '(Build_coasting_data_t x0 x1 x2 x3 _) := r in Build_coasting_data_t x0
    x1 x2 x3 v.

Record system_mode_status_t : Type := Build_system_mode_status_t {
  current_mode : trolley_operation_mode_t;
  previous_mode : trolley_operation_mode_t;
  mode_start_time : Z;  (* uint64_t *)
  wire_learning_availability : mode_availability_t;
  automatic_availability : mode_availability_t;
  manual_availability : mode_availability_t;
  sensor_validation_state : sensor_validation_state_t;
  sensors_validated : bool;
  hall_validation_complete : bool;
  accel_validation_complete : bool;
  sensor_validation_message : string;
  error_message : string;
  system_healthy : bool;
  last_error_time : Z  (* uint64_t *)
}.

Definition set_current_mode (v : trolley_operation_mode_t) (r : system_mode_status_t) : system_mode_status_t :=
  let '(Build_system_mode_status_t _ x1 x2 x3 x4 x5 x6 x7 x8 x9 x10 x11 x12
    x13) := r in Build_system_mode_status_t v x1 x2 x3 x4 x5 x6 x7 x8 x9 x10
    x11 x12 x13.
Definition set_previous_mode (v : trolley_operation_mode_t) (r : system_mode_status_t) : system_mode_status_t :=
  let '(Build_system_mode_status_t x0 _ x2 x3 x4 x5 x6 x7 x8 x9 x10 x11 x12
    x13) := r in Build_system_mode_status_t x0 v x2 x3 x4 x5 x6 x7 x8 x9 x10
    x11 x12 x13.
Definition set_mode_start_time (v : Z) (r : system_mode_status_t) : system_mode_status_t :=
  let '(Build_system_mode_status_t x0 x1 _ x3 x4 x5 x6 x7 x8 x9 x10 x11 x12
    x13) := r in Build_system_mode_status_t x0 x1 v x3 x4 x5 x6 x7 x8 x9 x10
    x11 x12 x13.
Definition set_wire_learning_availability (v : mode_availability_t) (r : system_mode_status_t) : system_mode_status_t :=
  let '(Build_system_mode_status_t x0 x1 x2 _ x4 x5 x6 x7 x8 x9 x10 x11 x12
    x13) := r in Build_system_mode_status_t x0 x1 x2 v x4 x5 x6 x7 x8 x9 x10
    x11 x12 x13.
Definition set_automatic_availability (v : mode_availability_t) (r : system_mode_status_t) : system_mode_status_t :=
  let '(Build_system_mode_status_t x0 x1 x2 x3 _ x5 x6 x7 x8 x9 x10 x11 x12
    x13) := r in Build_system_mode_status_t x0 x1 x2 x3 v x5 x6 x7 x8 x9 x10
    x11 x12 x13.
Definition set_manual_availability (v : mode_availability_t) (r : system_mode_status_t) : system_mode_status_t :=
  let '(Build_system_mode_status_t x0 x1 x2 x3 x4 _ x6 x7 x8 x9 x10 x11 x12
    x13) := r in Build_system_mode_status_t x0 x1 x2 x3 x4 v x6 x7 x8 x9 x10
    x11 x12 x13.
Definition set_sensor_validation_state (v : sensor_validation_state_t) (r : system_mode_status_t) : system_mode_status_t :=
  let '(Build_system_mode_status_t x0 x1 x2 x3 x4 x5 _ x7 x8 x9 x10 x11 x12
    x13) := r in Build_system_mode_status_t x0 x1 x2 x3 x4 x5 v x7 x8 x9 x10
    x11 x12 x13.
Definition set_sensors_validated (v : bool) (r : system_mode_status_t) : system_mode_status_t :=
  let '(Build_system_mode_status_t x0 x1 x2 x3 x4 x5 x6 _ x8 x9 x10 x11 x12
    x13) := r in Build_system_mode_status_t x0 x1 x2 x3 x4 x5 x6 v x8 x9 x10
    x11 x12 x13.
Definition set_hall_validation_complete (v : bool) (r : system_mode_status_t) : system_mode_status_t :=
  let '(Build_system_mode_status_t x0 x1 x2 x3 x4 x5 x6 x7 _ x9 x10 x11 x12
    x13) := r in Build_system_mode_status_t x0 x1 x2 x3 x4 x5 x6 x7 v x9 x10
    x11 x12 x13.
Definition set_accel_validation_complete (v : bool) (r : system_mode_status_t) : system_mode_status_t :=
  let '(Build_system_mode_status_t x0 x1 x2 x3 x4 x5 x6 x7 x8 _ x10 x11 x12
    x13) := r in Build_system_mode_status_t x0 x1 x2 x3 x4 x5 x6 x7 x8 v x10
    x11 x12 x13.
Definition set_sensor_validation_message (v : string) (r : system_mode_status_t) : system_mode_status_t :=
  let '(Build_system_mode_status_t x0 x1 x2 x3 x4 x5 x6 x7 x8 x9 _ x11 x12
    x13) := r in Build_system_mode_status_t x0 x1 x2 x3 x4 x5 x6 x7 x8 x9 v
    x11 x12 x13.
Definition set_error_message (v : string) (r : system_mode_status_t) : system_mode_status_t :=
  let '(Build_system_mode_status_t x0 x1 x2 x3 x4 x5 x6 x7 x8 x9 x10 _ x12
    x13) := r in Build_system_mode_status_t x0 x1 x2 x3 x4 x5 x6 x7 x8 x9 x10
    v x12 x13.
Definition set_system_healthy (v : bool) (r : system_mode_status_t) : system_mode_status_t :=
  let '(Build_system_mode_status_t x0 x1 x2 x3 x4 x5 x6 x7 x8 x9 x10 x11 _
    x13) := r in Build_system_mode_status_t x0 x1 x2 x3 x4 x5 x6 x7 x8 x9 x10
    x11 v x13.
Definition set_last_error_time (v : Z) (r : system_mode_status_t) : system_mode_status_t :=
  let '(Build_system_mode_status_t x0 x1 x2 x3 x4 x5 x6 x7 x8 x9 x10 x11 x12
    _) := r in Build_system_mode_status_t x0 x1 x2 x3 x4 x5 x6 x7 x8 x9 x10
    x11 x12 v.

Record globals : Type := Build_globals {
  g_mode_status : system_mode_status_t;
  g_coordinator_initialized : bool;
  g_sensor_validation_start_time : Z;  (* uint64_t *)
  g_hall_validation_user_confirmed : bool;
  g_accel_validation_user_confirmed : bool;
  g_wire_learning_data : Wl.wire_learning_results_t;
  g_coasting_data : coasting_data_t;
  g_error_count : Z;  (* uint32_t *)
  g_last_error_reset_time : Z;  (* uint64_t *)
  nvs_wire_learning : option Wl.wire_learning_results_t;  (* NVS blob wire_learning *)
  nvs_coasting : option coasting_data_t  (* NVS blob coasting *)
}.

Definition set_g_mode_status (v : system_mode_status_t) (r : globals) : globals :=
  let '(Build_globals _ x1 x2 x3 x4 x5 x6 x7 x8 x9 x10) := r in Build_globals
    v x1 x2 x3 x4 x5 x6 x7 x8 x9 x10.
Definition set_g_coordinator_initialized (v : bool) (r : globals) : globals :=
  let '(Build_globals x0 _ x2 x3 x4 x5 x6 x7 x8 x9 x10) := r in Build_globals
    x0 v x2 x3 x4 x5 x6 x7 x8 x9 x10.
Definition set_g_sensor_validation_start_time (v : Z) (r : globals) : globals :=
  let '(Build_globals x0 x1 _ x3 x4 x5 x6 x7 x8 x9 x10) := r in Build_globals
    x0 x1 v x3 x4 x5 x6 x7 x8 x9 x10.
Definition set_g_hall_validation_user_confirmed (v : bool) (r : globals) : globals :=
  let '(Build_globals x0 x1 x2 _ x4 x5 x6 x7 x8 x9 x10) := r in Build_globals
    x0 x1 x2 v x4 x5 x6 x7 x8 x9 x10.
Definition set_g_accel_validation_user_confirmed (v : bool) (r : globals) : globals :=
  let '(Build_globals x0 x1 x2 x3 _ x5 x6 x7 x8 x9 x10) := r in Build_globals
    x0 x1 x2 x3 v x5 x6 x7 x8 x9 x10.
Definition set_g_wire_learning_data (v : Wl.wire_learning_results_t) (r : globals) : globals :=
  let '(Build_globals x0 x1 x2 x3 x4 _ x6 x7 x8 x9 x10) := r in Build_globals
    x0 x1 x2 x3 x4 v x6 x7 x8 x9 x10.
Definition set_g_coasting_data (v : coasting_data_t) (r : globals) : globals :=
  let '(Build_globals x0 x1 x2 x3 x4 x5 _ x7 x8 x9 x10) := r in Build_globals
    x0 x1 x2 x3 x4 x5 v x7 x8 x9 x10.
Definition set_g_error_count (v : Z) (r : globals) : globals :=
  let '(Build_globals x0 x1 x2 x3 x4 x5 x6 _ x8 x9 x10) := r in Build_globals
    x0 x1 x2 x3 x4 x5 x6 v x8 x9 x10.
Definition set_g_last_error_reset_time (v : Z) (r : globals) : globals :=
  let '(Build_globals x0 x1 x2 x3 x4 x5 x6 x7 _ x9 x10) := r in Build_globals
    x0 x1 x2 x3 x4 x5 x6 x7 v x9 x10.
Definition set_nvs_wire_learning (v : option Wl.wire_learning_results_t) (r : globals) : globals :=
  let '(Build_globals x0 x1 x2 x3 x4 x5 x6 x7 x8 _ x10) := r in Build_globals
    x0 x1 x2 x3 x4 x5 x6 x7 x8 v x10.
Definition set_nvs_coasting (v : option coasting_data_t) (r : globals) : globals :=
  let '(Build_globals x0 x1 x2 x3 x4 x5 x6 x7 x8 x9 _) := r in Build_globals
    x0 x1 x2 x3 x4 x5 x6 x7 x8 x9 v.

End Mc.

Module Am.

Record coasting_calibration_t : Type := Build_coasting_calibration_t {
  calibrated : bool;
  calibration_speed_ms : f32;
  coasting_distance_m : f32;
  coasting_time_ms : Z;  (* uint32_t *)
  deceleration_rate_ms2 : f32;
  coast_start_distance_m : f32;
  calibration_rotations : Z;  (* uint32_t *)
  calibration_successful : bool
}.

Definition set_calibrated (v : bool) (r : coasting_calibration_t) : coasting_calibration_t :=
  let '(Build_coasting_calibration_t _ x1 x2 x3 x4 x5 x6 x7) := r in
    Build_coasting_calibration_t v x1 x2 x3 x4 x5 x6 x7.
Definition set_calibration_speed_ms (v : f32) (r : coasting_calibration_t) : coasting_calibration_t :=
  let '(Build_coasting_calibration_t x0 _ x2 x3 x4 x5 x6 x7) := r in
    Build_coasting_calibration_t x0 v x2 x3 x4 x5 x6 x7.
Definition set_coasting_distance_m (v : f32) (r : coasting_calibration_t) : coasting_calibration_t :=
  let '(Build_coasting_calibration_t x0 x1 _ x3 x4 x5 x6 x7) := r in
    Build_coasting_calibration_t x0 x1 v x3 x4 x5 x6 x7.
Definition set_coasting_time_ms (v : Z) (r : coasting_calibration_t) : coasting_calibration_t :=
  let '(Build_coasting_calibration_t x0 x1 x2 _ x4 x5 x6 x7) := r in
    Build_coasting_calibration_t x0 x1 x2 v x4 x5 x6 x7.
Definition set_deceleration_rate_ms2 (v : f32) (r : coasting_calibration_t) : coasting_calibration_t :=
  let '(Build_coasting_calibration_t x0 x1 x2 x3 _ x5 x6 x7) := r in
    Build_coasting_calibration_t x0 x1 x2 x3 v x5 x6 x7.
Definition set_coast_start_distance_m (v : f32) (r : coasting_calibration_t) : coasting_calibration_t :=
  let '(Build_coasting_calibration_t x0 x1 x2 x3 x4 _ x6 x7) := r in
    Build_coasting_calibration_t x0 x1 x2 x3 x4 v x6 x7.
Definition set_calibration_rotations (v : Z) (r : coasting_calibration_t) : coasting_calibration_t :=
  let '(Build_coasting_calibration_t x0 x1 x2 x3 x4 x5 _ x7) := r in
    Build_coasting_calibration_t x0 x1 x2 x3 x4 x5 v x7.
Definition set_calibration_successful (v : bool) (r : coasting_calibration_t) : coasting_calibration_t :=
  let '(Build_coasting_calibration_t x0 x1 x2 x3 x4 x5 x6 _) := r in
    Build_coasting_calibration_t x0 x1 x2 x3 x4 x5 x6 v.

Record automatic_mode_progress_t : Type := Build_automatic_mode_progress_t {
  state : automatic_mode_state_t;
  state_start_time : Z;  (* uint64_t *)
  mode_start_time : Z;  (* uint64_t *)
  current_target_speed : f32;
  acceleration_rate : f32;
  esc_auto_armed : bool;
  coasting : coasting_calibration_t;
  current_direction_forward : bool;  (* cycle_data.current_direction_forward *)
  user_interrupted : bool;
  finishing_current_run : bool;
  wire_length_m : f32;
  current_position_m : f32;
  status_message : string;
  error_message : string
}.

Definition set_state (v : automatic_mode_state_t) (r : automatic_mode_progress_t) : automatic_mode_progress_t :=
  let '(Build_automatic_mode_progress_t _ x1 x2 x3 x4 x5 x6 x7 x8 x9 x10 x11
    x12 x13) := r in Build_automatic_mode_progress_t v x1 x2 x3 x4 x5 x6 x7 x8
    x9 x10 x11 x12 x13.
Definition set_state_start_time (v : Z) (r : automatic_mode_progress_t) : automatic_mode_progress_t :=
  let '(Build_automatic_mode_progress_t x0 _ x2 x3 x4 x5 x6 x7 x8 x9 x10 x11
    x12 x13) := r in Build_automatic_mode_progress_t x0 v x2 x3 x4 x5 x6 x7 x8
    x9 x10 x11 x12 x13.
Definition set_mode_start_time (v : Z) (r : automatic_mode_progress_t) : automatic_mode_progress_t :=
  let '(Build_automatic_mode_progress_t x0 x1 _ x3 x4 x5 x6 x7 x8 x9 x10 x11
    x12 x13) := r in Build_automatic_mode_progress_t x0 x1 v x3 x4 x5 x6 x7 x8
    x9 x10 x11 x12 x13.
Definition set_current_target_speed (v : f32) (r : automatic_mode_progress_t) : automatic_mode_progress_t :=
  let '(Build_automatic_mode_progress_t x0 x1 x2 _ x4 x5 x6 x7 x8 x9 x10 x11
    x12 x13) := r in Build_automatic_mode_progress_t x0 x1 x2 v x4 x5 x6 x7 x8
    x9 x10 x11 x12 x13.
Definition set_acceleration_rate (v : f32) (r : automatic_mode_progress_t) : automatic_mode_progress_t :=
  let '(Build_automatic_mode_progress_t x0 x1 x2 x3 _ x5 x6 x7 x8 x9 x10 x11
    x12 x13) := r in Build_automatic_mode_progress_t x0 x1 x2 x3 v x5 x6 x7 x8
    x9 x10 x11 x12 x13.
Definition set_esc_auto_armed (v : bool) (r : automatic_mode_progress_t) : automatic_mode_progress_t :=
  let '(Build_automatic_mode_progress_t x0 x1 x2 x3 x4 _ x6 x7 x8 x9 x10 x11
    x12 x13) := r in Build_automatic_mode_progress_t x0 x1 x2 x3 x4 v x6 x7 x8
    x9 x10 x11 x12 x13.
Definition set_coasting (v : coasting_calibration_t) (r : automatic_mode_progress_t) : automatic_mode_progress_t :=
  let '(Build_automatic_mode_progress_t x0 x1 x2 x3 x4 x5 _ x7 x8 x9 x10 x11
    x12 x13) := r in Build_automatic_mode_progress_t x0 x1 x2 x3 x4 x5 v x7 x8
    x9 x10 x11 x12 x13.
Definition set_current_direction_forward (v : bool) (r : automatic_mode_progress_t) : automatic_mode_progress_t :=
  let '(Build_automatic_mode_progress_t x0 x1 x2 x3 x4 x5 x6 _ x8 x9 x10 x11
    x12 x13) := r in Build_automatic_mode_progress_t x0 x1 x2 x3 x4 x5 x6 v x8
    x9 x10 x11 x12 x13.
Definition set_user_interrupted (v : bool) (r : automatic_mode_progress_t) : automatic_mode_progress_t :=
  let '(Build_automatic_mode_progress_t x0 x1 x2 x3 x4 x5 x6 x7 _ x9 x10 x11
    x12 x13) := r in Build_automatic_mode_progress_t x0 x1 x2 x3 x4 x5 x6 x7 v
    x9 x10 x11 x12 x13.
Definition set_finishing_current_run (v : bool) (r : automatic_mode_progress_t) : automatic_mode_progress_t :=
  let '(Build_automatic_mode_progress_t x0 x1 x2 x3 x4 x5 x6 x7 x8 _ x10 x11
    x12 x13) := r in Build_automatic_mode_progress_t x0 x1 x2 x3 x4 x5 x6 x7
    x8 v x10 x11 x12 x13.
Definition set_wire_length_m (v : f32) (r : automatic_mode_progress_t) : automatic_mode_progress_t :=
  let '(Build_automatic_mode_progress_t x0 x1 x2 x3 x4 x5 x6 x7 x8 x9 _ x11
    x12 x13) := r in Build_automatic_mode_progress_t x0 x1 x2 x3 x4 x5 x6 x7
    x8 x9 v x11 x12 x13.
Definition set_current_position_m (v : f32) (r : automatic_mode_progress_t) : automatic_mode_progress_t :=
  let '(Build_automatic_mode_progress_t x0 x1 x2 x3 x4 x5 x6 x7 x8 x9 x10 _
    x12 x13) := r in Build_automatic_mode_progress_t x0 x1 x2 x3 x4 x5 x6 x7
    x8 x9 x10 v x12 x13.
Definition set_status_message (v : string) (r : automatic_mode_progress_t) : automatic_mode_progress_t :=
  let '(Build_automatic_mode_progress_t x0 x1 x2 x3 x4 x5 x6 x7 x8 x9 x10 x11
    _ x13) := r in Build_automatic_mode_progress_t x0 x1 x2 x3 x4 x5 x6 x7 x8
    x9 x10 x11 v x13.
Definition set_error_message (v : string) (r : automatic_mode_progress_t) : automatic_mode_progress_t :=
  let '(Build_automatic_mode_progress_t x0 x1 x2 x3 x4 x5 x6 x7 x8 x9 x10 x11
    x12 _) := r in Build_automatic_mode_progress_t x0 x1 x2 x3 x4 x5 x6 x7 x8
    x9 x10 x11 x12 v.

Record globals : Type := Build_globals {
  g_auto_progress : automatic_mode_progress_t;
  g_auto_initialized : bool;
  g_current_acceleration_target : f32;
  g_acceleration_start_time : Z;  (* uint64_t *)
  g_acceleration_start_rotations : Z;  (* uint32_t *)
  g_coasting_in_progress : bool;
  g_coasting_start_time : Z;  (* uint64_t *)
  g_coasting_start_rotations : Z;  (* uint32_t *)
  g_coasting_start_speed : f32;
  g_user_interruption_requested : bool;
  g_interruption_request_time : Z;  (* uint64_t *)
  calibration_motor_stopped : bool  (* static local of automatic_mode_update_coasting_calibration *)
}.

Definition set_g_auto_progress (v : automatic_mode_progress_t) (r : globals) : globals :=
  let '(Build_globals _ x1 x2 x3 x4 x5 x6 x7 x8 x9 x10 x11) := r in
    Build_globals v x1 x2 x3 x4 x5 x6 x7 x8 x9 x10 x11.
Definition set_g_auto_initialized (v : bool) (r : globals) : globals :=
  let '(Build_globals x0 _ x2 x3 x4 x5 x6 x7 x8 x9 x10 x11) := r in
    Build_globals x0 v x2 x3 x4 x5 x6 x7 x8 x9 x10 x11.
Definition set_g_current_acceleration_target (v : f32) (r : globals) : globals :=
  let '(Build_globals x0 x1 _ x3 x4 x5 x6 x7 x8 x9 x10 x11) := r in
    Build_globals x0 x1 v x3 x4 x5 x6 x7 x8 x9 x10 x11.
Definition set_g_acceleration_start_time (v : Z) (r : globals) : globals :=
  let '(Build_globals x0 x1 x2 _ x4 x5 x6 x7 x8 x9 x10 x11) := r in
    Build_globals x0 x1 x2 v x4 x5 x6 x7 x8 x9 x10 x11.
Definition set_g_acceleration_start_rotations (v : Z) (r : globals) : globals :=
  let '(Build_globals x0 x1 x2 x3 _ x5 x6 x7 x8 x9 x10 x11) := r in
    Build_globals x0 x1 x2 x3 v x5 x6 x7 x8 x9 x10 x11.
Definition set_g_coasting_in_progress (v : bool) (r : globals) : globals :=
  let '(Build_globals x0 x1 x2 x3 x4 _ x6 x7 x8 x9 x10 x11) := r in
    Build_globals x0 x1 x2 x3 x4 v x6 x7 x8 x9 x10 x11.
Definition set_g_coasting_start_time (v : Z) (r : globals) : globals :=
  let '(Build_globals x0 x1 x2 x3 x4 x5 _ x7 x8 x9 x10 x11) := r in
    Build_globals x0 x1 x2 x3 x4 x5 v x7 x8 x9 x10 x11.
Definition set_g_coasting_start_rotations (v : Z) (r : globals) : globals :=
  let '(Build_globals x0 x1 x2 x3 x4 x5 x6 _ x8 x9 x10 x11) := r in
    Build_globals x0 x1 x2 x3 x4 x5 x6 v x8 x9 x10 x11.
Definition set_g_coasting_start_speed (v : f32) (r : globals) : globals :=
  let '(Build_globals x0 x1 x2 x3 x4 x5 x6 x7 _ x9 x10 x11) := r in
    Build_globals x0 x1 x2 x3 x4 x5 x6 x7 v x9 x10 x11.
Definition set_g_user_interruption_requested (v : bool) (r : globals) : globals :=
  let '(Build_globals x0 x1 x2 x3 x4 x5 x6 x7 x8 _ x10 x11) := r in
    Build_globals x0 x1 x2 x3 x4 x5 x6 x7 x8 v x10 x11.
Definition set_g_interruption_request_time (v : Z) (r : globals) : globals :=
  let '(Build_globals x0 x1 x2 x3 x4 x5 x6 x7 x8 x9 _ x11) := r in
    Build_globals x0 x1 x2 x3 x4 x5 x6 x7 x8 x9 v x11.
Definition set_calibration_motor_stopped (v : bool) (r : globals) : globals :=
  let '(Build_globals x0 x1 x2 x3 x4 x5 x6 x7 x8 x9 x10 _) := r in
    Build_globals x0 x1 x2 x3 x4 x5 x6 x7 x8 x9 x10 v.

End Am.

Module Mm.

Record manual_mode_status_t : Type := Build_manual_mode_status_t {
  state : manual_mode_state_t;
  mode_start_time : Z;  (* uint64_t *)
  current_speed_ms : f32;
  target_speed_ms : f32;
  direction_forward : bool;
  motor_active : bool;
  esc_armed : bool;
  esc_responding : bool;
  esc_arm_time : Z;  (* uint64_t *)
  command_count : Z;  (* uint32_t *)
  error_count : Z;  (* uint32_t *)
  status_message : string;
  error_message : string
}.

Definition set_state (v : manual_mode_state_t) (r : manual_mode_status_t) : manual_mode_status_t :=
  let '(Build_manual_mode_status_t _ x1 x2 x3 x4 x5 x6 x7 x8 x9 x10 x11 x12)
    := r in Build_manual_mode_status_t v x1 x2 x3 x4 x5 x6 x7 x8 x9 x10 x11
    x12.
Definition set_mode_start_time (v : Z) (r : manual_mode_status_t) : manual_mode_status_t :=
  let '(Build_manual_mode_status_t x0 _ x2 x3 x4 x5 x6 x7 x8 x9 x10 x11 x12)
    := r in Build_manual_mode_status_t x0 v x2 x3 x4 x5 x6 x7 x8 x9 x10 x11
    x12.
Definition set_current_speed_ms (v : f32) (r : manual_mode_status_t) : manual_mode_status_t :=
  let '(Build_manual_mode_status_t x0 x1 _ x3 x4 x5 x6 x7 x8 x9 x10 x11 x12)
    := r in Build_manual_mode_status_t x0 x1 v x3 x4 x5 x6 x7 x8 x9 x10 x11
    x12.
Definition set_target_speed_ms (v : f32) (r : manual_mode_status_t) : manual_mode_status_t :=
  let '(Build_manual_mode_status_t x0 x1 x2 _ x4 x5 x6 x7 x8 x9 x10 x11 x12)
    := r in Build_manual_mode_status_t x0 x1 x2 v x4 x5 x6 x7 x8 x9 x10 x11
    x12.
Definition set_direction_forward (v : bool) (r : manual_mode_status_t) : manual_mode_status_t :=
  let '(Build_manual_mode_status_t x0 x1 x2 x3 _ x5 x6 x7 x8 x9 x10 x11 x12)
    := r in Build_manual_mode_status_t x0 x1 x2 x3 v x5 x6 x7 x8 x9 x10 x11
    x12.
Definition set_motor_active (v : bool) (r : manual_mode_status_t) : manual_mode_status_t :=
  let '(Build_manual_mode_status_t x0 x1 x2 x3 x4 _ x6 x7 x8 x9 x10 x11 x12)
    := r in Build_manual_mode_status_t x0 x1 x2 x3 x4 v x6 x7 x8 x9 x10 x11
    x12.
Definition set_esc_armed (v : bool) (r : manual_mode_status_t) : manual_mode_status_t :=
  let '(Build_manual_mode_status_t x0 x1 x2 x3 x4 x5 _ x7 x8 x9 x10 x11 x12)
    := r in Build_manual_mode_status_t x0 x1 x2 x3 x4 x5 v x7 x8 x9 x10 x11
    x12.
Definition set_esc_responding (v : bool) (r : manual_mode_status_t) : manual_mode_status_t :=
  let '(Build_manual_mode_status_t x0 x1 x2 x3 x4 x5 x6 _ x8 x9 x10 x11 x12)
    := r in Build_manual_mode_status_t x0 x1 x2 x3 x4 x5 x6 v x8 x9 x10 x11
    x12.
Definition set_esc_arm_time (v : Z) (r : manual_mode_status_t) : manual_mode_status_t :=
  let '(Build_manual_mode_status_t x0 x1 x2 x3 x4 x5 x6 x7 _ x9 x10 x11 x12)
    := r in Build_manual_mode_status_t x0 x1 x2 x3 x4 x5 x6 x7 v x9 x10 x11
    x12.
Definition set_command_count (v : Z) (r : manual_mode_status_t) : manual_mode_status_t :=
  let '(Build_manual_mode_status_t x0 x1 x2 x3 x4 x5 x6 x7 x8 _ x10 x11 x12)
    := r in Build_manual_mode_status_t x0 x1 x2 x3 x4 x5 x6 x7 x8 v x10 x11
    x12.
Definition set_error_count (v : Z) (r : manual_mode_status_t) : manual_mode_status_t :=
  let '(Build_manual_mode_status_t x0 x1 x2 x3 x4 x5 x6 x7 x8 x9 _ x11 x12) :=
    r in Build_manual_mode_status_t x0 x1 x2 x3 x4 x5 x6 x7 x8 x9 v x11 x12.
Definition set_status_message (v : string) (r : manual_mode_status_t) : manual_mode_status_t :=
  let '(Build_manual_mode_status_t x0 x1 x2 x3 x4 x5 x6 x7 x8 x9 x10 _ x12) :=
    r in Build_manual_mode_status_t x0 x1 x2 x3 x4 x5 x6 x7 x8 x9 x10 v x12.
Definition set_error_message (v : string) (r : manual_mode_status_t) : manual_mode_status_t :=
  let '(Build_manual_mode_status_t x0 x1 x2 x3 x4 x5 x6 x7 x8 x9 x10 x11 _) :=
    r in Build_manual_mode_status_t x0 x1 x2 x3 x4 x5 x6 x7 x8 x9 x10 x11 v.

Record globals : Type := Build_globals {
  g_manual_status : manual_mode_status_t;
  g_manual_initialized : bool;
  g_last_motion_validation_time : Z;  (* uint64_t *)
  g_motion_validation_failures : Z  (* uint32_t *)
}.

Definition set_g_manual_status (v : manual_mode_status_t) (r : globals) : globals :=
  let '(Build_globals _ x1 x2 x3) := r in Build_globals v x1 x2 x3.
Definition set_g_manual_initialized (v : bool) (r : globals) : globals :=
  let '(Build_globals x0 _ x2 x3) := r in Build_globals x0 v x2 x3.
Definition set_g_last_motion_validation_time (v : Z) (r : globals) : globals :=
  let '(Build_globals x0 x1 _ x3) := r in Build_globals x0 x1 v x3.
Definition set_g_motion_validation_failures (v : Z) (r : globals) : globals :=
  let '(Build_globals x0 x1 x2 _) := r in Build_globals x0 x1 x2 v.

End Mm.


(** ** The whole firmware state *)

Record system : Type := Build_system {
  clock : Z;  (* esp_timer_get_time(), microseconds, uint64_t *)
  hw : Hw.globals;
  sh : Sh.sensor_health_t;
  wl : Wl.globals;
  am : Am.globals;
  mm : Mm.globals;
  mc : Mc.globals
}.

Definition set_clock (v : Z) (s : system) : system :=
  let '(Build_system _ x1 x2 x3 x4 x5 x6) := s in Build_system v x1 x2 x3 x4 x5 x6.
Definition set_hw (v : Hw.globals) (s : system) : system :=
  let '(Build_system x0 _ x2 x3 x4 x5 x6) := s in Build_system x0 v x2 x3 x4 x5 x6.
Definition set_sh (v : Sh.sensor_health_t) (s : system) : system :=
  let '(Build_system x0 x1 _ x3 x4 x5 x6) := s in Build_system x0 x1 v x3 x4 x5 x6.
Definition set_wl (v : Wl.globals) (s : system) : system :=
  let '(Build_system x0 x1 x2 _ x4 x5 x6) := s in Build_system x0 x1 x2 v x4 x5 x6.
Definition set_am (v : Am.globals) (s : system) : system :=
  let '(Build_system x0 x1 x2 x3 _ x5 x6) := s in Build_system x0 x1 x2 x3 v x5 x6.
Definition set_mm (v : Mm.globals) (s : system) : system :=
  let '(Build_system x0 x1 x2 x3 x4 _ x6) := s in Build_system x0 x1 x2 x3 x4 v x6.
Definition set_mc (v : Mc.globals) (s : system) : system :=
  let '(Build_system x0 x1 x2 x3 x4 x5 _) := s in Build_system x0 x1 x2 x3 x4 x5 v.

(* ================================================================== *)
(** * The state monad of the firmware *)
(* ================================================================== *)

Definition M (A : Type) : Type := system -> A * system.

Definition ret {A : Type} (a : A) : M A := fun s => (a, s).

Definition bind {A B : Type} (m : M A) (k : A -> M B) : M B :=
  fun s => let r := m s in k (fst r) (snd r).

Definition gets {A : Type} (f : system -> A) : M A := fun s => (f s, s).

Definition modify (f : system -> system) : M unit := fun s => (tt, f s).

Definition exec {A : Type} (m : M A) (s : system) : system := snd (m s).

Definition eval {A : Type} (m : M A) (s : system) : A := fst (m s).

Declare Scope monad_scope.
Delimit Scope monad_scope with monad.
Notation "x <- c ;; k" := (bind c (fun x => k))
  (at level 61, c at next level, right associativity) : monad_scope.
Notation "c ;; k" := (bind c (fun _ => k))
  (at level 61, right associativity) : monad_scope.
Local Open Scope monad_scope.

Definition upd_hw (f : Hw.globals -> Hw.globals) : M unit :=
  modify (fun s => set_hw (f (hw s)) s).
Definition upd_hw_status (f : Hw.hardware_status_t -> Hw.hardware_status_t) : M unit :=
  upd_hw (fun g => Hw.set_g_hw_status (f (Hw.g_hw_status g)) g).
Definition upd_wl (f : Wl.globals -> Wl.globals) : M unit :=
  modify (fun s => set_wl (f (wl s)) s).
Definition upd_progress
  (f : Wl.wire_learning_progress_t -> Wl.wire_learning_progress_t) : M unit :=
  upd_wl (fun g => Wl.set_g_learning_progress (f (Wl.g_learning_progress g)) g).
Definition upd_am (f : Am.globals -> Am.globals) : M unit :=
  modify (fun s => set_am (f (am s)) s).
Definition upd_auto
  (f : Am.automatic_mode_progress_t -> Am.automatic_mode_progress_t) : M unit :=
  upd_am (fun g => Am.set_g_auto_progress (f (Am.g_auto_progress g)) g).
Definition upd_mm (f : Mm.globals -> Mm.globals) : M unit :=
  modify (fun s => set_mm (f (mm s)) s).
Definition upd_manual
  (f : Mm.manual_mode_status_t -> Mm.manual_mode_status_t) : M unit :=
  upd_mm (fun g => Mm.set_g_manual_status (f (Mm.g_manual_status g)) g).
Definition upd_mc (f : Mc.globals -> Mc.globals) : M unit :=
  modify (fun s => set_mc (f (mc s)) s).
Definition upd_mode_status
  (f : Mc.system_mode_status_t -> Mc.system_mode_status_t) : M unit :=
  upd_mc (fun g => Mc.set_g_mode_status (f (Mc.g_mode_status g)) g).

(** The globals, read. *)
Definition g_hw_status : M Hw.hardware_status_t := gets (fun s => Hw.g_hw_status (hw s)).
Definition g_learning_progress : M Wl.wire_learning_progress_t :=
  gets (fun s => Wl.g_learning_progress (wl s)).
Definition g_auto_progress : M Am.automatic_mode_progress_t :=
  gets (fun s => Am.g_auto_progress (am s)).
Definition g_manual_status : M Mm.manual_mode_status_t :=
  gets (fun s => Mm.g_manual_status (mm s)).
Definition g_mode_status : M Mc.system_mode_status_t :=
  gets (fun s => Mc.g_mode_status (mc s)).

(** Time. *)
Definition esp_timer_get_time : M Z := gets clock.
Definition vTaskDelay_ms (ms : Z) : M unit :=
  modify (fun s => set_clock (wrap64 (clock s + ms * 1000)) s).

(* ================================================================== *)
(** * hardware_control.cpp *)
(* ================================================================== *)

(** pin_config.h and hardware_control.h *)
Definition ESC_MIN_DUTY : Z := 819.
Definition ESC_NEUTRAL_DUTY : Z := 1229.
Definition ESC_MAX_DUTY : Z := 1638.
Definition ESC_ARM_DUTY : Z := 819.
Definition ESC_MAX_SPEED_CHANGE : Z := 100.
Definition HALL_TIMEOUT_MS : Z := 2000.
Definition MAX_SPEED_MS : f32 := F32.c2_0.
Definition ESC_SPEED_DEADBAND : f32 := F32.c0_05.
Definition WHEEL_CIRCUMFERENCE_MM : f32 := Eval vm_compute in F32.lit 1916 10.
Definition MM_TO_M : f32 := Eval vm_compute in F32.lit 1 1000.

(** The static initialiser of [g_hw_status] and of the other globals. *)
Definition hw_status_reset : Hw.hardware_status_t :=
  {| Hw.esc_armed := false; Hw.esc_responding := false;
     Hw.current_esc_duty := ESC_NEUTRAL_DUTY; Hw.current_speed_ms := F32.zero;
     Hw.target_speed_ms := F32.zero; Hw.direction_forward := true;
     Hw.total_rotations := 0; Hw.last_hall_time := 0;
     Hw.hall_sensor_healthy := false; Hw.system_initialized := false |}.

Definition hw_boot : Hw.globals :=
  {| Hw.g_hw_status := hw_status_reset; Hw.g_last_error := HW_ERROR_NONE;
     Hw.g_current_position_m := F32.zero; Hw.g_rotation_count_offset := 0;
     Hw.g_rate_limiting_enabled := true; Hw.g_last_esc_duty := ESC_NEUTRAL_DUTY;
     Hw.last_time := 0; Hw.ledc_duty := 0 |}.

(** [ledc_set_duty] followed by [ledc_update_duty]. *)
Definition ledc_write (duty : Z) : M unit := upd_hw (Hw.set_ledc_duty duty).

(** One Hall pulse taken from the queue by [hall_processing_task]; the
    registered callback belongs to the sensor-health unit and is not
    modelled. *)
Definition hall_processing_task (hall_time : Z) : M unit :=
  upd_hw_status (fun h => Hw.set_total_rotations (wrap32 (Hw.total_rotations h + 1)) h) ;;
  last <- gets (fun s => Hw.last_time (hw s)) ;;
  (if 0 <? last then
     let time_diff_us := wrap64 (hall_time - last) in
     if 0 <? time_diff_us then
       let time_diff_s := F32.div (F32.of_Z time_diff_us) (F32.of_Z 1000000) in
       let speed_ms := F32.div (F32.mul WHEEL_CIRCUMFERENCE_MM MM_TO_M) time_diff_s in
       upd_hw_status (fun h =>
         Hw.set_current_speed_ms
           (F32.add (F32.mul (Hw.current_speed_ms h) (F32.lit 7 10))
                    (F32.mul speed_ms (F32.lit 3 10))) h)
     else ret tt
   else ret tt) ;;
  st <- g_hw_status ;;
  let distance_increment := F32.mul WHEEL_CIRCUMFERENCE_MM MM_TO_M in
  upd_hw (fun g =>
    Hw.set_g_current_position_m
      (if Hw.direction_forward st
       then F32.add (Hw.g_current_position_m g) distance_increment
       else F32.sub (Hw.g_current_position_m g) distance_increment) g) ;;
  upd_hw (Hw.set_last_time hall_time) ;;
  upd_hw_status (fun h =>
    Hw.set_hall_sensor_healthy true (Hw.set_last_hall_time hall_time h)).

Definition speed_to_esc_duty (speed_ms : f32) (forward : bool) : Z :=
  let speed_ms := if F32.gt speed_ms MAX_SPEED_MS then MAX_SPEED_MS else speed_ms in
  let speed_ms := if F32.lt speed_ms F32.zero then F32.zero else speed_ms in
  if F32.lt speed_ms ESC_SPEED_DEADBAND then ESC_NEUTRAL_DUTY
  else if forward then
    let duty_range := F32.of_Z (ESC_MAX_DUTY - ESC_NEUTRAL_DUTY) in
    wrap16 (ESC_NEUTRAL_DUTY
            + wrap16 (F32.trunc (F32.mul (F32.div speed_ms MAX_SPEED_MS) duty_range)))
  else
    let duty_range := F32.of_Z (ESC_NEUTRAL_DUTY - ESC_MIN_DUTY) in
    wrap16 (ESC_NEUTRAL_DUTY
            - wrap16 (F32.trunc (F32.mul (F32.div speed_ms MAX_SPEED_MS) duty_range))).

(** One iteration of the loop of [esc_update_task] (the body between two
    [vTaskDelayUntil]). *)
Definition esc_update_task : M unit :=
  st <- g_hw_status ;;
  (if Hw.system_initialized st && Hw.esc_armed st then
     let target_duty :=
       speed_to_esc_duty (Hw.target_speed_ms st) (Hw.direction_forward st) in
     rate <- gets (fun s => Hw.g_rate_limiting_enabled (hw s)) ;;
     let new_duty :=
       if rate then
         let duty_diff := to_int16 (target_duty - Hw.current_esc_duty st) in
         if ESC_MAX_SPEED_CHANGE <? Z.abs duty_diff then
           if 0 <? duty_diff
           then wrap16 (Hw.current_esc_duty st + ESC_MAX_SPEED_CHANGE)
           else wrap16 (Hw.current_esc_duty st - ESC_MAX_SPEED_CHANGE)
         else target_duty
       else target_duty in
     upd_hw_status (Hw.set_current_esc_duty new_duty) ;;
     ledc_write new_duty ;;
     upd_hw (Hw.set_g_last_esc_duty new_duty)
   else ret tt) ;;
  (* Check ESC health *)
  upd_hw (fun g =>
    Hw.set_g_hw_status
      (Hw.set_esc_responding
         (Hw.current_esc_duty (Hw.g_hw_status g) =? Hw.g_last_esc_duty g)
         (Hw.g_hw_status g)) g) ;;
  (* Check Hall sensor health *)
  current_time <- esp_timer_get_time ;;
  st <- g_hw_status ;;
  if (0 <? Hw.last_hall_time st)
     && (HALL_TIMEOUT_MS * 1000 <? wrap64 (current_time - Hw.last_hall_time st))
  then
    upd_hw_status (Hw.set_current_speed_ms F32.zero) ;;
    if F32.gt (Hw.target_speed_ms st) ESC_SPEED_DEADBAND
    then upd_hw_status (Hw.set_hall_sensor_healthy false)
    else ret tt
  else ret tt.

(** [hardware_init]; [queue_ok] says whether [xQueueCreate] succeeded (the
    GPIO and LEDC set-up either succeeds or aborts the firmware). *)
Definition hardware_init (queue_ok : bool) : M esp_err_t :=
  upd_hw_status (fun _ => hw_status_reset) ;;
  if negb queue_ok then
    upd_hw (Hw.set_g_last_error HW_ERROR_GPIO_INIT_FAILED) ;; ret ESP_ERR_NO_MEM
  else
    (* init_esc_pwm *)
    vTaskDelay_ms 2000 ;;
    ledc_write ESC_NEUTRAL_DUTY ;;
    upd_hw_status (Hw.set_current_esc_duty ESC_NEUTRAL_DUTY) ;;
    upd_hw (Hw.set_g_last_esc_duty ESC_NEUTRAL_DUTY) ;;
    upd_hw_status (Hw.set_system_initialized true) ;;
    ret ESP_OK.

Definition hardware_esc_arm : M esp_err_t :=
  st <- g_hw_status ;;
  if negb (Hw.system_initialized st) then
    upd_hw (Hw.set_g_last_error HW_ERROR_SYSTEM_NOT_INITIALIZED) ;;
    ret ESP_ERR_INVALID_STATE
  else
    ledc_write ESC_NEUTRAL_DUTY ;;
    vTaskDelay_ms 1000 ;;
    ledc_write ESC_ARM_DUTY ;;
    vTaskDelay_ms 3000 ;;
    ledc_write ESC_NEUTRAL_DUTY ;;
    upd_hw_status (fun h =>
      Hw.set_current_esc_duty ESC_NEUTRAL_DUTY (Hw.set_esc_armed true h)) ;;
    ret ESP_OK.

Definition hardware_esc_disarm : M esp_err_t :=
  upd_hw_status (Hw.set_target_speed_ms F32.zero) ;;
  ledc_write ESC_NEUTRAL_DUTY ;;
  upd_hw_status (fun h =>
    Hw.set_current_esc_duty ESC_NEUTRAL_DUTY (Hw.set_esc_armed false h)) ;;
  ret ESP_OK.

Definition hardware_esc_is_armed : M bool :=
  st <- g_hw_status ;; ret (Hw.esc_armed st).

Definition hardware_is_speed_valid (speed_ms : f32) : bool :=
  F32.ge speed_ms F32.zero && F32.le speed_ms MAX_SPEED_MS.

Definition hardware_set_motor_speed (speed_ms : f32) (forward : bool) : M esp_err_t :=
  st <- g_hw_status ;;
  if negb (Hw.system_initialized st) then
    upd_hw (Hw.set_g_last_error HW_ERROR_SYSTEM_NOT_INITIALIZED) ;;
    ret ESP_ERR_INVALID_STATE
  else if negb (hardware_is_speed_valid speed_ms) then
    upd_hw (Hw.set_g_last_error HW_ERROR_SPEED_OUT_OF_RANGE) ;;
    ret ESP_ERR_INVALID_ARG
  else if negb (Hw.esc_armed st) then
    upd_hw (Hw.set_g_last_error HW_ERROR_ESC_NOT_RESPONDING) ;;
    ret ESP_ERR_INVALID_STATE
  else
    upd_hw_status (fun h =>
      Hw.set_direction_forward forward (Hw.set_target_speed_ms speed_ms h)) ;;
    ret ESP_OK.

Definition hardware_emergency_stop : M esp_err_t :=
  upd_hw_status (fun h =>
    Hw.set_current_esc_duty ESC_NEUTRAL_DUTY (Hw.set_target_speed_ms F32.zero h)) ;;
  ledc_write ESC_NEUTRAL_DUTY ;;
  ret ESP_OK.

Definition hardware_get_current_speed : M f32 :=
  st <- g_hw_status ;; ret (Hw.current_speed_ms st).

Definition hardware_get_rotation_count : M Z :=
  gets (fun s =>
    wrap32 (Hw.total_rotations (Hw.g_hw_status (hw s)) - Hw.g_rotation_count_offset (hw s))).

Definition hardware_reset_rotation_count : M esp_err_t :=
  upd_hw (fun g =>
    Hw.set_g_rotation_count_offset (Hw.total_rotations (Hw.g_hw_status g)) g) ;;
  ret ESP_OK.

Definition hardware_get_time_since_last_hall_pulse : M Z :=
  st <- g_hw_status ;;
  if Hw.last_hall_time st =? 0 then ret 0
  else now <- esp_timer_get_time ;; ret (wrap64 (now - Hw.last_hall_time st)).

Definition hardware_is_hall_sensor_healthy : M bool :=
  st <- g_hw_status ;; ret (Hw.hall_sensor_healthy st).

Definition hardware_rotations_to_distance (rotations : Z) : f32 :=
  F32.mul (F32.mul (F32.of_Z rotations) WHEEL_CIRCUMFERENCE_MM) MM_TO_M.

Definition hardware_get_current_position : M f32 :=
  gets (fun s => Hw.g_current_position_m (hw s)).

Definition hardware_reset_position : M esp_err_t :=
  upd_hw (Hw.set_g_current_position_m F32.zero) ;;
  hardware_reset_rotation_count ;;
  ret ESP_OK.

Definition hardware_get_status : M Hw.hardware_status_t := g_hw_status.

(* ================================================================== *)
(** * mode_coordinator.cpp: data shared with the mode engines *)
(* ================================================================== *)

Definition mode_coordinator_are_sensors_validated : M bool :=
  ms <- g_mode_status ;; ret (Mc.sensors_validated ms).

(** [save_persistent_data]: the two NVS blobs (opening the NVS partition is
    assumed to succeed). *)
Definition save_persistent_data : M unit :=
  upd_mc (fun g =>
    if Wl.complete (Mc.g_wire_learning_data g)
    then Mc.set_nvs_wire_learning (Some (Mc.g_wire_learning_data g)) g else g) ;;
  upd_mc (fun g =>
    if Mc.calibrated (Mc.g_coasting_data g)
    then Mc.set_nvs_coasting (Some (Mc.g_coasting_data g)) g else g).

Definition load_persistent_data : M unit :=
  upd_mc (fun g =>
    match Mc.nvs_wire_learning g with
    | Some r => Mc.set_g_wire_learning_data r g
    | None => g
    end) ;;
  upd_mc (fun g =>
    match Mc.nvs_coasting g with
    | Some c => Mc.set_g_coasting_data c g
    | None => g
    end).

Definition mode_coordinator_set_wire_learning_results
  (results : Wl.wire_learning_results_t) : M esp_err_t :=
  upd_mc (Mc.set_g_wire_learning_data results) ;;
  save_persistent_data ;;
  ret ESP_OK.

(** The result is the pointer [&g_wire_learning_data] or [NULL]. *)
Definition mode_coordinator_get_wire_learning_results
  : M (option Wl.wire_learning_results_t) :=
  gets (fun s =>
    if Wl.complete (Mc.g_wire_learning_data (mc s))
    then Some (Mc.g_wire_learning_data (mc s)) else None).

Definition mode_coordinator_set_coasting_data
  (coasting_data : Mc.coasting_data_t) : M esp_err_t :=
  upd_mc (Mc.set_g_coasting_data coasting_data) ;;
  save_persistent_data ;;
  ret ESP_OK.

Definition mode_coordinator_is_motion_safe : M bool :=
  ms <- g_mode_status ;;
  if negb (Mc.sensors_validated ms) then ret false
  else if negb (Mc.system_healthy ms) then ret false
  else
    hw_status <- hardware_get_status ;;
    if negb (Hw.system_initialized hw_status) || negb (Hw.hall_sensor_healthy hw_status)
    then ret false
    else
      sensor_status <- gets sh ;;
      if negb (Sh.system_ready sensor_status) then ret false else ret true.

(* ================================================================== *)
(** * wire_learning_mode.cpp *)
(* ================================================================== *)

Definition WIRE_LEARNING_START_SPEED_MS : f32 := F32.c0_1.
Definition WIRE_LEARNING_MAX_SPEED_MS : f32 := F32.c1_0.
Definition WIRE_LEARNING_SPEED_INCREMENT : f32 := F32.c0_1.
Definition WIRE_LEARNING_TIMEOUT_S : Z := 60.
Definition WIRE_LENGTH_TOLERANCE_PERCENT : f32 := F32.c5_0.
Definition MIN_WIRE_LENGTH_M : f32 := F32.c2_0.
Definition MAX_WIRE_LENGTH_M : f32 := Eval vm_compute in F32.of_Z 2000.
Definition WIRE_END_IMPACT_THRESHOLD_G : f32 := F32.c1_0.
Definition WIRE_END_HALL_TIMEOUT_MS : Z := 2000.
Definition WIRE_END_SPEED_DROP_PERCENT : f32 := Eval vm_compute in F32.of_Z 70.
Definition LEARNING_MIN_HALL_PULSES : Z := 10.
Definition LEARNING_HALL_TIMEOUT_MS : Z := 3000.
Definition LEARNING_DIRECTION_PAUSE_MS : Z := 2000.

(** [memset(&g_learning_progress, 0, ...)] and [memset(&g_learning_results, 0, ...)]. *)
Definition wl_progress_zero : Wl.wire_learning_progress_t :=
  {| Wl.state := WIRE_LEARNING_IDLE; Wl.learning_start_time := 0;
     Wl.current_direction_forward := false; Wl.direction_start_rotations := 0;
     Wl.direction_start_time := 0; Wl.current_learning_speed := F32.zero;
     Wl.forward_rotations := 0; Wl.forward_distance_m := F32.zero;
     Wl.forward_time_ms := 0; Wl.forward_end_method := WIRE_END_NONE;
     Wl.reverse_rotations := 0; Wl.reverse_distance_m := F32.zero;
     Wl.reverse_time_ms := 0; Wl.reverse_end_method := WIRE_END_NONE;
     Wl.calculated_wire_length_m := F32.zero;
     Wl.length_difference_percent := F32.zero; Wl.learning_successful := false;
     Wl.status_message := ""; Wl.error_message := "" |}.

Definition wl_results_zero : Wl.wire_learning_results_t :=
  {| Wl.complete := false; Wl.wire_length_m := F32.zero;
     Wl.optimal_learning_speed_ms := F32.zero;
     Wl.optimal_cruise_speed_ms := F32.zero; Wl.res_forward_rotations := 0;
     Wl.res_reverse_rotations := 0; Wl.total_learning_time_ms := 0;
     Wl.primary_detection_method := WIRE_END_NONE;
     Wl.learning_accuracy_percent := F32.zero |}.

(** The static initialisers of the unit. *)
Definition wl_boot : Wl.globals :=
  {| Wl.g_learning_progress := wl_progress_zero;
     Wl.g_learning_results := wl_results_zero;
     Wl.g_learning_initialized := false;
     Wl.g_current_test_speed := WIRE_LEARNING_START_SPEED_MS;
     Wl.g_hall_pulses_at_speed_start := 0; Wl.g_speed_test_start_time := 0;
     Wl.g_speed_validated := false; Wl.g_coasting_calibration_active := false;
     Wl.g_coasting_start_rotations := 0; Wl.g_coasting_start_time := 0;
     Wl.g_coasting_start_speed := F32.zero; Wl.g_consecutive_hall_timeouts := 0;
     Wl.g_speed_history := repeat F32.zero 5; Wl.g_speed_history_index := 0 |}.

Definition start_speed_test (speed_ms : f32) : M esp_err_t :=
  upd_wl (fun g => Wl.set_g_speed_validated false (Wl.set_g_current_test_speed speed_ms g)) ;;
  rot <- hardware_get_rotation_count ;;
  upd_wl (Wl.set_g_hall_pulses_at_speed_start rot) ;;
  now <- esp_timer_get_time ;;
  upd_wl (Wl.set_g_speed_test_start_time now) ;;
  p <- g_learning_progress ;;
  result <- hardware_set_motor_speed speed_ms (Wl.current_direction_forward p) ;;
  if negb (esp_err_eqb result ESP_OK) then ret result
  else upd_progress (Wl.set_current_learning_speed speed_ms) ;; ret ESP_OK.

Definition validate_current_speed : M bool :=
  now <- esp_timer_get_time ;;
  start <- gets (fun s => Wl.g_speed_test_start_time (wl s)) ;;
  let elapsed_time := wrap64 (now - start) in
  current_rotations <- hardware_get_rotation_count ;;
  pulses0 <- gets (fun s => Wl.g_hall_pulses_at_speed_start (wl s)) ;;
  let hall_pulses := wrap32 (current_rotations - pulses0) in
  if LEARNING_MIN_HALL_PULSES <=? hall_pulses then
    upd_wl (Wl.set_g_speed_validated true) ;; ret true
  else if LEARNING_HALL_TIMEOUT_MS * 1000 <? elapsed_time then ret false
  else ret false.

Definition progress_to_next_speed : M esp_err_t :=
  cur <- gets (fun s => Wl.g_current_test_speed (wl s)) ;;
  if F32.ge cur WIRE_LEARNING_MAX_SPEED_MS then ret ESP_OK
  else
    let next_speed := F32.add cur WIRE_LEARNING_SPEED_INCREMENT in
    let next_speed :=
      if F32.gt next_speed WIRE_LEARNING_MAX_SPEED_MS
      then WIRE_LEARNING_MAX_SPEED_MS else next_speed in
    vTaskDelay_ms 500 ;;
    start_speed_test next_speed.

Definition wire_learning_detect_impact : M bool :=
  sensor_status <- gets sh ;;
  ret (F32.gt (Sh.total_accel_g sensor_status) WIRE_END_IMPACT_THRESHOLD_G).

Definition wire_learning_detect_hall_timeout : M bool :=
  time_since_last_pulse <- hardware_get_time_since_last_hall_pulse ;;
  if WIRE_END_HALL_TIMEOUT_MS * 1000 <? time_since_last_pulse then
    upd_wl (fun g =>
      Wl.set_g_consecutive_hall_timeouts
        (wrap32 (Wl.g_consecutive_hall_timeouts g + 1)) g) ;;
    n <- gets (fun s => Wl.g_consecutive_hall_timeouts (wl s)) ;;
    if 3 <=? n then upd_wl (Wl.set_g_consecutive_hall_timeouts 0) ;; ret true
    else ret false
  else
    upd_wl (Wl.set_g_consecutive_hall_timeouts 0) ;; ret false.

(** [a[i] = v] for an index inside the array. *)
Fixpoint array_set {A : Type} (l : list A) (i : nat) (v : A) : list A :=
  match l, i with
  | [], _ => []
  | _ :: t, O => v :: t
  | h :: t, S j => h :: array_set t j v
  end.

Definition wire_learning_detect_speed_drop : M bool :=
  current_speed <- hardware_get_current_speed ;;
  upd_wl (fun g =>
    Wl.set_g_speed_history_index ((Wl.g_speed_history_index g + 1) mod 5)
      (Wl.set_g_speed_history
         (array_set (Wl.g_speed_history g) (Z.to_nat (Wl.g_speed_history_index g))
                    current_speed) g)) ;;
  hist <- gets (fun s => Wl.g_speed_history (wl s)) ;;
  let avg_speed := F32.div (fold_left F32.add hist F32.zero) F32.c5_0 in
  cur <- gets (fun s => Wl.g_current_test_speed (wl s)) ;;
  let speed_drop_threshold :=
    F32.mul cur (F32.div WIRE_END_SPEED_DROP_PERCENT F32.c100) in
  ret (F32.gt cur F32.c0_2 && F32.lt avg_speed speed_drop_threshold).

Definition wire_learning_get_best_detection_method : M wire_end_detection_method_t :=
  impact <- wire_learning_detect_impact ;;
  if impact then ret WIRE_END_IMPACT_DETECTED
  else
    drop <- wire_learning_detect_speed_drop ;;
    if drop then ret WIRE_END_SPEED_DROP
    else
      timeout <- wire_learning_detect_hall_timeout ;;
      if timeout then ret WIRE_END_HALL_TIMEOUT else ret WIRE_END_NONE.

Definition wire_learning_reset_detection : M esp_err_t :=
  upd_wl (fun g =>
    Wl.set_g_speed_history (repeat F32.zero 5)
      (Wl.set_g_speed_history_index 0 (Wl.set_g_consecutive_hall_timeouts 0 g))) ;;
  ret ESP_OK.

Definition start_coasting_calibration : M esp_err_t :=
  upd_wl (Wl.set_g_coasting_calibration_active true) ;;
  rot <- hardware_get_rotation_count ;;
  now <- esp_timer_get_time ;;
  upd_wl (fun g =>
    Wl.set_g_coasting_start_speed F32.c5_0
      (Wl.set_g_coasting_start_time now (Wl.set_g_coasting_start_rotations rot g))) ;;
  p <- g_learning_progress ;;
  hardware_set_motor_speed F32.c5_0 (Wl.current_direction_forward p).

(** The loop [while (hardware_get_current_speed() > 0.1f)] of
    [process_coasting_calibration], which sleeps 100 ms per turn and leaves
    after 30 s; [fuel] bounds the number of turns. *)
Fixpoint coast_wait (fuel : nat) (coast_start_time : Z) : M unit :=
  match fuel with
  | O => ret tt
  | S n =>
      v <- hardware_get_current_speed ;;
      if F32.gt v F32.c0_1 then
        vTaskDelay_ms 100 ;;
        now <- esp_timer_get_time ;;
        if 30000000 <? wrap64 (now - coast_start_time) then ret tt
        else coast_wait n coast_start_time
      else ret tt
  end.

Definition process_coasting_calibration : M esp_err_t :=
  active <- gets (fun s => Wl.g_coasting_calibration_active (wl s)) ;;
  if negb active then ret ESP_OK
  else
    current_speed <- hardware_get_current_speed ;;
    if F32.lt current_speed F32.c4_8 then ret ESP_OK
    else
      hardware_set_motor_speed F32.zero true ;;
      coast_start_time <- esp_timer_get_time ;;
      coast_start_rotations <- hardware_get_rotation_count ;;
      coast_wait 301 coast_start_time ;;
      coast_end_time <- esp_timer_get_time ;;
      coast_end_rotations <- hardware_get_rotation_count ;;
      start_speed <- gets (fun s => Wl.g_coasting_start_speed (wl s)) ;;
      let distance :=
        hardware_rotations_to_distance (wrap32 (coast_end_rotations - coast_start_rotations)) in
      let coast_time_ms := wrap32 (wrap64 (coast_end_time - coast_start_time) / 1000) in
      let coasting_data :=
        {| Mc.calibrated := true;
           Mc.coasting_distance_m := distance;
           Mc.coast_start_distance_m := F32.add distance F32.c2_0;
           Mc.coast_time_ms := coast_time_ms;
           Mc.decel_rate_ms2 :=
             F32.div start_speed (F32.div (F32.of_Z coast_time_ms) (F32.of_Z 1000)) |} in
      mode_coordinator_set_coasting_data coasting_data ;;
      upd_wl (Wl.set_g_coasting_calibration_active false) ;;
      ret ESP_OK.

Definition handle_forward_direction : M esp_err_t :=
  validated <- gets (fun s => Wl.g_speed_validated (wl s)) ;;
  cur <- gets (fun s => Wl.g_current_test_speed (wl s)) ;;
  if negb validated && F32.eq cur F32.zero then
    start_speed_test WIRE_LEARNING_START_SPEED_MS ;; ret ESP_OK
  else if negb validated then
    ok <- validate_current_speed ;;
    if ok then progress_to_next_speed ;; ret ESP_OK
    else
      detection <- wire_learning_get_best_detection_method ;;
      match detection with
      | WIRE_END_NONE => ret ESP_OK
      | _ =>
          rot <- hardware_get_rotation_count ;;
          now <- esp_timer_get_time ;;
          upd_progress (fun p =>
            let rotations := wrap32 (rot - Wl.direction_start_rotations p) in
            Wl.set_forward_end_method detection
              (Wl.set_forward_time_ms
                 (wrap32 (wrap64 (now - Wl.direction_start_time p) / 1000))
                 (Wl.set_forward_distance_m (hardware_rotations_to_distance rotations)
                    (Wl.set_forward_rotations rotations p)))) ;;
          p <- g_learning_progress ;;
          if F32.lt (Wl.forward_distance_m p) MIN_WIRE_LENGTH_M
             || F32.gt (Wl.forward_distance_m p) MAX_WIRE_LENGTH_M
          then
            upd_progress (fun p =>
              Wl.set_state WIRE_LEARNING_FAILED
                (Wl.set_error_message "Wire length out of valid range" p)) ;;
            ret ESP_ERR_INVALID_SIZE
          else
            cur <- gets (fun s => Wl.g_current_test_speed (wl s)) ;;
            (if F32.ge cur F32.c4_0 then
               start_coasting_calibration ;; process_coasting_calibration ;; ret tt
             else ret tt) ;;
            hardware_emergency_stop ;;
            vTaskDelay_ms LEARNING_DIRECTION_PAUSE_MS ;;
            rot <- hardware_get_rotation_count ;;
            now <- esp_timer_get_time ;;
            upd_progress (fun p =>
              Wl.set_direction_start_time now
                (Wl.set_direction_start_rotations rot
                   (Wl.set_current_direction_forward false
                      (Wl.set_state WIRE_LEARNING_REVERSE_DIRECTION p)))) ;;
            upd_wl (fun g =>
              Wl.set_g_speed_validated false (Wl.set_g_current_test_speed F32.zero g)) ;;
            wire_learning_reset_detection ;;
            ret ESP_OK
      end
  else ret ESP_OK.

Definition handle_reverse_direction : M esp_err_t :=
  validated <- gets (fun s => Wl.g_speed_validated (wl s)) ;;
  cur <- gets (fun s => Wl.g_current_test_speed (wl s)) ;;
  if negb validated && F32.eq cur F32.zero then
    start_speed_test WIRE_LEARNING_START_SPEED_MS ;; ret ESP_OK
  else if negb validated then
    ok <- validate_current_speed ;;
    if ok then progress_to_next_speed ;; ret ESP_OK
    else
      detection <- wire_learning_get_best_detection_method ;;
      match detection with
      | WIRE_END_NONE => ret ESP_OK
      | _ =>
          rot <- hardware_get_rotation_count ;;
          now <- esp_timer_get_time ;;
          upd_progress (fun p =>
            let rotations := wrap32 (rot - Wl.direction_start_rotations p) in
            Wl.set_state WIRE_LEARNING_CALCULATING_RESULTS
              (Wl.set_reverse_end_method detection
                 (Wl.set_reverse_time_ms
                    (wrap32 (wrap64 (now - Wl.direction_start_time p) / 1000))
                    (Wl.set_reverse_distance_m (hardware_rotations_to_distance rotations)
                       (Wl.set_reverse_rotations rotations p))))) ;;
          ret ESP_OK
      end
  else ret ESP_OK.

(** [fmin] on two [float] values (exact, so the detour through [double] is
    invisible). *)
Definition fmin (x y : f32) : f32 :=
  if F32.is_nan x then y else if F32.is_nan y then x
  else if F32.lt y x then y else x.

Definition calculate_final_results : M esp_err_t :=
  upd_progress (fun p =>
    Wl.set_calculated_wire_length_m
      (F32.div (F32.add (Wl.forward_distance_m p) (Wl.reverse_distance_m p)) F32.c2_0) p) ;;
  upd_progress (fun p =>
    let difference := F32.abs (F32.sub (Wl.forward_distance_m p) (Wl.reverse_distance_m p)) in
    Wl.set_length_difference_percent
      (F32.mul (F32.div difference (Wl.calculated_wire_length_m p)) F32.c100) p) ;;
  p <- g_learning_progress ;;
  let success := F32.le (Wl.length_difference_percent p) WIRE_LENGTH_TOLERANCE_PERCENT in
  (if success then
     cur <- gets (fun s => Wl.g_current_test_speed (wl s)) ;;
     now <- esp_timer_get_time ;;
     upd_wl (fun g =>
       Wl.set_g_learning_results
         {| Wl.complete := true;
            Wl.wire_length_m := Wl.calculated_wire_length_m p;
            Wl.optimal_learning_speed_ms := cur;
            Wl.optimal_cruise_speed_ms := fmin (F32.mul cur F32.c1_5) F32.c5_0;
            Wl.res_forward_rotations := Wl.forward_rotations p;
            Wl.res_reverse_rotations := Wl.reverse_rotations p;
            Wl.total_learning_time_ms :=
              wrap32 (wrap64 (now - Wl.learning_start_time p) / 1000);
            Wl.primary_detection_method := Wl.forward_end_method p;
            Wl.learning_accuracy_percent :=
              F32.sub F32.c100 (Wl.length_difference_percent p) |} g) ;;
     res <- gets (fun s => Wl.g_learning_results (wl s)) ;;
     mode_coordinator_set_wire_learning_results res ;;
     upd_progress (fun p =>
       Wl.set_status_message "Wire learning completed successfully"
         (Wl.set_state WIRE_LEARNING_COMPLETE (Wl.set_learning_successful true p)))
   else
     (* the formatted percentages of the message are left out *)
     upd_progress (fun p =>
       Wl.set_error_message "Wire learning failed"
         (Wl.set_state WIRE_LEARNING_FAILED (Wl.set_learning_successful false p)))) ;;
  hardware_emergency_stop ;;
  ret (if success then ESP_OK else ESP_FAIL).

Definition wire_learning_mode_init : M esp_err_t :=
  upd_wl (fun g =>
    Wl.set_g_learning_initialized true
      (Wl.set_g_learning_results wl_results_zero
         (Wl.set_g_learning_progress
            (Wl.set_status_message "Wire learning ready" wl_progress_zero) g))) ;;
  ret ESP_OK.

Definition wire_learning_validate_prerequisites : M esp_err_t :=
  validated <- mode_coordinator_are_sensors_validated ;;
  if negb validated then ret ESP_ERR_INVALID_STATE
  else
    hw_status <- hardware_get_status ;;
    if negb (Hw.system_initialized hw_status) || negb (Hw.hall_sensor_healthy hw_status)
    then ret ESP_ERR_INVALID_STATE
    else
      sensor_status <- gets sh ;;
      if negb (Sh.system_ready sensor_status) then ret ESP_ERR_INVALID_STATE
      else ret ESP_OK.

Definition wire_learning_mode_start : M esp_err_t :=
  initialized <- gets (fun s => Wl.g_learning_initialized (wl s)) ;;
  if negb initialized then ret ESP_ERR_INVALID_STATE
  else
    result <- wire_learning_validate_prerequisites ;;
    if negb (esp_err_eqb result ESP_OK) then ret result
    else
      now <- esp_timer_get_time ;;
      upd_progress (fun _ =>
        Wl.set_status_message "Initializing wire learning..."
          (Wl.set_current_direction_forward true
             (Wl.set_learning_start_time now
                (Wl.set_state WIRE_LEARNING_INITIALIZING wl_progress_zero)))) ;;
      armed <- hardware_esc_is_armed ;;
      result <- (if negb armed then hardware_esc_arm else ret ESP_OK) ;;
      if negb (esp_err_eqb result ESP_OK) then
        upd_progress (fun p =>
          Wl.set_state WIRE_LEARNING_FAILED
            (Wl.set_error_message "Failed to arm ESC" p)) ;;
        ret result
      else
        hardware_reset_position ;;
        hardware_reset_rotation_count ;;
        now <- esp_timer_get_time ;;
        rot <- hardware_get_rotation_count ;;
        upd_progress (fun p =>
          Wl.set_direction_start_rotations rot
            (Wl.set_direction_start_time now
               (Wl.set_state WIRE_LEARNING_FORWARD_DIRECTION p))) ;;
        upd_wl (fun g =>
          Wl.set_g_speed_validated false (Wl.set_g_current_test_speed F32.zero g)) ;;
        wire_learning_reset_detection ;;
        upd_progress (Wl.set_status_message "Learning forward direction...") ;;
        ret ESP_OK.

Definition wire_learning_mode_stop (immediate : bool) : M esp_err_t :=
  hardware_emergency_stop ;;
  (if immediate then
     upd_progress (fun p =>
       Wl.set_status_message "Wire learning stopped by user"
         (Wl.set_state WIRE_LEARNING_IDLE p))
   else
     upd_progress (fun p =>
       Wl.set_status_message "Wire learning stopping gracefully..."
         (Wl.set_state WIRE_LEARNING_STOPPING p))) ;;
  upd_wl (Wl.set_g_coasting_calibration_active false) ;;
  ret ESP_OK.

Definition wire_learning_mode_is_active : M bool :=
  p <- g_learning_progress ;;
  ret ((wire_learning_state_to_Z WIRE_LEARNING_IDLE <? wire_learning_state_to_Z (Wl.state p))
       && (wire_learning_state_to_Z (Wl.state p) <? wire_learning_state_to_Z WIRE_LEARNING_COMPLETE)).

Definition wire_learning_mode_update : M esp_err_t :=
  initialized <- gets (fun s => Wl.g_learning_initialized (wl s)) ;;
  if negb initialized then ret ESP_ERR_INVALID_STATE
  else
    active <- wire_learning_mode_is_active ;;
    p <- g_learning_progress ;;
    now <- esp_timer_get_time ;;
    if active
       && (WIRE_LEARNING_TIMEOUT_S * 1000000 <? wrap64 (now - Wl.learning_start_time p))
    then
      upd_progress (fun p =>
        Wl.set_state WIRE_LEARNING_FAILED
          (Wl.set_error_message "Wire learning timeout" p)) ;;
      hardware_emergency_stop ;;
      ret ESP_ERR_TIMEOUT
    else
      match Wl.state p with
      | WIRE_LEARNING_INITIALIZING =>
          upd_progress (Wl.set_state WIRE_LEARNING_FORWARD_DIRECTION) ;; ret ESP_OK
      | WIRE_LEARNING_FORWARD_DIRECTION => handle_forward_direction ;; ret ESP_OK
      | WIRE_LEARNING_REVERSE_DIRECTION => handle_reverse_direction ;; ret ESP_OK
      | WIRE_LEARNING_CALCULATING_RESULTS => calculate_final_results ;; ret ESP_OK
      | WIRE_LEARNING_IDLE | WIRE_LEARNING_DIRECTION_PAUSE
      | WIRE_LEARNING_COMPLETE | WIRE_LEARNING_FAILED | WIRE_LEARNING_STOPPING =>
          ret ESP_OK
      end.

Definition wire_learning_mode_is_complete : M bool :=
  p <- g_learning_progress ;;
  ret (match Wl.state p with WIRE_LEARNING_COMPLETE => true | _ => false end
       && Wl.learning_successful p).

Definition wire_learning_emergency_stop : M esp_err_t :=
  hardware_emergency_stop ;;
  upd_progress (fun p =>
    Wl.set_error_message "Emergency stop activated"
      (Wl.set_state WIRE_LEARNING_FAILED p)) ;;
  upd_wl (Wl.set_g_coasting_calibration_active false) ;;
  ret ESP_OK.

Definition wire_learning_mode_reset : M esp_err_t :=
  wire_learning_mode_stop true ;;
  upd_wl (fun g =>
    Wl.set_g_learning_results wl_results_zero
      (Wl.set_g_learning_progress
         (Wl.set_status_message "Wire learning reset" wl_progress_zero) g)) ;;
  upd_wl (fun g =>
    Wl.set_g_coasting_calibration_active false
      (Wl.set_g_speed_validated false (Wl.set_g_current_test_speed F32.zero g))) ;;
  wire_learning_reset_detection ;;
  ret ESP_OK.

(* ================================================================== *)
(** * automatic_mode.cpp *)
(* ================================================================== *)

Definition AUTO_MODE_MAX_SPEED_MS : f32 := F32.c5_0.
Definition AUTO_MODE_START_SPEED_MS : f32 := F32.c0_1.
Definition AUTO_MODE_ACCEL_RATE_MS2 : f32 := F32.c0_5.
Definition AUTO_MODE_DECEL_RATE_MS2 : f32 := Eval vm_compute in F32.lit 3 10.
Definition AUTO_COASTING_CALIBRATION_SPEED : f32 := F32.c5_0.
Definition AUTO_COASTING_SAFETY_MARGIN_M : f32 := F32.c2_0.
Definition AUTO_COASTING_MAX_DISTANCE_M : f32 := Eval vm_compute in F32.of_Z 50.
Definition AUTO_COASTING_MIN_DISTANCE_M : f32 := F32.c0_5.
Definition AUTO_MODE_WIRE_END_APPROACH_MS : f32 := F32.c1_0.
Definition AUTO_MODE_MAX_IMPACT_G : f32 := F32.c0_5.
Definition COAST_DETECTION_SPEED_MS : f32 := F32.c0_1.
Definition AUTO_MODE_MIN_WIRE_LENGTH_M : f32 := F32.c2_0.

Definition am_coasting_zero : Am.coasting_calibration_t :=
  {| Am.calibrated := false; Am.calibration_speed_ms := F32.zero;
     Am.coasting_distance_m := F32.zero; Am.coasting_time_ms := 0;
     Am.deceleration_rate_ms2 := F32.zero; Am.coast_start_distance_m := F32.zero;
     Am.calibration_rotations := 0; Am.calibration_successful := false |}.

(** [memset(&g_auto_progress, 0, ...)]. *)
Definition am_progress_zero : Am.automatic_mode_progress_t :=
  {| Am.state := AUTO_MODE_IDLE; Am.state_start_time := 0; Am.mode_start_time := 0;
     Am.current_target_speed := F32.zero; Am.acceleration_rate := F32.zero;
     Am.esc_auto_armed := false; Am.coasting := am_coasting_zero;
     Am.current_direction_forward := false; Am.user_interrupted := false;
     Am.finishing_current_run := false; Am.wire_length_m := F32.zero;
     Am.current_position_m := F32.zero; Am.status_message := "";
     Am.error_message := "" |}.

(** The static initialisers of the unit. *)
Definition am_boot : Am.globals :=
  {| Am.g_auto_progress := Am.set_acceleration_rate AUTO_MODE_ACCEL_RATE_MS2 am_progress_zero;
     Am.g_auto_initialized := false; Am.g_current_acceleration_target := F32.zero;
     Am.g_acceleration_start_time := 0; Am.g_acceleration_start_rotations := 0;
     Am.g_coasting_in_progress := false; Am.g_coasting_start_time := 0;
     Am.g_coasting_start_rotations := 0; Am.g_coasting_start_speed := F32.zero;
     Am.g_user_interruption_requested := false; Am.g_interruption_request_time := 0;
     Am.calibration_motor_stopped := false |}.

Definition automatic_mode_accelerate_to_speed (target_speed : f32) : M esp_err_t :=
  let target_speed :=
    if F32.gt target_speed AUTO_MODE_MAX_SPEED_MS then AUTO_MODE_MAX_SPEED_MS
    else target_speed in
  now <- esp_timer_get_time ;;
  rot <- hardware_get_rotation_count ;;
  upd_am (fun g =>
    Am.set_g_acceleration_start_rotations rot
      (Am.set_g_acceleration_start_time now
         (Am.set_g_current_acceleration_target target_speed g))) ;;
  p <- g_auto_progress ;;
  result <- hardware_set_motor_speed AUTO_MODE_START_SPEED_MS
              (Am.current_direction_forward p) ;;
  if negb (esp_err_eqb result ESP_OK) then ret result
  else
    upd_auto (fun p =>
      Am.set_acceleration_rate AUTO_MODE_ACCEL_RATE_MS2
        (Am.set_current_target_speed AUTO_MODE_START_SPEED_MS p)) ;;
    ret ESP_OK.

Definition automatic_mode_start_coasting_calibration : M esp_err_t :=
  p <- g_auto_progress ;;
  if Am.calibrated (Am.coasting p) then ret ESP_OK
  else
    now <- esp_timer_get_time ;;
    upd_auto (fun p =>
      Am.set_state_start_time now (Am.set_state AUTO_MODE_COASTING_CALIBRATION p)) ;;
    result <- automatic_mode_accelerate_to_speed AUTO_COASTING_CALIBRATION_SPEED ;;
    if negb (esp_err_eqb result ESP_OK) then ret result
    else
      upd_auto (Am.set_status_message "Coasting calibration - accelerating to 5.0 m/s") ;;
      ret ESP_OK.

Definition automatic_mode_update_coasting_calibration (speed position : f32)
  : M esp_err_t :=
  if F32.lt speed (F32.sub AUTO_COASTING_CALIBRATION_SPEED F32.c0_2) then ret ESP_OK
  else
    stopped <- gets (fun s => Am.calibration_motor_stopped (am s)) ;;
    if negb stopped then
      p <- g_auto_progress ;;
      hardware_set_motor_speed F32.zero (Am.current_direction_forward p) ;;
      now <- esp_timer_get_time ;;
      rot <- hardware_get_rotation_count ;;
      upd_am (fun g =>
        Am.set_calibration_motor_stopped true
          (Am.set_g_coasting_start_speed speed
             (Am.set_g_coasting_start_rotations rot
                (Am.set_g_coasting_start_time now g)))) ;;
      upd_auto (Am.set_status_message "Measuring coasting distance...") ;;
      ret ESP_OK
    else if F32.gt speed COAST_DETECTION_SPEED_MS then ret ESP_OK
    else
      coast_end_time <- esp_timer_get_time ;;
      coast_end_rotations <- hardware_get_rotation_count ;;
      g <- gets am ;;
      let rotations := wrap32 (coast_end_rotations - Am.g_coasting_start_rotations g) in
      let distance := hardware_rotations_to_distance rotations in
      let time_ms := wrap32 (wrap64 (coast_end_time - Am.g_coasting_start_time g) / 1000) in
      let cal :=
        {| Am.calibrated := true;
           Am.calibration_speed_ms := Am.g_coasting_start_speed g;
           Am.coasting_distance_m := distance;
           Am.coasting_time_ms := time_ms;
           Am.deceleration_rate_ms2 :=
             F32.div (Am.g_coasting_start_speed g)
                     (F32.div (F32.of_Z time_ms) (F32.of_Z 1000));
           Am.coast_start_distance_m := F32.add distance AUTO_COASTING_SAFETY_MARGIN_M;
           Am.calibration_rotations := rotations;
           Am.calibration_successful := true |} in
      upd_auto (Am.set_coasting cal) ;;
      if F32.lt distance AUTO_COASTING_MIN_DISTANCE_M
         || F32.gt distance AUTO_COASTING_MAX_DISTANCE_M
      then
        upd_auto (Am.set_coasting (Am.set_calibration_successful false cal)) ;;
        ret ESP_ERR_INVALID_SIZE
      else
        mode_coordinator_set_coasting_data
          {| Mc.calibrated := true;
             Mc.coasting_distance_m := Am.coasting_distance_m cal;
             Mc.coast_start_distance_m := Am.coast_start_distance_m cal;
             Mc.coast_time_ms := Am.coasting_time_ms cal;
             Mc.decel_rate_ms2 := Am.deceleration_rate_ms2 cal |} ;;
        upd_am (Am.set_calibration_motor_stopped false) ;;
        upd_auto (Am.set_status_message "Coasting calibration complete") ;;
        ret ESP_OK.

Definition automatic_mode_maintain_cruise_speed : M esp_err_t :=
  current_speed <- hardware_get_current_speed ;;
  let target_speed := AUTO_MODE_MAX_SPEED_MS in
  p <- g_auto_progress ;;
  (if F32.gt (F32.abs (F32.sub current_speed target_speed)) F32.c0_5 then
     hardware_set_motor_speed target_speed (Am.current_direction_forward p) ;; ret tt
   else ret tt) ;;
  upd_auto (Am.set_current_target_speed target_speed) ;;
  ret ESP_OK.

Definition automatic_mode_is_at_wire_end : M bool :=
  sensor_status <- gets sh ;;
  if F32.gt (Sh.total_accel_g sensor_status) AUTO_MODE_MAX_IMPACT_G then ret true
  else
    since <- hardware_get_time_since_last_hall_pulse ;;
    if 2000000 <? since then ret true
    else
      current_speed <- hardware_get_current_speed ;;
      p <- g_auto_progress ;;
      if F32.gt (Am.current_target_speed p) F32.c0_5 && F32.lt current_speed F32.c0_2
      then ret true
      else ret false.

Definition automatic_mode_handle_wire_end_reached : M esp_err_t :=
  p <- g_auto_progress ;;
  hardware_set_motor_speed F32.zero (Am.current_direction_forward p) ;;
  ret ESP_OK.

Definition handle_coasting_state : M esp_err_t :=
  current_speed <- hardware_get_current_speed ;;
  at_end <- automatic_mode_is_at_wire_end ;;
  if at_end || F32.lt current_speed COAST_DETECTION_SPEED_MS then
    upd_am (Am.set_g_coasting_in_progress false) ;;
    upd_auto (Am.set_state AUTO_MODE_WIRE_END_APPROACH) ;;
    p <- g_auto_progress ;;
    hardware_set_motor_speed AUTO_MODE_WIRE_END_APPROACH_MS
      (Am.current_direction_forward p) ;;
    upd_auto (Am.set_status_message "Final approach to wire end") ;;
    vTaskDelay_ms 500 ;;
    automatic_mode_handle_wire_end_reached ;;
    ret ESP_OK
  else ret ESP_OK.

Definition automatic_mode_init : M esp_err_t :=
  upd_am (fun g =>
    Am.set_g_auto_initialized true
      (Am.set_g_auto_progress
         (Am.set_status_message "Automatic mode ready" am_progress_zero) g)) ;;
  ret ESP_OK.

Definition automatic_mode_validate_prerequisites : M esp_err_t :=
  validated <- mode_coordinator_are_sensors_validated ;;
  if negb validated then ret ESP_ERR_INVALID_STATE
  else
    wire_data <- mode_coordinator_get_wire_learning_results ;;
    match wire_data with
    | None => ret ESP_ERR_INVALID_STATE
    | Some d =>
        if negb (Wl.complete d) then ret ESP_ERR_INVALID_STATE
        else if F32.lt (Wl.wire_length_m d) AUTO_MODE_MIN_WIRE_LENGTH_M
        then ret ESP_ERR_INVALID_SIZE
        else ret ESP_OK
    end.

Definition automatic_mode_is_operation_safe : M bool :=
  mode_coordinator_is_motion_safe.

Definition automatic_mode_handle_emergency (error_message : string) : M esp_err_t :=
  hardware_emergency_stop ;;
  upd_auto (fun p =>
    Am.set_status_message "EMERGENCY STOP - Automatic mode halted"
      (Am.set_error_message error_message (Am.set_state AUTO_MODE_ERROR p))) ;;
  ret ESP_OK.

Definition automatic_mode_auto_arm_esc : M esp_err_t :=
  armed <- hardware_esc_is_armed ;;
  if armed then upd_auto (Am.set_esc_auto_armed true) ;; ret ESP_OK
  else
    result <- hardware_esc_arm ;;
    (if esp_err_eqb result ESP_OK then upd_auto (Am.set_esc_auto_armed true)
     else ret tt) ;;
    ret result.

Definition automatic_mode_auto_disarm_esc : M esp_err_t :=
  result <- hardware_esc_disarm ;;
  upd_auto (Am.set_esc_auto_armed false) ;;
  ret result.

(** The [for] loop of [automatic_mode_decelerate_to_speed]: turns
    [i .. steps-1]; the result is [false] when the safety check failed. *)
Fixpoint decelerate_steps (n : nat) (i : Z) (current_speed speed_step : f32) : M bool :=
  match n with
  | O => ret true
  | S n' =>
      let new_speed := F32.sub current_speed (F32.mul speed_step (F32.of_Z (i + 1))) in
      p <- g_auto_progress ;;
      hardware_set_motor_speed new_speed (Am.current_direction_forward p) ;;
      vTaskDelay_ms 100 ;;
      safe <- automatic_mode_is_operation_safe ;;
      if negb safe then
        automatic_mode_handle_emergency "Safety failure during deceleration" ;;
        ret false
      else decelerate_steps n' (i + 1) current_speed speed_step
  end.

Definition automatic_mode_decelerate_to_speed (target_speed : f32) : M esp_err_t :=
  current_speed <- hardware_get_current_speed ;;
  if F32.le current_speed target_speed then ret ESP_OK
  else
    let speed_difference := F32.sub current_speed target_speed in
    let decel_time_s := F32.div speed_difference AUTO_MODE_DECEL_RATE_MS2 in
    let steps := wrap32 (F32.trunc (F32.mul decel_time_s (F32.of_Z 10))) in
    let speed_step := F32.div speed_difference (F32.of_Z steps) in
    ok <- decelerate_steps (Z.to_nat steps) 0 current_speed speed_step ;;
    if negb ok then ret ESP_ERR_INVALID_STATE
    else
      p <- g_auto_progress ;;
      hardware_set_motor_speed target_speed (Am.current_direction_forward p) ;;
      upd_auto (Am.set_current_target_speed target_speed) ;;
      ret ESP_OK.

Definition automatic_mode_start : M esp_err_t :=
  initialized <- gets (fun s => Am.g_auto_initialized (am s)) ;;
  if negb initialized then ret ESP_ERR_INVALID_STATE
  else
    result <- automatic_mode_validate_prerequisites ;;
    if negb (esp_err_eqb result ESP_OK) then ret result
    else
      wire_data <- mode_coordinator_get_wire_learning_results ;;
      match wire_data with
      | None =>
          upd_auto (Am.set_error_message "Wire learning required before automatic mode") ;;
          ret ESP_ERR_INVALID_STATE
      | Some d =>
          if negb (Wl.complete d) then
            upd_auto (Am.set_error_message "Wire learning required before automatic mode") ;;
            ret ESP_ERR_INVALID_STATE
          else
            now <- esp_timer_get_time ;;
            upd_auto (fun p =>
              Am.set_finishing_current_run false
                (Am.set_user_interrupted false
                   (Am.set_wire_length_m (Wl.wire_length_m d)
                      (Am.set_mode_start_time now
                         (Am.set_state AUTO_MODE_INITIALIZING p))))) ;;
            upd_am (Am.set_g_user_interruption_requested false) ;;
            upd_auto (fun p =>
              Am.set_status_message "Auto-arming ESC..."
                (Am.set_state AUTO_MODE_ARMING_ESC p)) ;;
            result <- automatic_mode_auto_arm_esc ;;
            if negb (esp_err_eqb result ESP_OK) then
              upd_auto (fun p =>
                Am.set_state AUTO_MODE_ERROR
                  (Am.set_error_message "Failed to auto-arm ESC" p)) ;;
              ret result
            else ret ESP_OK
      end.

Definition automatic_mode_stop_graceful : M esp_err_t :=
  now <- esp_timer_get_time ;;
  upd_am (fun g =>
    Am.set_g_interruption_request_time now
      (Am.set_g_user_interruption_requested true g)) ;;
  upd_auto (fun p =>
    Am.set_status_message "Stopping gracefully - finishing current run"
      (Am.set_finishing_current_run true p)) ;;
  ret ESP_OK.

Definition automatic_mode_interrupt : M esp_err_t :=
  hardware_emergency_stop ;;
  upd_auto (fun p =>
    Am.set_finishing_current_run false
      (Am.set_user_interrupted true
         (Am.set_state AUTO_MODE_STOPPING_INTERRUPTED p))) ;;
  upd_am (Am.set_g_user_interruption_requested true) ;;
  upd_auto (Am.set_status_message "Interrupted by user - stopping immediately") ;;
  automatic_mode_auto_disarm_esc ;;
  ret ESP_OK.

Definition automatic_mode_update : M esp_err_t :=
  initialized <- gets (fun s => Am.g_auto_initialized (am s)) ;;
  p <- g_auto_progress ;;
  if negb initialized
     || match Am.state p with AUTO_MODE_IDLE => true | _ => false end
  then ret ESP_OK
  else
    match Am.state p with
    | AUTO_MODE_COASTING => handle_coasting_state ;; ret ESP_OK
    | AUTO_MODE_COASTING_CALIBRATION =>
        current_speed <- hardware_get_current_speed ;;
        automatic_mode_update_coasting_calibration current_speed (Am.current_position_m p) ;;
        ret ESP_OK
    | _ => ret ESP_OK
    end.

Definition automatic_mode_is_active : M bool :=
  p <- g_auto_progress ;;
  ret ((automatic_mode_state_to_Z AUTO_MODE_IDLE <? automatic_mode_state_to_Z (Am.state p))
       && (automatic_mode_state_to_Z (Am.state p) <? automatic_mode_state_to_Z AUTO_MODE_COMPLETE)).

(* ================================================================== *)
(** * manual_mode.cpp (the session statistics are left out) *)
(* ================================================================== *)

Definition MANUAL_MODE_MAX_SPEED_MS : f32 := F32.c2_0.
Definition MANUAL_MODE_MIN_SPEED_MS : f32 := F32.c0_05.
Definition MANUAL_MODE_SPEED_INCREMENT : f32 := F32.c0_1.
Definition MANUAL_MODE_DEFAULT_SPEED_MS : f32 := F32.c0_5.
Definition MANUAL_MODE_MAX_IMPACT_G : f32 := F32.c0_8.
Definition MOTION_VALIDATION_TIMEOUT_MS : Z := 2000.

(** The static initialisers of the unit. *)
Definition mm_boot : Mm.globals :=
  {| Mm.g_manual_status :=
       {| Mm.state := MANUAL_MODE_IDLE; Mm.mode_start_time := 0;
          Mm.current_speed_ms := F32.zero; Mm.target_speed_ms := F32.zero;
          Mm.direction_forward := true; Mm.motor_active := false;
          Mm.esc_armed := false; Mm.esc_responding := false; Mm.esc_arm_time := 0;
          Mm.command_count := 0; Mm.error_count := 0;
          Mm.status_message := ""; Mm.error_message := "" |};
     Mm.g_manual_initialized := false;
     Mm.g_last_motion_validation_time := 0;
     Mm.g_motion_validation_failures := 0 |}.

Definition manual_mode_is_active : M bool :=
  st <- g_manual_status ;;
  ret ((manual_mode_state_to_Z MANUAL_MODE_IDLE <? manual_mode_state_to_Z (Mm.state st))
       && (manual_mode_state_to_Z (Mm.state st) <? manual_mode_state_to_Z MANUAL_MODE_EMERGENCY_STOP)).

Definition manual_mode_is_speed_safe (speed_ms : f32) : M bool :=
  if F32.lt speed_ms F32.zero || F32.gt speed_ms MANUAL_MODE_MAX_SPEED_MS then ret false
  else
    st <- g_manual_status ;;
    let speed_change := F32.abs (F32.sub speed_ms (Mm.current_speed_ms st)) in
    if F32.gt speed_change F32.c1_0 then ret false else ret true.

Definition manual_mode_set_speed (speed_ms : f32) (forward : bool) : M esp_err_t :=
  active <- manual_mode_is_active ;;
  if negb active then ret ESP_ERR_INVALID_STATE
  else
    safe <- manual_mode_is_speed_safe speed_ms ;;
    if negb safe then ret ESP_ERR_INVALID_ARG
    else
      st <- g_manual_status ;;
      if negb (Mm.esc_armed st) && F32.gt speed_ms F32.zero then ret ESP_ERR_INVALID_STATE
      else
        upd_manual (fun st =>
          Mm.set_motor_active (F32.gt speed_ms MANUAL_MODE_MIN_SPEED_MS)
            (Mm.set_direction_forward forward (Mm.set_target_speed_ms speed_ms st))) ;;
        result <- hardware_set_motor_speed speed_ms forward ;;
        if negb (esp_err_eqb result ESP_OK) then ret result
        else
          (if F32.gt speed_ms MANUAL_MODE_MIN_SPEED_MS then
             upd_manual (fun st =>
               Mm.set_status_message "Motor active - manual control"
                 (Mm.set_state
                    (if forward then MANUAL_MODE_MOVING_FORWARD
                     else MANUAL_MODE_MOVING_BACKWARD) st))
           else
             upd_manual (fun st =>
               Mm.set_status_message "Motor stopped - ready for commands"
                 (Mm.set_state MANUAL_MODE_ACTIVE st))) ;;
          ret ESP_OK.

Definition manual_mode_move_forward : M esp_err_t :=
  manual_mode_set_speed MANUAL_MODE_DEFAULT_SPEED_MS true.

Definition manual_mode_move_backward : M esp_err_t :=
  manual_mode_set_speed MANUAL_MODE_DEFAULT_SPEED_MS false.

Definition manual_mode_stop_movement : M esp_err_t :=
  st <- g_manual_status ;;
  result <- manual_mode_set_speed F32.zero (Mm.direction_forward st) ;;
  (if esp_err_eqb result ESP_OK then
     upd_manual (fun st =>
       Mm.set_status_message "Stopping motor..." (Mm.set_state MANUAL_MODE_STOPPING st)) ;;
     vTaskDelay_ms 200 ;;
     upd_manual (fun st =>
       Mm.set_status_message "Motor stopped - ready for commands"
         (Mm.set_state MANUAL_MODE_ACTIVE st))
   else ret tt) ;;
  ret result.

Definition manual_mode_increase_speed : M esp_err_t :=
  st <- g_manual_status ;;
  let new_speed := F32.add (Mm.target_speed_ms st) MANUAL_MODE_SPEED_INCREMENT in
  if F32.gt new_speed MANUAL_MODE_MAX_SPEED_MS then ret ESP_ERR_INVALID_ARG
  else manual_mode_set_speed new_speed (Mm.direction_forward st).

Definition manual_mode_decrease_speed : M esp_err_t :=
  st <- g_manual_status ;;
  let new_speed := F32.sub (Mm.target_speed_ms st) MANUAL_MODE_SPEED_INCREMENT in
  let new_speed := if F32.lt new_speed F32.zero then F32.zero else new_speed in
  manual_mode_set_speed new_speed (Mm.direction_forward st).

Definition manual_mode_arm_esc : M esp_err_t :=
  active <- manual_mode_is_active ;;
  if negb active then ret ESP_ERR_INVALID_STATE
  else
    st <- g_manual_status ;;
    if Mm.esc_armed st then ret ESP_OK
    else
      upd_manual (fun st =>
        Mm.set_status_message "Arming ESC..." (Mm.set_state MANUAL_MODE_ESC_ARMING st)) ;;
      result <- hardware_esc_arm ;;
      (if esp_err_eqb result ESP_OK then
         now <- esp_timer_get_time ;;
         upd_manual (fun st =>
           Mm.set_status_message "ESC armed - ready for motor commands"
             (Mm.set_state MANUAL_MODE_ACTIVE
                (Mm.set_esc_arm_time now
                   (Mm.set_esc_responding true (Mm.set_esc_armed true st)))))
       else
         upd_manual (fun st =>
           Mm.set_error_message "Failed to arm ESC" (Mm.set_state MANUAL_MODE_ERROR st))) ;;
      ret result.

Definition manual_mode_disarm_esc : M esp_err_t :=
  manual_mode_stop_movement ;;
  upd_manual (fun st =>
    Mm.set_status_message "Disarming ESC..." (Mm.set_state MANUAL_MODE_ESC_DISARMING st)) ;;
  result <- hardware_esc_disarm ;;
  upd_manual (fun st =>
    Mm.set_status_message "ESC disarmed - ready for arming"
      (Mm.set_state MANUAL_MODE_READY
         (Mm.set_target_speed_ms F32.zero
            (Mm.set_motor_active false
               (Mm.set_esc_responding false (Mm.set_esc_armed false st)))))) ;;
  ret result.

Definition manual_mode_is_esc_responding : M bool :=
  st <- g_manual_status ;;
  if Mm.esc_responding st then hardware_esc_is_armed else ret false.

Definition manual_mode_emergency_stop : M esp_err_t :=
  hardware_emergency_stop ;;
  upd_manual (fun st =>
    Mm.set_status_message "EMERGENCY STOP - All motion halted"
      (Mm.set_current_speed_ms F32.zero
         (Mm.set_target_speed_ms F32.zero
            (Mm.set_motor_active false
               (Mm.set_state MANUAL_MODE_EMERGENCY_STOP st))))) ;;
  ret ESP_OK.

Definition manual_mode_check_impact_detection : M bool :=
  sensor_status <- gets sh ;;
  if F32.gt (Sh.total_accel_g sensor_status) MANUAL_MODE_MAX_IMPACT_G then
    manual_mode_emergency_stop ;; ret true
  else ret false.

Definition manual_mode_monitor_hall_sensor : M bool :=
  current_time <- esp_timer_get_time ;;
  st <- g_manual_status ;;
  if negb (Mm.motor_active st) then ret true
  else
    last <- gets (fun s => Mm.g_last_motion_validation_time (mm s)) ;;
    let time_since_validation := wrap64 (current_time - last) in
    if MOTION_VALIDATION_TIMEOUT_MS * 1000 <? time_since_validation then
      since <- hardware_get_time_since_last_hall_pulse ;;
      if MOTION_VALIDATION_TIMEOUT_MS * 1000 <? since then
        upd_mm (fun g =>
          Mm.set_g_motion_validation_failures
            (wrap32 (Mm.g_motion_validation_failures g + 1)) g) ;;
        n <- gets (fun s => Mm.g_motion_validation_failures (mm s)) ;;
        if 3 <=? n then manual_mode_emergency_stop ;; ret false
        else upd_mm (Mm.set_g_last_motion_validation_time current_time) ;; ret true
      else
        upd_mm (Mm.set_g_motion_validation_failures 0) ;;
        upd_mm (Mm.set_g_last_motion_validation_time current_time) ;;
        ret true
    else ret true.

Definition manual_mode_monitor_sensor_health : M bool :=
  validated <- mode_coordinator_are_sensors_validated ;;
  if negb validated then ret false
  else
    impact <- manual_mode_check_impact_detection ;;
    if impact then ret false
    else
      st <- g_manual_status ;;
      if Mm.motor_active st then
        ok <- manual_mode_monitor_hall_sensor ;;
        if negb ok then ret false else ret true
      else ret true.

Definition manual_mode_is_operation_safe : M bool :=
  safe <- mode_coordinator_is_motion_safe ;;
  if negb safe then ret false
  else
    healthy <- manual_mode_monitor_sensor_health ;;
    if negb healthy then ret false
    else
      st <- g_manual_status ;;
      if Mm.esc_armed st then
        responding <- manual_mode_is_esc_responding ;;
        if negb responding then ret false else ret true
      else ret true.

Definition manual_mode_init : M esp_err_t :=
  upd_manual (fun st =>
    Mm.set_error_message ""
      (Mm.set_status_message "Manual mode ready" (Mm.set_state MANUAL_MODE_IDLE st))) ;;
  upd_mm (fun g =>
    Mm.set_g_manual_initialized true
      (Mm.set_g_motion_validation_failures 0
         (Mm.set_g_last_motion_validation_time 0 g))) ;;
  ret ESP_OK.

Definition manual_mode_start : M esp_err_t :=
  initialized <- gets (fun s => Mm.g_manual_initialized (mm s)) ;;
  if negb initialized then ret ESP_ERR_INVALID_STATE
  else
    validated <- mode_coordinator_are_sensors_validated ;;
    if negb validated then ret ESP_ERR_INVALID_STATE
    else
      now <- esp_timer_get_time ;;
      upd_manual (fun st =>
        Mm.set_error_message ""
          (Mm.set_status_message "Manual mode active - ARM ESC to enable motor control"
             (Mm.set_error_count 0
                (Mm.set_command_count 0
                   (Mm.set_direction_forward true
                      (Mm.set_current_speed_ms F32.zero
                         (Mm.set_target_speed_ms F32.zero
                            (Mm.set_motor_active false
                               (Mm.set_esc_armed false
                                  (Mm.set_mode_start_time now
                                     (Mm.set_state MANUAL_MODE_READY st))))))))))) ;;
      hardware_reset_position ;;
      ret ESP_OK.

Definition manual_mode_stop : M esp_err_t :=
  manual_mode_stop_movement ;;
  st <- g_manual_status ;;
  (if Mm.esc_armed st then manual_mode_disarm_esc ;; ret tt else ret tt) ;;
  upd_manual (fun st =>
    Mm.set_status_message "Manual mode stopped" (Mm.set_state MANUAL_MODE_IDLE st)) ;;
  ret ESP_OK.

Definition manual_mode_update : M esp_err_t :=
  initialized <- gets (fun s => Mm.g_manual_initialized (mm s)) ;;
  st <- g_manual_status ;;
  if negb initialized
     || match Mm.state st with MANUAL_MODE_IDLE => true | _ => false end
  then ret ESP_OK
  else
    v <- hardware_get_current_speed ;;
    upd_manual (Mm.set_current_speed_ms v) ;;
    armed <- hardware_esc_is_armed ;;
    upd_manual (Mm.set_esc_responding armed) ;;
    safe <- manual_mode_is_operation_safe ;;
    if negb safe then manual_mode_emergency_stop ;; ret ESP_ERR_INVALID_STATE
    else ret ESP_OK.

(* ================================================================== *)
(** * mode_coordinator.cpp *)
(* ================================================================== *)

Definition SENSOR_VALIDATION_TIMEOUT_MS : Z := 60000.
Definition MAX_SYSTEM_ERRORS : Z := 10.
Definition ERROR_RESET_TIME_MS : Z := 30000.

Definition mc_coasting_zero : Mc.coasting_data_t :=
  {| Mc.calibrated := false; Mc.coasting_distance_m := F32.zero;
     Mc.coast_start_distance_m := F32.zero; Mc.coast_time_ms := 0;
     Mc.decel_rate_ms2 := F32.zero |}.

(** [memset(&g_mode_status, 0, ...)]. *)
Definition mc_status_zero : Mc.system_mode_status_t :=
  {| Mc.current_mode := TROLLEY_MODE_NONE; Mc.previous_mode := TROLLEY_MODE_NONE;
     Mc.mode_start_time := 0;
     Mc.wire_learning_availability := MODE_BLOCKED_SENSORS_NOT_VALIDATED;
     Mc.automatic_availability := MODE_BLOCKED_SENSORS_NOT_VALIDATED;
     Mc.manual_availability := MODE_BLOCKED_SENSORS_NOT_VALIDATED;
     Mc.sensor_validation_state := SENSOR_VALIDATION_NOT_STARTED;
     Mc.sensors_validated := false; Mc.hall_validation_complete := false;
     Mc.accel_validation_complete := false; Mc.sensor_validation_message := "";
     Mc.error_message := ""; Mc.system_healthy := false; Mc.last_error_time := 0 |}.

(** The static initialisers of the unit; the NVS partition starts empty. *)
Definition mc_boot : Mc.globals :=
  {| Mc.g_mode_status := mc_status_zero; Mc.g_coordinator_initialized := false;
     Mc.g_sensor_validation_start_time := 0;
     Mc.g_hall_validation_user_confirmed := false;
     Mc.g_accel_validation_user_confirmed := false;
     Mc.g_wire_learning_data := wl_results_zero; Mc.g_coasting_data := mc_coasting_zero;
     Mc.g_error_count := 0; Mc.g_last_error_reset_time := 0;
     Mc.nvs_wire_learning := None; Mc.nvs_coasting := None |}.

Definition update_sensor_validation_state : M unit :=
  sensor_status <- gets sh ;;
  ms <- g_mode_status ;;
  hall_confirmed <- gets (fun s => Mc.g_hall_validation_user_confirmed (mc s)) ;;
  accel_confirmed <- gets (fun s => Mc.g_accel_validation_user_confirmed (mc s)) ;;
  match Mc.sensor_validation_state ms with
  | SENSOR_VALIDATION_NOT_STARTED =>
      upd_mode_status (Mc.set_sensor_validation_message
        "SENSOR VALIDATION REQUIRED: Step 1: ROTATE THE WHEEL manually")
  | SENSOR_VALIDATION_IN_PROGRESS =>
      if Sh.wheel_rotation_detected sensor_status && negb hall_confirmed then
        upd_mode_status (fun ms =>
          Mc.set_sensor_validation_message
            "HALL SENSOR OK! Press 'Confirm Hall Sensor' button to continue"
            (Mc.set_sensor_validation_state SENSOR_VALIDATION_HALL_PENDING ms))
      else ret tt
  | SENSOR_VALIDATION_HALL_PENDING =>
      if hall_confirmed then
        upd_mode_status (fun ms =>
          Mc.set_sensor_validation_message
            "Step 2: SHAKE THE TROLLEY to test accelerometer"
            (Mc.set_hall_validation_complete true
               (Mc.set_sensor_validation_state SENSOR_VALIDATION_ACCEL_PENDING ms)))
      else ret tt
  | SENSOR_VALIDATION_ACCEL_PENDING =>
      if Sh.trolley_shake_detected sensor_status && negb accel_confirmed then
        upd_mode_status (Mc.set_sensor_validation_message
          "ACCELEROMETER OK! Press 'Confirm Accelerometer' button to complete")
      else if accel_confirmed then
        upd_mode_status (fun ms =>
          Mc.set_sensor_validation_message
            "ALL SENSORS VALIDATED - Modes now available"
            (Mc.set_sensors_validated true
               (Mc.set_accel_validation_complete true
                  (Mc.set_sensor_validation_state SENSOR_VALIDATION_COMPLETE ms))))
      else ret tt
  | SENSOR_VALIDATION_COMPLETE =>
      upd_mode_status (Mc.set_sensor_validation_message
        "Sensors validated and ready for operation")
  | SENSOR_VALIDATION_FAILED =>
      upd_mode_status (Mc.set_sensor_validation_message
        "Sensor validation FAILED - Check connections and retry")
  end ;;
  (* Check for validation timeout *)
  ms <- g_mode_status ;;
  if (sensor_validation_state_to_Z SENSOR_VALIDATION_NOT_STARTED
        <? sensor_validation_state_to_Z (Mc.sensor_validation_state ms))
     && (sensor_validation_state_to_Z (Mc.sensor_validation_state ms)
           <? sensor_validation_state_to_Z SENSOR_VALIDATION_COMPLETE)
  then
    now <- esp_timer_get_time ;;
    start <- gets (fun s => Mc.g_sensor_validation_start_time (mc s)) ;;
    if SENSOR_VALIDATION_TIMEOUT_MS * 1000 <? wrap64 (now - start) then
      upd_mode_status (fun ms =>
        Mc.set_sensor_validation_message
          "Validation timeout - Restart validation process"
          (Mc.set_sensor_validation_state SENSOR_VALIDATION_FAILED ms))
    else ret tt
  else ret tt.

Definition update_mode_availability : M unit :=
  ms <- g_mode_status ;;
  wl_active <- wire_learning_mode_is_active ;;
  am_active <- automatic_mode_is_active ;;
  mm_active <- manual_mode_is_active ;;
  wire_data <- gets (fun s => Mc.g_wire_learning_data (mc s)) ;;
  upd_mode_status (Mc.set_wire_learning_availability
    (if negb (Mc.sensors_validated ms) then MODE_BLOCKED_SENSORS_NOT_VALIDATED
     else if wl_active then MODE_ACTIVE
     else if negb (Mc.system_healthy ms) then MODE_BLOCKED_SYSTEM_ERROR
     else MODE_AVAILABLE)) ;;
  upd_mode_status (Mc.set_automatic_availability
    (if negb (Mc.sensors_validated ms) then MODE_BLOCKED_SENSORS_NOT_VALIDATED
     else if negb (Wl.complete wire_data) then MODE_BLOCKED_WIRE_LEARNING_REQUIRED
     else if am_active then MODE_ACTIVE
     else if negb (Mc.system_healthy ms) then MODE_BLOCKED_SYSTEM_ERROR
     else MODE_AVAILABLE)) ;;
  upd_mode_status (Mc.set_manual_availability
    (if negb (Mc.sensors_validated ms) then MODE_BLOCKED_SENSORS_NOT_VALIDATED
     else if mm_active then MODE_ACTIVE
     else if negb (Mc.system_healthy ms) then MODE_BLOCKED_SYSTEM_ERROR
     else MODE_AVAILABLE)).

Definition update_current_mode_status : M unit :=
  wl_active <- wire_learning_mode_is_active ;;
  am_active <- automatic_mode_is_active ;;
  mm_active <- manual_mode_is_active ;;
  upd_mode_status (Mc.set_current_mode
    (if wl_active then TROLLEY_MODE_WIRE_LEARNING
     else if am_active then TROLLEY_MODE_AUTOMATIC
     else if mm_active then TROLLEY_MODE_MANUAL
     else TROLLEY_MODE_NONE)).

Definition mode_coordinator_init : M esp_err_t :=
  upd_mode_status (fun _ => Mc.set_system_healthy true mc_status_zero) ;;
  load_persistent_data ;;
  upd_mode_status (Mc.set_sensor_validation_message
    "SENSOR VALIDATION REQUIRED: Step 1: ROTATE THE WHEEL manually") ;;
  upd_mc (Mc.set_g_coordinator_initialized true) ;;
  ret ESP_OK.

Definition mode_coordinator_is_mode_available (mode : trolley_operation_mode_t) : M bool :=
  ms <- g_mode_status ;;
  ret match mode with
      | TROLLEY_MODE_WIRE_LEARNING =>
          mode_availability_eqb (Mc.wire_learning_availability ms) MODE_AVAILABLE
      | TROLLEY_MODE_AUTOMATIC =>
          mode_availability_eqb (Mc.automatic_availability ms) MODE_AVAILABLE
      | TROLLEY_MODE_MANUAL =>
          mode_availability_eqb (Mc.manual_availability ms) MODE_AVAILABLE
      | TROLLEY_MODE_NONE => false
      end.

Definition mode_coordinator_update : M esp_err_t :=
  initialized <- gets (fun s => Mc.g_coordinator_initialized (mc s)) ;;
  if negb initialized then ret ESP_ERR_INVALID_STATE
  else
    update_sensor_validation_state ;;
    update_mode_availability ;;
    update_current_mode_status ;;
    hw_status <- hardware_get_status ;;
    sensor_status <- gets sh ;;
    count <- gets (fun s => Mc.g_error_count (mc s)) ;;
    upd_mode_status (Mc.set_system_healthy
      (Hw.system_initialized hw_status && Sh.system_ready sensor_status
       && (count <? MAX_SYSTEM_ERRORS))) ;;
    current_time <- esp_timer_get_time ;;
    last_reset <- gets (fun s => Mc.g_last_error_reset_time (mc s)) ;;
    (if (0 <? count) && (ERROR_RESET_TIME_MS * 1000 <? wrap64 (current_time - last_reset))
     then
       upd_mc (Mc.set_g_error_count 0) ;;
       upd_mode_status (Mc.set_error_message "")
     else ret tt) ;;
    ret ESP_OK.

Definition mode_coordinator_start_sensor_validation : M esp_err_t :=
  now <- esp_timer_get_time ;;
  upd_mc (fun g =>
    Mc.set_g_accel_validation_user_confirmed false
      (Mc.set_g_hall_validation_user_confirmed false
         (Mc.set_g_sensor_validation_start_time now g))) ;;
  upd_mode_status (fun ms =>
    Mc.set_sensor_validation_message
      "Step 1: ROTATE THE WHEEL manually to test Hall sensor"
      (Mc.set_accel_validation_complete false
         (Mc.set_hall_validation_complete false
            (Mc.set_sensors_validated false
               (Mc.set_sensor_validation_state SENSOR_VALIDATION_IN_PROGRESS ms))))) ;;
  ret ESP_OK.

Definition mode_coordinator_confirm_hall_validation : M esp_err_t :=
  ms <- g_mode_status ;;
  match Mc.sensor_validation_state ms with
  | SENSOR_VALIDATION_HALL_PENDING =>
      upd_mc (Mc.set_g_hall_validation_user_confirmed true) ;; ret ESP_OK
  | _ => ret ESP_ERR_INVALID_STATE
  end.

Definition mode_coordinator_confirm_accel_validation : M esp_err_t :=
  ms <- g_mode_status ;;
  match Mc.sensor_validation_state ms with
  | SENSOR_VALIDATION_ACCEL_PENDING =>
      upd_mc (Mc.set_g_accel_validation_user_confirmed true) ;; ret ESP_OK
  | _ => ret ESP_ERR_INVALID_STATE
  end.

(** [sensor_health_reset_validation], on the fields of [sensor_health_t]
    that the core reads. *)
Definition sensor_health_reset_validation : M unit :=
  modify (fun s =>
    set_sh {| Sh.wheel_rotation_detected := false; Sh.total_accel_g := F32.zero;
              Sh.trolley_shake_detected := false; Sh.system_ready := false |} s).

Definition mode_coordinator_reset_sensor_validation : M esp_err_t :=
  upd_mc (fun g =>
    Mc.set_g_accel_validation_user_confirmed false
      (Mc.set_g_hall_validation_user_confirmed false g)) ;;
  upd_mode_status (fun ms =>
    Mc.set_accel_validation_complete false
      (Mc.set_hall_validation_complete false
         (Mc.set_sensors_validated false
            (Mc.set_sensor_validation_state SENSOR_VALIDATION_NOT_STARTED ms)))) ;;
  sensor_health_reset_validation ;;
  ret ESP_OK.

Definition mode_coordinator_stop_current_mode (immediate : bool) : M esp_err_t :=
  ms <- g_mode_status ;;
  match Mc.current_mode ms with
  | TROLLEY_MODE_WIRE_LEARNING => wire_learning_mode_stop immediate ;; ret tt
  | TROLLEY_MODE_AUTOMATIC =>
      if immediate then automatic_mode_interrupt ;; ret tt
      else automatic_mode_stop_graceful ;; ret tt
  | TROLLEY_MODE_MANUAL => manual_mode_stop ;; ret tt
  | TROLLEY_MODE_NONE => ret tt
  end ;;
  upd_mode_status (fun ms =>
    Mc.set_current_mode TROLLEY_MODE_NONE (Mc.set_previous_mode (Mc.current_mode ms) ms)) ;;
  ret ESP_OK.

Definition mode_coordinator_activate_wire_learning : M esp_err_t :=
  available <- mode_coordinator_is_mode_available TROLLEY_MODE_WIRE_LEARNING ;;
  if negb available then ret ESP_ERR_INVALID_STATE
  else
    mode_coordinator_stop_current_mode true ;;
    result <- wire_learning_mode_start ;;
    (if esp_err_eqb result ESP_OK then
       now <- esp_timer_get_time ;; upd_mode_status (Mc.set_mode_start_time now)
     else ret tt) ;;
    ret result.

Definition mode_coordinator_activate_automatic : M esp_err_t :=
  available <- mode_coordinator_is_mode_available TROLLEY_MODE_AUTOMATIC ;;
  if negb available then ret ESP_ERR_INVALID_STATE
  else
    mode_coordinator_stop_current_mode true ;;
    result <- automatic_mode_start ;;
    (if esp_err_eqb result ESP_OK then
       now <- esp_timer_get_time ;; upd_mode_status (Mc.set_mode_start_time now)
     else ret tt) ;;
    ret result.

Definition mode_coordinator_activate_manual : M esp_err_t :=
  available <- mode_coordinator_is_mode_available TROLLEY_MODE_MANUAL ;;
  if negb available then ret ESP_ERR_INVALID_STATE
  else
    mode_coordinator_stop_current_mode true ;;
    result <- manual_mode_start ;;
    (if esp_err_eqb result ESP_OK then
       now <- esp_timer_get_time ;; upd_mode_status (Mc.set_mode_start_time now)
     else ret tt) ;;
    ret result.

Definition mode_coordinator_emergency_stop : M esp_err_t :=
  hardware_emergency_stop ;;
  wire_learning_mode_stop true ;;
  automatic_mode_interrupt ;;
  manual_mode_stop ;;
  upd_mode_status (fun ms =>
    Mc.set_error_message "Emergency stop activated"
      (Mc.set_current_mode TROLLEY_MODE_NONE ms)) ;;
  ret ESP_OK.

Definition mode_coordinator_report_error (error_message : string) : M esp_err_t :=
  upd_mc (fun g => Mc.set_g_error_count (wrap32 (Mc.g_error_count g + 1)) g) ;;
  now <- esp_timer_get_time ;;
  upd_mode_status (Mc.set_last_error_time now) ;;
  upd_mc (Mc.set_g_last_error_reset_time now) ;;
  upd_mode_status (Mc.set_error_message (String.substring 0 127 error_message)) ;;
  count <- gets (fun s => Mc.g_error_count (mc s)) ;;
  (if MAX_SYSTEM_ERRORS <=? count then
     mode_coordinator_emergency_stop ;;
     upd_mode_status (Mc.set_system_healthy false)
   else ret tt) ;;
  ret ESP_OK.

Definition mode_coordinator_clear_error : M esp_err_t :=
  upd_mc (Mc.set_g_error_count 0) ;;
  upd_mode_status (fun ms => Mc.set_system_healthy true (Mc.set_error_message "" ms)) ;;
  ret ESP_OK.

Definition mode_coordinator_reset_system : M esp_err_t :=
  mode_coordinator_emergency_stop ;;
  upd_mc (fun g =>
    Mc.set_g_coasting_data mc_coasting_zero (Mc.set_g_wire_learning_data wl_results_zero g)) ;;
  mode_coordinator_reset_sensor_validation ;;
  upd_mc (Mc.set_g_error_count 0) ;;
  upd_mode_status (Mc.set_error_message "") ;;
  hardware_reset_position ;;
  ret ESP_OK.

(* ================================================================== *)
(** * Boot state, calls and runs *)
(* ================================================================== *)

Definition sh_boot : Sh.sensor_health_t :=
  {| Sh.wheel_rotation_detected := false; Sh.total_accel_g := F32.zero;
     Sh.trolley_shake_detected := false; Sh.system_ready := false |}.

(** The firmware at power-up: every global has its static initialiser. *)
Definition boot : system :=
  {| clock := 0; hw := hw_boot; sh := sh_boot; wl := wl_boot; am := am_boot;
     mm := mm_boot; mc := mc_boot |}.

(** What can happen to the firmware: the environment acts (time passes, a
    Hall pulse is processed, the ESC task runs, the sensor-health unit
    publishes readings) or one of the entry points is called. *)
Inductive call : Type :=
| Elapse (us : Z)
| HallPulse
| EscUpdate
| Sensors (v : Sh.sensor_health_t)
| HardwareInit (queue_ok : bool)
| HardwareArm
| HardwareDisarm
| HardwareSetSpeed (speed_ms : f32) (forward : bool)
| HardwareEmergencyStop
| WlInit
| WlStart
| WlStop (immediate : bool)
| WlUpdate
| WlEmergencyStop
| WlReset
| AmInit
| AmStart
| AmStopGraceful
| AmInterrupt
| AmUpdate
| AmAccelerate (target_speed : f32)
| AmDecelerate (target_speed : f32)
| AmMaintainCruise
| AmStartCoastingCalibration
| AmHandleEmergency (msg : string)
| MmInit
| MmStart
| MmStop
| MmUpdate
| MmArm
| MmDisarm
| MmSetSpeed (speed_ms : f32) (forward : bool)
| MmStopMovement
| MmIncreaseSpeed
| MmDecreaseSpeed
| MmEmergencyStop
| McInit
| McUpdate
| McStartValidation
| McConfirmHall
| McConfirmAccel
| McResetValidation
| McActivateWireLearning
| McActivateAutomatic
| McActivateManual
| McStopCurrent (immediate : bool)
| McEmergencyStop
| McReportError (msg : string)
| McClearError
| McResetSystem.

Definition discard {A : Type} (m : M A) : M unit := m ;; ret tt.

Definition perform (c : call) : M unit :=
  match c with
  | Elapse us => modify (fun s => set_clock (wrap64 (clock s + Z.max 0 us)) s)
  | HallPulse => now <- esp_timer_get_time ;; hall_processing_task now
  | EscUpdate => esc_update_task
  | Sensors v => modify (set_sh v)
  | HardwareInit queue_ok => discard (hardware_init queue_ok)
  | HardwareArm => discard hardware_esc_arm
  | HardwareDisarm => discard hardware_esc_disarm
  | HardwareSetSpeed v d => discard (hardware_set_motor_speed v d)
  | HardwareEmergencyStop => discard hardware_emergency_stop
  | WlInit => discard wire_learning_mode_init
  | WlStart => discard wire_learning_mode_start
  | WlStop i => discard (wire_learning_mode_stop i)
  | WlUpdate => discard wire_learning_mode_update
  | WlEmergencyStop => discard wire_learning_emergency_stop
  | WlReset => discard wire_learning_mode_reset
  | AmInit => discard automatic_mode_init
  | AmStart => discard automatic_mode_start
  | AmStopGraceful => discard automatic_mode_stop_graceful
  | AmInterrupt => discard automatic_mode_interrupt
  | AmUpdate => discard automatic_mode_update
  | AmAccelerate v => discard (automatic_mode_accelerate_to_speed v)
  | AmDecelerate v => discard (automatic_mode_decelerate_to_speed v)
  | AmMaintainCruise => discard automatic_mode_maintain_cruise_speed
  | AmStartCoastingCalibration => discard automatic_mode_start_coasting_calibration
  | AmHandleEmergency msg => discard (automatic_mode_handle_emergency msg)
  | MmInit => discard manual_mode_init
  | MmStart => discard manual_mode_start
  | MmStop => discard manual_mode_stop
  | MmUpdate => discard manual_mode_update
  | MmArm => discard manual_mode_arm_esc
  | MmDisarm => discard manual_mode_disarm_esc
  | MmSetSpeed v d => discard (manual_mode_set_speed v d)
  | MmStopMovement => discard manual_mode_stop_movement
  | MmIncreaseSpeed => discard manual_mode_increase_speed
  | MmDecreaseSpeed => discard manual_mode_decrease_speed
  | MmEmergencyStop => discard manual_mode_emergency_stop
  | McInit => discard mode_coordinator_init
  | McUpdate => discard mode_coordinator_update
  | McStartValidation => discard mode_coordinator_start_sensor_validation
  | McConfirmHall => discard mode_coordinator_confirm_hall_validation
  | McConfirmAccel => discard mode_coordinator_confirm_accel_validation
  | McResetValidation => discard mode_coordinator_reset_sensor_validation
  | McActivateWireLearning => discard mode_coordinator_activate_wire_learning
  | McActivateAutomatic => discard mode_coordinator_activate_automatic
  | McActivateManual => discard mode_coordinator_activate_manual
  | McStopCurrent i => discard (mode_coordinator_stop_current_mode i)
  | McEmergencyStop => discard mode_coordinator_emergency_stop
  | McReportError msg => discard (mode_coordinator_report_error msg)
  | McClearError => discard mode_coordinator_clear_error
  | McResetSystem => discard mode_coordinator_reset_system
  end.

Definition step (c : call) (s : system) : system := exec (perform c) s.

(** The state after a sequence of calls, and every state passed on the way. *)
Definition run (t : list call) (s : system) : system := fold_left (fun s c => step c s) t s.

Fixpoint states (t : list call) (s : system) : list system :=
  match t with
  | [] => [s]
  | c :: t' => s :: states t' (step c s)
  end.

(** Which mode engines report [is_active() == true]. *)
Definition active_engines (s : system) : list trolley_operation_mode_t :=
  (if eval wire_learning_mode_is_active s then [TROLLEY_MODE_WIRE_LEARNING] else [])
  ++ (if eval automatic_mode_is_active s then [TROLLEY_MODE_AUTOMATIC] else [])
  ++ (if eval manual_mode_is_active s then [TROLLEY_MODE_MANUAL] else []).

(* ================================================================== *)
(** * Vocabulary of the statements *)
(* ================================================================== *)

Definition hw_status_of (s : system) : Hw.hardware_status_t := Hw.g_hw_status (hw s).
Definition hw_target (s : system) : f32 := Hw.target_speed_ms (hw_status_of s).

(** A speed outside [[0, MAX_SPEED_MS]]: below zero, above the limit, or not
    a number. *)
Definition out_of_range (speed_ms : f32) : Prop :=
  F32.lt speed_ms F32.zero = true
  \/ F32.gt speed_ms MAX_SPEED_MS = true
  \/ F32.is_nan speed_ms = true.

(** [preserves I m]: the invariant [I] survives [m]. *)
Definition preserves {A : Type} (I : system -> Prop) (m : M A) : Prop :=
  forall s, I s -> I (exec m s).

(** Invariants that speak about one component only. *)
Definition on_hw (P : Hw.globals -> Prop) : system -> Prop := fun s => P (hw s).
Definition on_wl (P : Wl.globals -> Prop) : system -> Prop := fun s => P (wl s).
Definition on_am (P : Am.globals -> Prop) : system -> Prop := fun s => P (am s).
Definition on_mm (P : Mm.globals -> Prop) : system -> Prop := fun s => P (mm s).
Definition on_mc (P : Mc.globals -> Prop) : system -> Prop := fun s => P (mc s).

Definition target_valid (g : Hw.globals) : Prop :=
  hardware_is_speed_valid (Hw.target_speed_ms (Hw.g_hw_status g)) = true.

(** A trolley commanded to 0.5 m/s whose wheel gave one pulse and then stood
    still for 2.5 s. *)
Definition stalled : system :=
  run [HardwareInit true; HardwareArm; HardwareSetSpeed F32.c0_5 true; HallPulse;
       Elapse 2500000] boot.

(** The progress record of wire learning and the test speed. *)
Definition wl_progress (s : system) : Wl.wire_learning_progress_t :=
  Wl.g_learning_progress (wl s).
Definition test_speed (s : system) : f32 := Wl.g_current_test_speed (wl s).

(** [within x lo hi den]: the float [x] is finite and [lo/den <= x <= hi/den]. *)
Definition within (x : f32) (lo hi den : Z) : Prop :=
  match F32.to_frac x with
  | Some (n, sh) => lo * 2 ^ sh <= n * den <= hi * 2 ^ sh
  | None => False
  end.

Definition f10_0 : f32 := Eval vm_compute in F32.of_Z 10.
Definition f10_3 : f32 := Eval vm_compute in F32.lit 103 10.
Definition f12_0 : f32 := Eval vm_compute in F32.of_Z 12.

(** The average of the two measured distances and their difference in per
    cent of the average, as [calculate_final_results] computes them. *)
Definition average_length (fwd rev : f32) : f32 :=
  F32.div (F32.add fwd rev) F32.c2_0.
Definition difference_percent (fwd rev : f32) : f32 :=
  F32.mul (F32.div (F32.abs (F32.sub fwd rev)) (average_length fwd rev)) F32.c100.

(** A wire-learning engine that has measured [fwd] and [rev] and is about to
    calculate its results. *)
Definition measured (fwd rev : f32) : system :=
  set_wl
    (Wl.set_g_learning_progress
       (Wl.set_reverse_distance_m rev
          (Wl.set_forward_distance_m fwd
             (Wl.set_state WIRE_LEARNING_CALCULATING_RESULTS wl_progress_zero)))
       (Wl.set_g_learning_initialized true wl_boot))
    boot.

(** Hall pulses counted and time elapsed since the last speed change. *)
Definition pulses_since (s : system) : Z :=
  wrap32 (eval hardware_get_rotation_count s - Wl.g_hall_pulses_at_speed_start (wl s)).
Definition elapsed_since (s : system) : Z :=
  wrap64 (clock s - Wl.g_speed_test_start_time (wl s)).

(** The test speed that follows [cur] in [progress_to_next_speed]: one step
    further, capped at the ceiling; unchanged once the ceiling is reached. *)
Definition next_test_speed (cur : f32) : f32 :=
  if F32.ge cur WIRE_LEARNING_MAX_SPEED_MS then cur
  else
    let next := F32.add cur WIRE_LEARNING_SPEED_INCREMENT in
    if F32.gt next WIRE_LEARNING_MAX_SPEED_MS then WIRE_LEARNING_MAX_SPEED_MS else next.

(** The first [n] test speeds of a direction run in which every speed gets
    validated. *)
Fixpoint ramp (n : nat) (cur : f32) : list f32 :=
  match n with
  | O => []
  | S n' => cur :: ramp n' (next_test_speed cur)
  end.

(** Sensor readings after a successful sensor-health validation. *)
Definition sensors_ready : Sh.sensor_health_t :=
  {| Sh.wheel_rotation_detected := true; Sh.total_accel_g := F32.zero;
     Sh.trolley_shake_detected := true; Sh.system_ready := true |}.

(** Power-up, initialisation of every unit, one Hall pulse, and the
    validation handshake of the coordinator with both detections present. *)
Definition bring_up : list call :=
  [HardwareInit true; WlInit; AmInit; MmInit; McInit; HallPulse;
   Sensors sensors_ready; McStartValidation; McUpdate; McConfirmHall; McUpdate;
   McConfirmAccel; McUpdate; McUpdate].

(** Wire learning started through the coordinator; its first update commands
    the start speed. *)
Definition learning_started : system :=
  run (bring_up ++ [McActivateWireLearning; WlUpdate]) boot.

(** Ten wheel revolutions, 100 ms apart. *)
Definition ten_pulses : list call :=
  List.concat (repeat [Elapse 100000; HallPulse] 10).

Definition ten_pulses_later : system := run ten_pulses learning_started.
Definition no_pulse_for_3500_ms : system := run [Elapse 3500000] learning_started.

(** Following the spec's words ("wire-end is confirmed by the same
    three-detector logic as wire-learning (impact / Hall-timeout /
    speed-drop, same priority order)"): the wire-end check of the automatic
    mode as the detector of wire learning, a wire end being any method but
    [WIRE_END_NONE]. *)
Definition spec_automatic_mode_is_at_wire_end : M bool :=
  detection <- wire_learning_get_best_detection_method ;;
  ret match detection with WIRE_END_NONE => false | _ => true end.

(** A wheel that gave one pulse and has been silent for 2.5 s, seen for the
    first time. *)
Definition first_silence : system :=
  run [HardwareInit true; HallPulse; Elapse 2500000] boot.

(** A jolt of 0.75 g on a moving trolley. *)
Definition jolt : system :=
  run [HardwareInit true; HallPulse; Elapse 100000;
       Sensors (Sh.set_total_accel_g (F32.lit 3 4) sensors_ready)] boot.

(** A jolt of 1.25 g, above both impact thresholds. *)
Definition hard_jolt : system :=
  run [HardwareInit true; HallPulse; Elapse 100000;
       Sensors (Sh.set_total_accel_g (F32.lit 5 4) sensors_ready)] boot.

(** The three conditions of [automatic_mode_is_at_wire_end]. *)
Definition auto_impact (s : system) : bool :=
  F32.gt (Sh.total_accel_g (sh s)) AUTO_MODE_MAX_IMPACT_G.
Definition auto_hall_timeout (s : system) : bool :=
  2000000 <? eval hardware_get_time_since_last_hall_pulse s.
Definition auto_speed_drop (s : system) : bool :=
  F32.gt (Am.current_target_speed (Am.g_auto_progress (am s))) F32.c0_5
  && F32.lt (Hw.current_speed_ms (hw_status_of s)) F32.c0_2.

(** Sensor readings with the wheel rotation detected and no shake ever. *)
Definition sensors_no_shake : Sh.sensor_health_t :=
  {| Sh.wheel_rotation_detected := true; Sh.total_accel_g := F32.zero;
     Sh.trolley_shake_detected := false; Sh.system_ready := false |}.

(** The operator turns the wheel, confirms the Hall sensor and then confirms
    the accelerometer without shaking the trolley. *)
Definition confirm_without_shake : list call :=
  [HardwareInit true; McInit; McStartValidation; Sensors sensors_no_shake; McUpdate;
   McConfirmHall; McUpdate; McConfirmAccel; McUpdate].

Definition validation_state (s : system) : sensor_validation_state_t :=
  Mc.sensor_validation_state (Mc.g_mode_status (mc s)).
Definition sensors_validated (s : system) : bool :=
  Mc.sensors_validated (Mc.g_mode_status (mc s)).

(** One turn of the main loop after the sensor-health unit. *)
Definition update_cycle : list call := [McUpdate; WlUpdate; AmUpdate; MmUpdate].

(** The hardware at rest: target speed zero and the duty cycle, in the status
    and in the PWM register, at neutral. *)
Definition at_neutral (g : Hw.globals) : Prop :=
  Hw.target_speed_ms (Hw.g_hw_status g) = F32.zero
  /\ Hw.current_esc_duty (Hw.g_hw_status g) = ESC_NEUTRAL_DUTY
  /\ Hw.ledc_duty g = ESC_NEUTRAL_DUTY.

(** A wire length of 10 m learnt in an earlier session and kept in NVS. *)
Definition stored_result : Wl.wire_learning_results_t :=
  Wl.set_wire_length_m f10_0 (Wl.set_complete true wl_results_zero).
Definition boot_with_result : system :=
  set_mc (Mc.set_nvs_wire_learning (Some stored_result) mc_boot) boot.

(** Automatic mode running and seen by the coordinator, then manual mode
    activated. *)
Definition automatic_then_manual : list call :=
  bring_up ++ [McActivateAutomatic; McUpdate; McActivateManual].

(** Manual mode activated and, before the coordinator's next update, wire
    learning activated. *)
Definition manual_then_learning : list call :=
  bring_up ++ [McActivateManual; McActivateWireLearning].

(** The invariant of the test speed of wire learning. *)
Definition test_speed_inv (g : Wl.globals) : Prop :=
  F32.gt (Wl.g_current_test_speed g) WIRE_LEARNING_MAX_SPEED_MS = false
  /\ Wl.g_coasting_calibration_active g = false.

(** The entry points of the wire-learning unit. *)
Definition wire_learning_calls : list call :=
  [WlInit; WlStart; WlStop true; WlStop false; WlUpdate; WlEmergencyStop; WlReset].

(** The test-speed invariant together with a fixed value of the coasting data
    held by the coordinator. *)
Definition coasting_data_is (d : Mc.coasting_data_t) (s : system) : Prop :=
  test_speed_inv (wl s) /\ Mc.g_coasting_data (mc s) = d.

(* ================================================================== *)
(** * Further vocabulary: the hardware layer *)
(* ================================================================== *)

(** The hardware unit's own operations on its globals: the two tasks and
    the entry points that write. *)
Definition hw_operations_keep (P : Hw.globals -> Prop) : Prop :=
  (forall t, preserves (on_hw P) (hall_processing_task t))
  /\ preserves (on_hw P) esc_update_task
  /\ (forall q, preserves (on_hw P) (hardware_init q))
  /\ preserves (on_hw P) hardware_esc_arm
  /\ preserves (on_hw P) hardware_esc_disarm
  /\ (forall v d, preserves (on_hw P) (hardware_set_motor_speed v d))
  /\ preserves (on_hw P) hardware_emergency_stop
  /\ preserves (on_hw P) hardware_reset_rotation_count
  /\ preserves (on_hw P) hardware_reset_position.

(** What holds of the ESC while it is disarmed, and when it can be armed. *)
Definition disarmed_at_rest (g : Hw.globals) : Prop :=
  (Hw.esc_armed (Hw.g_hw_status g) = true ->
   Hw.system_initialized (Hw.g_hw_status g) = true)
  /\ (Hw.esc_armed (Hw.g_hw_status g) = false ->
      Hw.target_speed_ms (Hw.g_hw_status g) = F32.zero
      /\ Hw.current_esc_duty (Hw.g_hw_status g) = ESC_NEUTRAL_DUTY
      /\ (Hw.system_initialized (Hw.g_hw_status g) = true ->
          Hw.ledc_duty g = ESC_NEUTRAL_DUTY)).

(** A trolley that was driven and then disarmed. *)
Definition driven_then_disarmed : list call :=
  [HardwareInit true; HardwareArm; HardwareSetSpeed F32.c0_5 true; EscUpdate;
   HardwareDisarm].
Definition hardware_get_last_error : M hardware_error_t :=
  gets (fun s => Hw.g_last_error (hw s)).

Definition hardware_is_ready : M bool :=
  st <- g_hw_status ;;
  ret (Hw.system_initialized st && Hw.hall_sensor_healthy st && Hw.esc_responding st).

(** What the environment does between two calls of the firmware's entry
    points: time passes, a Hall pulse is processed, the ESC task runs, the
    sensor-health unit publishes readings. *)
Definition is_environment (c : call) : bool :=
  match c with
  | Elapse _ | HallPulse | EscUpdate | Sensors _ => true
  | _ => false
  end.

Definition is_hall_pulse (c : call) : bool :=
  match c with HallPulse => true | _ => false end.

(** The number of Hall pulses in a sequence of calls. *)
Definition pulses_in (t : list call) : Z := Z.of_nat (List.length (filter is_hall_pulse t)).

(** Three wheel revolutions while the ESC task runs. *)
Definition three_revolutions : list call :=
  [HallPulse; Elapse 100000; EscUpdate; HallPulse; Elapse 100000; HallPulse].

(** Whether [hardware_set_motor_speed] accepts a command. *)
Definition speed_command_accepted (s : system) (speed_ms : f32) : bool :=
  Hw.system_initialized (hw_status_of s) && hardware_is_speed_valid speed_ms
  && Hw.esc_armed (hw_status_of s).
(** A trolley whose Hall sensor has not produced a pulse since
    [hardware_init]. *)
Definition never_pulsed (s : system) : Prop := Hw.last_hall_time (hw_status_of s) = 0.

(** Armed and commanded to 0.5 m/s, with a wheel that never turned, sixty
    seconds on. *)
Definition silent_wheel : system :=
  run [HardwareInit true; HardwareArm; HardwareSetSpeed F32.c0_5 true; Elapse 60000000] boot.
(* ================================================================== *)
(** * Further vocabulary: wire learning *)
(* ================================================================== *)

(** A run of wire learning started through the coordinator and left alone
    for 61 s. *)
Definition learning_overdue : system := run [Elapse 61000000] learning_started.

(** What [wire_learning_mode_start] asks for. *)
Definition wire_learning_can_start (s : system) : bool :=
  Wl.g_learning_initialized (wl s) && sensors_validated s
  && Hw.system_initialized (hw_status_of s) && Hw.hall_sensor_healthy (hw_status_of s)
  && Sh.system_ready (sh s).

(** Ten rounds of ten wheel revolutions and one update: the test speed has
    climbed from 0.1 m/s to the ceiling and has been validated there. *)
Definition at_top_speed : system :=
  run (List.concat (repeat (ten_pulses ++ [WlUpdate]) 10)) learning_started.

(** The ring buffer of measured speeds: five entries and an index inside. *)
Definition speed_history_inv (g : Wl.globals) : Prop :=
  0 <= Wl.g_speed_history_index g < 5 /\ List.length (Wl.g_speed_history g) = 5%nat.
(* ================================================================== *)
(** * Further vocabulary: the automatic mode *)
(* ================================================================== *)

(** The states in which the automatic engine can be found between two
    calls. *)
Definition automatic_state_possible (st : automatic_mode_state_t) : bool :=
  match st with
  | AUTO_MODE_IDLE | AUTO_MODE_ARMING_ESC | AUTO_MODE_COASTING_CALIBRATION
  | AUTO_MODE_STOPPING_INTERRUPTED | AUTO_MODE_ERROR => true
  | _ => false
  end.

Definition automatic_possible (g : Am.globals) : Prop :=
  automatic_state_possible (Am.state (Am.g_auto_progress g)) = true.

Definition automatic_state (s : system) : automatic_mode_state_t :=
  Am.state (Am.g_auto_progress (am s)).

(** What [automatic_mode_start] asks for. *)
Definition automatic_can_start (s : system) : bool :=
  Am.g_auto_initialized (am s) && sensors_validated s
  && Wl.complete (Mc.g_wire_learning_data (mc s))
  && negb (F32.lt (Wl.wire_length_m (Mc.g_wire_learning_data (mc s)))
                  AUTO_MODE_MIN_WIRE_LENGTH_M)
  && (Hw.esc_armed (hw_status_of s) || Hw.system_initialized (hw_status_of s)).

(** The automatic mode activated through the coordinator. *)
Definition automatic_started : system :=
  run (bring_up ++ [McActivateAutomatic]) boot_with_result.
(* ================================================================== *)
(** * Further vocabulary: the manual mode *)
(* ================================================================== *)

Definition manual_status (s : system) : Mm.manual_mode_status_t :=
  Mm.g_manual_status (mm s).

(** The target speed of the manual engine against the limits of
    [manual_mode_is_speed_safe], and the motor flag against the target and
    the arming flag. *)
Definition manual_target_inv (g : Mm.globals) : Prop :=
  F32.lt (Mm.target_speed_ms (Mm.g_manual_status g)) F32.zero = false
  /\ F32.gt (Mm.target_speed_ms (Mm.g_manual_status g)) MANUAL_MODE_MAX_SPEED_MS = false
  /\ Mm.motor_active (Mm.g_manual_status g)
     = F32.gt (Mm.target_speed_ms (Mm.g_manual_status g)) MANUAL_MODE_MIN_SPEED_MS
  /\ (Mm.motor_active (Mm.g_manual_status g) = true ->
      Mm.esc_armed (Mm.g_manual_status g) = true).

(** The checks [manual_mode_set_speed] makes itself, and those it leaves to
    [hardware_set_motor_speed]. *)
Definition manual_speed_allowed (s : system) (speed_ms : f32) : bool :=
  eval manual_mode_is_active s
  && eval (manual_mode_is_speed_safe speed_ms) s
  && (Mm.esc_armed (manual_status s) || negb (F32.gt speed_ms F32.zero)).

Definition manual_state_for (speed_ms : f32) (forward : bool) : manual_mode_state_t :=
  if F32.gt speed_ms MANUAL_MODE_MIN_SPEED_MS then
    if forward then MANUAL_MODE_MOVING_FORWARD else MANUAL_MODE_MOVING_BACKWARD
  else MANUAL_MODE_ACTIVE.

(** The manual engine stopped by [manual_mode_emergency_stop]. *)
Definition manual_halted (s : system) : Prop :=
  Mm.state (manual_status s) = MANUAL_MODE_EMERGENCY_STOP
  /\ Mm.target_speed_ms (manual_status s) = F32.zero
  /\ Mm.motor_active (manual_status s) = false
  /\ at_neutral (hw s).

(** A manual session with the ESC armed and the trolley commanded forward. *)
Definition manual_moving : system :=
  run (bring_up ++ [McActivateManual; MmArm; MmSetSpeed F32.c0_5 true]) boot.
(* ================================================================== *)
(** * Further vocabulary: the coordinator *)
(* ================================================================== *)

(** A power cycle: every global gets its static initialiser again and the
    NVS partition keeps its two blobs. *)
Definition power_cycle (s : system) : system :=
  set_mc
    (Mc.set_nvs_coasting (Mc.nvs_coasting (mc s))
       (Mc.set_nvs_wire_learning (Mc.nvs_wire_learning (mc s)) mc_boot))
    boot.

(** What the NVS partition may hold. *)
Definition nvs_inv (g : Mc.globals) : Prop :=
  (forall r, Mc.nvs_wire_learning g = Some r -> Wl.complete r = true)
  /\ (forall c, Mc.nvs_coasting g = Some c -> Mc.calibrated c = true).

(** The validation handshake as the coordinator records it. *)
Definition validation_inv (g : Mc.globals) : Prop :=
  (Mc.sensors_validated (Mc.g_mode_status g) = true ->
   Mc.sensor_validation_state (Mc.g_mode_status g) = SENSOR_VALIDATION_COMPLETE)
  /\ (Mc.sensor_validation_state (Mc.g_mode_status g) = SENSOR_VALIDATION_COMPLETE ->
      Mc.g_hall_validation_user_confirmed g = true
      /\ Mc.g_accel_validation_user_confirmed g = true
      /\ Mc.hall_validation_complete (Mc.g_mode_status g) = true
      /\ Mc.accel_validation_complete (Mc.g_mode_status g) = true)
  /\ (Mc.sensor_validation_state (Mc.g_mode_status g) = SENSOR_VALIDATION_ACCEL_PENDING ->
      Mc.g_hall_validation_user_confirmed g = true
      /\ Mc.hall_validation_complete (Mc.g_mode_status g) = true).

(** A validation that is under way. *)
Definition validation_pending (s : system) : bool :=
  match validation_state s with
  | SENSOR_VALIDATION_IN_PROGRESS | SENSOR_VALIDATION_HALL_PENDING
  | SENSOR_VALIDATION_ACCEL_PENDING => true
  | _ => false
  end.

Definition validation_overdue (s : system) : bool :=
  SENSOR_VALIDATION_TIMEOUT_MS * 1000
  <? wrap64 (clock s - Mc.g_sensor_validation_start_time (mc s)).

Definition error_count (s : system) : Z := Mc.g_error_count (mc s).
Definition system_healthy (s : system) : bool := Mc.system_healthy (Mc.g_mode_status (mc s)).
(* ================================================================== *)
(** * Further vocabulary: starting the automatic mode *)
(* ================================================================== *)

Definition auto_progress (s : system) : Am.automatic_mode_progress_t :=
  Am.g_auto_progress (am s).

(** The speed at which the coasting calibration stops waiting: 5.0 - 0.2 m/s. *)
Definition calibration_trigger_speed : f32 :=
  F32.sub AUTO_COASTING_CALIBRATION_SPEED F32.c0_2.

(** The target that [automatic_mode_accelerate_to_speed] records. *)
Definition acceleration_target (target_speed : f32) : f32 :=
  if F32.gt target_speed AUTO_MODE_MAX_SPEED_MS then AUTO_MODE_MAX_SPEED_MS
  else target_speed.
(* ================================================================== *)
(** * Further vocabulary: a speed test of wire learning *)
(* ================================================================== *)

(** The time that passes in a sequence of calls of the environment. *)
Definition elapsed_of (c : call) : Z :=
  match c with Elapse us => Z.max 0 us | _ => 0 end.
Definition elapsed_in (t : list call) : Z :=
  fold_right (fun c a => elapsed_of c + a) 0 t.

(** A trolley that moves at the start speed it is commanded to, 0.1 m/s:
    one wheel revolution of 191.6 mm every 1.9 s, wire learning being
    updated after each pulse. *)
Definition slow_round : list call := [Elapse 1900000; HallPulse; WlUpdate].

(** The first speed test after two such revolutions, 3.8 s after the speed
    change, and at the tenth pulse, 19 s after it. *)
Definition timed_out : system := run (List.concat (repeat slow_round 2)) learning_started.
Definition tenth_pulse_late : system :=
  run (List.concat (repeat slow_round 9) ++ [Elapse 1900000; HallPulse]) learning_started.

(** Wire learning activated, before its first update. *)
Definition learning_activated : system := run (bring_up ++ [McActivateWireLearning]) boot.
(* ================================================================== *)
(** * web_command_handler.cpp (the response text is left out) *)
(* ================================================================== *)

Import Ascii.

(** [toupper] in the C locale. *)
Definition toupper (c : Ascii.ascii) : Ascii.ascii :=
  let n := Ascii.N_of_ascii c in
  if ((97 <=? n) && (n <=? 122))%N then Ascii.ascii_of_N (n - 32) else c.

(** [strchr(s, c) != NULL]: the terminating NUL counts as part of the
    string. *)
Definition strchr_found (s : string) (c : Ascii.ascii) : bool :=
  existsb (Ascii.eqb c) (list_ascii_of_string s) || Ascii.eqb c Ascii.zero.

Definition web_validate_command (command_char : Ascii.ascii) : bool :=
  strchr_found "WUMHCVADFSB+-QIETRLK" (toupper command_char).

(** A command of the manual mode, passed on while the mode is active. *)
Definition web_manual_command (m : M esp_err_t) : M esp_err_t :=
  active <- manual_mode_is_active ;;
  if active then m else ret ESP_ERR_INVALID_STATE.

Definition web_process_command (command_char : Ascii.ascii) : M esp_err_t :=
  if negb (web_validate_command command_char) then ret ESP_ERR_INVALID_ARG
  else
    match toupper command_char with
    | "W"%char => mode_coordinator_activate_wire_learning
    | "U"%char => mode_coordinator_activate_automatic
    | "M"%char => mode_coordinator_activate_manual
    | "V"%char => mode_coordinator_start_sensor_validation
    | "H"%char => mode_coordinator_confirm_hall_validation
    | "C"%char => mode_coordinator_confirm_accel_validation
    | "A"%char => web_manual_command manual_mode_arm_esc
    | "D"%char => web_manual_command manual_mode_disarm_esc
    | "F"%char => web_manual_command manual_mode_move_forward
    | "B"%char => web_manual_command manual_mode_move_backward
    | "S"%char => web_manual_command manual_mode_stop_movement
    | "+"%char => web_manual_command manual_mode_increase_speed
    | "-"%char => web_manual_command manual_mode_decrease_speed
    | "Q"%char => mode_coordinator_stop_current_mode false
    | "I"%char =>
        active <- automatic_mode_is_active ;;
        if active then automatic_mode_interrupt
        else mode_coordinator_stop_current_mode true
    | "E"%char => mode_coordinator_emergency_stop
    | "R"%char => mode_coordinator_reset_system
    | "T"%char => ret ESP_OK
    | _ => ret ESP_ERR_INVALID_ARG
    end.

(** The commands the dispatcher has a case for, and those of the manual
    mode among them. *)
Definition web_handled (c : Ascii.ascii) : bool :=
  existsb (Ascii.eqb (toupper c)) (list_ascii_of_string "WUMVHCADFBS+-QIERT").
Definition web_manual (c : Ascii.ascii) : bool :=
  existsb (Ascii.eqb (toupper c)) (list_ascii_of_string "ADFBS+-").
(* ================================================================== *)
(** * Further vocabulary: the ESC task *)
(* ================================================================== *)

(** The duty cycle the ESC task is heading for. *)
Definition target_duty (s : system) : Z :=
  speed_to_esc_duty (Hw.target_speed_ms (hw_status_of s))
    (Hw.direction_forward (hw_status_of s)).

Definition current_duty (s : system) : Z := Hw.current_esc_duty (hw_status_of s).

(** The next value of a duty cycle [cur] on its way to [target], at most
    [ESC_MAX_SPEED_CHANGE] per iteration. *)
Definition ramp_step (cur target : Z) : Z :=
  if ESC_MAX_SPEED_CHANGE <? target - cur then cur + ESC_MAX_SPEED_CHANGE
  else if ESC_MAX_SPEED_CHANGE <? cur - target then cur - ESC_MAX_SPEED_CHANGE
  else target.

(** Armed and commanded to full speed forward. *)
Definition full_speed_commanded : system :=
  run [HardwareInit true; HardwareArm; HardwareSetSpeed MAX_SPEED_MS true] boot.

(* ================================================================== *)
(** * Reasoning about state transformers *)
(* ================================================================== *)


Lemma exec_bind {A B : Type} (m : M A) (k : A -> M B) (s : system) :
  exec (bind m k) s = exec (k (eval m s)) (exec m s).
Proof. reflexivity. Qed.

Lemma eval_bind {A B : Type} (m : M A) (k : A -> M B) (s : system) :
  eval (bind m k) s = eval (k (eval m s)) (exec m s).
Proof. reflexivity. Qed.

Section Preserves.
Variable I : system -> Prop.

Lemma preserves_ret {A : Type} (a : A) : preserves I (ret a).
  Proof. intros s H; exact H. Qed.

Lemma preserves_gets {A : Type} (f : system -> A) : preserves I (gets f).
  Proof. intros s H; exact H. Qed.

Lemma preserves_modify (f : system -> system) :
    (forall s, I s -> I (f s)) -> preserves I (modify f).
  Proof. intros Hf s H; apply Hf, H. Qed.

Lemma preserves_bind {A B : Type} (m : M A) (k : A -> M B) :
    preserves I m -> (forall a, preserves I (k a)) -> preserves I (bind m k).
  Proof. intros Hm Hk s H. rewrite exec_bind. apply Hk, Hm, H. Qed.

  (** A value read from the state comes from a state that satisfies [I]. *)
Lemma preserves_bind_gets {A B : Type} (f : system -> A) (k : A -> M B) :
    (forall a, (exists s, I s /\ f s = a) -> preserves I (k a)) ->
    preserves I (bind (gets f) k).
  Proof. intros Hk s H. rewrite exec_bind. apply Hk; [exists s; split; [exact H | reflexivity] | exact H]. Qed.

Lemma preserves_discard {A : Type} (m : M A) : preserves I m -> preserves I (discard m).
  Proof. intros Hm. apply preserves_bind; [exact Hm | intro; apply preserves_ret]. Qed.
End Preserves.

Lemma preserves_run (I : system -> Prop) :
  (forall c, preserves I (perform c)) -> forall t s, I s -> I (run t s).
Proof.
  intros Hc t. induction t as [|c t IH]; intros s H; [exact H|].
  cbn. apply IH. apply (Hc c), H.
Qed.

Create HintDb pres.

(** Walks through a state transformer: binds, branches and the bodies of the
    functions it calls; [leaf] closes the assignments. *)
Ltac pres_head m :=
  match m with
  | ?f _ _ _ _ => unfold f
  | ?f _ _ _ => unfold f
  | ?f _ _ => unfold f
  | ?f _ => unfold f
  | ?f => unfold f
  end.

Ltac pres_step leaf absurd :=
  lazymatch goal with
  | |- preserves _ (bind (gets _) _) => apply preserves_bind_gets; intros ? ?
  | |- preserves _ (bind _ _) => apply preserves_bind; [ | intros ? ]
  | |- preserves _ (ret _) => apply preserves_ret
  | |- preserves _ (gets _) => apply preserves_gets
  | |- preserves _ (modify _) => apply preserves_modify; leaf
  | |- preserves _ (if ?b then _ else _) => destruct b eqn:?; try (exfalso; absurd)
  | |- preserves _ (match ?x with _ => _ end) => destruct x eqn:?
  | |- preserves _ (let _ := _ in _) => cbv zeta
  | |- preserves _ ?m => first [ solve [ eauto with pres ] | pres_head m ]
  end.

Ltac pres_with leaf absurd := repeat (pres_step leaf absurd).
Ltac pres leaf := pres_with leaf ltac:(fail).


Ltac frame := intros ? ?; assumption.

Ltac case_if :=
  match goal with
  | |- context [if ?b then _ else _] => destruct b eqn:?
  end.

(** Statements are elaborated with folded projections and [cbn] leaves
    unfolded ones; this brings the hypotheses and the goal to one form. *)
Ltac unfold_projections :=
  unfold Hw.esc_armed, Hw.esc_responding, Hw.current_esc_duty,
    Hw.current_speed_ms, Hw.target_speed_ms, Hw.direction_forward,
    Hw.total_rotations, Hw.last_hall_time, Hw.hall_sensor_healthy,
    Hw.system_initialized, Hw.g_hw_status, Hw.g_last_error,
    Hw.g_current_position_m, Hw.g_rotation_count_offset,
    Hw.g_rate_limiting_enabled, Hw.g_last_esc_duty, Hw.last_time,
    Hw.ledc_duty, Sh.wheel_rotation_detected, Sh.total_accel_g,
    Sh.trolley_shake_detected, Sh.system_ready, Wl.state,
    Wl.learning_start_time, Wl.current_direction_forward,
    Wl.direction_start_rotations, Wl.direction_start_time,
    Wl.current_learning_speed, Wl.forward_rotations, Wl.forward_distance_m,
    Wl.forward_time_ms, Wl.forward_end_method, Wl.reverse_rotations,
    Wl.reverse_distance_m, Wl.reverse_time_ms, Wl.reverse_end_method,
    Wl.calculated_wire_length_m, Wl.length_difference_percent,
    Wl.learning_successful, Wl.status_message, Wl.error_message, Wl.complete,
    Wl.wire_length_m, Wl.optimal_learning_speed_ms,
    Wl.optimal_cruise_speed_ms, Wl.res_forward_rotations,
    Wl.res_reverse_rotations, Wl.total_learning_time_ms,
    Wl.primary_detection_method, Wl.learning_accuracy_percent,
    Wl.g_learning_progress, Wl.g_learning_results, Wl.g_learning_initialized,
    Wl.g_current_test_speed, Wl.g_hall_pulses_at_speed_start,
    Wl.g_speed_test_start_time, Wl.g_speed_validated,
    Wl.g_coasting_calibration_active, Wl.g_coasting_start_rotations,
    Wl.g_coasting_start_time, Wl.g_coasting_start_speed,
    Wl.g_consecutive_hall_timeouts, Wl.g_speed_history,
    Wl.g_speed_history_index, Mc.calibrated, Mc.coasting_distance_m,
    Mc.coast_start_distance_m, Mc.coast_time_ms, Mc.decel_rate_ms2,
    Mc.current_mode, Mc.previous_mode, Mc.mode_start_time,
    Mc.wire_learning_availability, Mc.automatic_availability,
    Mc.manual_availability, Mc.sensor_validation_state, Mc.sensors_validated,
    Mc.hall_validation_complete, Mc.accel_validation_complete,
    Mc.sensor_validation_message, Mc.error_message, Mc.system_healthy,
    Mc.last_error_time, Mc.g_mode_status, Mc.g_coordinator_initialized,
    Mc.g_sensor_validation_start_time, Mc.g_hall_validation_user_confirmed,
    Mc.g_accel_validation_user_confirmed, Mc.g_wire_learning_data,
    Mc.g_coasting_data, Mc.g_error_count, Mc.g_last_error_reset_time,
    Mc.nvs_wire_learning, Mc.nvs_coasting, Am.calibrated,
    Am.calibration_speed_ms, Am.coasting_distance_m, Am.coasting_time_ms,
    Am.deceleration_rate_ms2, Am.coast_start_distance_m,
    Am.calibration_rotations, Am.calibration_successful, Am.state,
    Am.state_start_time, Am.mode_start_time, Am.current_target_speed,
    Am.acceleration_rate, Am.esc_auto_armed, Am.coasting,
    Am.current_direction_forward, Am.user_interrupted,
    Am.finishing_current_run, Am.wire_length_m, Am.current_position_m,
    Am.status_message, Am.error_message, Am.g_auto_progress,
    Am.g_auto_initialized, Am.g_current_acceleration_target,
    Am.g_acceleration_start_time, Am.g_acceleration_start_rotations,
    Am.g_coasting_in_progress, Am.g_coasting_start_time,
    Am.g_coasting_start_rotations, Am.g_coasting_start_speed,
    Am.g_user_interruption_requested, Am.g_interruption_request_time,
    Am.calibration_motor_stopped, Mm.state, Mm.mode_start_time,
    Mm.current_speed_ms, Mm.target_speed_ms, Mm.direction_forward,
    Mm.motor_active, Mm.esc_armed, Mm.esc_responding, Mm.esc_arm_time,
    Mm.command_count, Mm.error_count, Mm.status_message, Mm.error_message,
    Mm.g_manual_status, Mm.g_manual_initialized,
    Mm.g_last_motion_validation_time, Mm.g_motion_validation_failures, clock,
    hw, sh, wl, am, mm, mc in *.

(* ================================================================== *)
(** * Facts of binary32 comparison *)
(* ================================================================== *)

Lemma SFcompare_antisym (x y : f32) (c : comparison) :
  SFcompare x y = Some c -> SFcompare y x = Some (CompOpp c).
Proof.
  destruct x as [sx|sx| |sx mx ex], y as [sy|sy| |sy my ey]; cbn;
    try discriminate;
    try (destruct sx); try (destruct sy); cbn;
    try (intros H; injection H as <-; reflexivity);
    intros H; injection H as <-; rewrite (Z.compare_antisym ex ey);
    destruct (ex ?= ey); cbn; try reflexivity;
    rewrite (Pos.compare_cont_antisym mx my Eq); cbn;
    destruct (Pos.compare_cont Eq mx my); reflexivity.
Qed.

Lemma SFcompare_total (x y : f32) :
  F32.is_nan x = false -> F32.is_nan y = false -> exists c, SFcompare x y = Some c.
Proof.
  destruct x as [sx|sx| |sx mx ex], y as [sy|sy| |sy my ey]; cbn;
    try discriminate; intros _ _; eexists; reflexivity.
Qed.

Lemma F32_lt_not_ge (x y : f32) : F32.lt x y = true -> F32.ge x y = false.
Proof.
  unfold F32.lt, F32.ge, SFltb, SFleb. destruct (SFcompare x y) as [c|] eqn:E; try discriminate.
  destruct c; try discriminate. intros _. rewrite (SFcompare_antisym _ _ _ E). reflexivity.
Qed.

Lemma F32_gt_not_le (x y : f32) : F32.gt x y = true -> F32.le x y = false.
Proof. unfold F32.gt, F32.le. intros H. apply (F32_lt_not_ge y x) in H. exact H. Qed.

Lemma F32_nan_not_le (x y : f32) : F32.is_nan x = true -> F32.le x y = false /\ F32.ge x y = false.
Proof. destruct x; try discriminate. intros _. split; destruct y; reflexivity. Qed.

Lemma F32_not_le_gt (x y : f32) :
  F32.is_nan x = false -> F32.is_nan y = false -> F32.le x y = false -> F32.gt x y = true.
Proof.
  intros Hx Hy. unfold F32.le, F32.gt, SFleb, SFltb.
  destruct (SFcompare_total x y Hx Hy) as [c E]. rewrite E.
  rewrite (SFcompare_antisym _ _ _ E). destruct c; cbn; congruence.
Qed.

(** Comparisons of an arbitrary value with the constants of the firmware. *)
Ltac f32_const_cmp x :=
  cbv beta iota delta
    [F32.ge F32.gt F32.le F32.lt SFleb SFltb SFcompare F32.zero F32.c0_05
     F32.c0_1 F32.c0_2 F32.c0_5 F32.c0_8 F32.c1_0 F32.c1_5 F32.c2_0 F32.c4_0
     F32.c4_8 F32.c5_0 F32.c100];
  destruct x as [[|]|[|]| |[|] ?m ?e];
  cbv beta iota;
  try discriminate; try reflexivity;
  repeat match goal with
         | |- context [Z.compare ?a ?b] => destruct (Z.compare_spec a b); try lia
         end;
  subst; try discriminate; try reflexivity; auto.

Lemma F32_ge_4_gt_1 (x : f32) : F32.ge x F32.c4_0 = true -> F32.gt x F32.c1_0 = true.
Proof. f32_const_cmp x. Qed.

Lemma F32_gt_1_gt_0_5 (x : f32) : F32.gt x F32.c1_0 = true -> F32.gt x F32.c0_5 = true.
Proof. f32_const_cmp x. Qed.

Arguments bind {A B} m k s /.
Arguments ret {A} a s /.
Arguments gets {A} f s /.
Arguments modify f s /.
Arguments exec {A} m s /.
Arguments eval {A} m s /.
Arguments discard {A} m s /.
Arguments upd_hw f s /.
Arguments upd_hw_status f s /.
Arguments upd_wl f s /.
Arguments upd_progress f s /.
Arguments upd_am f s /.
Arguments upd_auto f s /.
Arguments upd_mm f s /.
Arguments upd_manual f s /.
Arguments upd_mc f s /.
Arguments upd_mode_status f s /.
Arguments g_hw_status s /.
Arguments g_learning_progress s /.
Arguments g_auto_progress s /.
Arguments g_manual_status s /.
Arguments g_mode_status s /.
Arguments esp_timer_get_time s /.
Arguments vTaskDelay_ms ms s /.
Arguments ledc_write duty s /.
Arguments F32.lt _ _ : simpl never.
Arguments F32.le _ _ : simpl never.
Arguments F32.gt _ _ : simpl never.
Arguments F32.ge _ _ : simpl never.
Arguments F32.eq _ _ : simpl never.
Arguments F32.add _ _ : simpl never.
Arguments F32.sub _ _ : simpl never.
Arguments F32.mul _ _ : simpl never.
Arguments F32.div _ _ : simpl never.
Arguments F32.abs _ : simpl never.
Arguments F32.of_Z _ : simpl never.
Arguments F32.trunc _ : simpl never.
Arguments wrap16 _ : simpl never.
Arguments wrap32 _ : simpl never.
Arguments wrap64 _ : simpl never.
Arguments to_int16 _ : simpl never.
Arguments speed_to_esc_duty _ _ : simpl never.
Arguments hardware_is_speed_valid _ : simpl never.
Arguments hardware_rotations_to_distance _ : simpl never.

(* ================================================================== *)
(** * The hardware layer: speed commands *)
(* ================================================================== *)


Lemma out_of_range_invalid (v : f32) :
  out_of_range v <-> hardware_is_speed_valid v = false.
Proof.
  unfold out_of_range, hardware_is_speed_valid. split.
  - intros [H | [H | H]].
    + rewrite (F32_lt_not_ge _ _ H). reflexivity.
    + rewrite (F32_gt_not_le _ _ H). apply andb_false_r.
    + destruct (F32_nan_not_le v F32.zero H) as [_ ->]. reflexivity.
  - intros H. destruct (F32.is_nan v) eqn:Hn; [right; right; reflexivity|].
    apply andb_false_iff in H. destruct H as [H | H].
    + left. unfold F32.lt. change (F32.gt F32.zero v = true).
      apply F32_not_le_gt; [reflexivity | exact Hn | exact H].
    + right; left. apply F32_not_le_gt; [exact Hn | reflexivity | exact H].
Qed.


Lemma hardware_set_motor_speed_invalid (s : system) (v : f32) (d : bool) :
  hardware_is_speed_valid v = false ->
  eval (hardware_set_motor_speed v d) s
  = (if Hw.system_initialized (hw_status_of s)
     then ESP_ERR_INVALID_ARG else ESP_ERR_INVALID_STATE)
  /\ hw_status_of (exec (hardware_set_motor_speed v d) s) = hw_status_of s.
Proof.
  intros Hv. unfold hardware_set_motor_speed, hw_status_of, eval, exec.
  cbn. destruct (Hw.system_initialized (Hw.g_hw_status (hw s))); cbn.
  - rewrite Hv. cbn. split; reflexivity.
  - split; reflexivity.
Qed.

(** C6, as the claim states it, fails before [hardware_init]: the guard on
    initialisation answers first. *)
Lemma hardware_set_motor_speed_uninitialized_counterexample :
  out_of_range F32.c5_0
  /\ eval (hardware_set_motor_speed F32.c5_0 true) boot = ESP_ERR_INVALID_STATE
  /\ eval (hardware_set_motor_speed F32.c5_0 true) boot <> ESP_ERR_INVALID_ARG.
Proof.
  split; [right; left; reflexivity|]. split; [reflexivity | discriminate].
Qed.

(** C6 (amended). For every speed outside [[0, MAX_SPEED_MS]] and every
    direction, [hardware_set_motor_speed] returns an error code and leaves
    the hardware status, [target_speed_ms] included, unchanged; the code is
    the invalid-argument error on initialised hardware and the invalid-state
    error before initialisation. *)
Theorem hardware_set_motor_speed_out_of_range (s : system) (v : f32) (d : bool) :
  out_of_range v ->
  eval (hardware_set_motor_speed v d) s
  = (if Hw.system_initialized (hw_status_of s)
     then ESP_ERR_INVALID_ARG else ESP_ERR_INVALID_STATE)
  /\ hw_target (exec (hardware_set_motor_speed v d) s) = hw_target s
  /\ hw_status_of (exec (hardware_set_motor_speed v d) s) = hw_status_of s.
Proof.
  intros Hv. apply out_of_range_invalid in Hv.
  destruct (hardware_set_motor_speed_invalid s v d Hv) as [Hr Hs].
  split; [exact Hr|]. split; [unfold hw_target; rewrite Hs; reflexivity | exact Hs].
Qed.

Lemma hardware_set_motor_speed_out_of_range_witness :
  out_of_range F32.c5_0
  /\ eval (hardware_set_motor_speed F32.c5_0 true) (run [HardwareInit true] boot)
     = ESP_ERR_INVALID_ARG
  /\ hw_target (exec (hardware_set_motor_speed F32.c5_0 true) (run [HardwareInit true] boot))
     = hw_target (run [HardwareInit true] boot).
Proof.
  assert (H : out_of_range F32.c5_0) by (right; left; reflexivity).
  split; [exact H|].
  destruct (hardware_set_motor_speed_out_of_range (run [HardwareInit true] boot) F32.c5_0 true H)
    as [Hr [Ht _]].
  split; [exact Hr | exact Ht].
Defined.

(* ================================================================== *)
(** * The hardware target speed is always a valid speed *)
(* ================================================================== *)


Lemma zero_valid : hardware_is_speed_valid F32.zero = true.
Proof. reflexivity. Qed.

Ltac target_leaf :=
  unfold on_hw, target_valid; cbn; intros;
  try assumption; try exact zero_valid;
  try match goal with
      | H : negb (hardware_is_speed_valid ?v) = false |- hardware_is_speed_valid ?v = true =>
          apply negb_false_iff in H; exact H
      end.

Lemma coast_wait_target_valid (n : nat) (t0 : Z) :
  preserves (on_hw target_valid) (coast_wait n t0).
Proof. induction n as [|n IH]; cbn [coast_wait]; pres target_leaf. Qed.
#[local] Hint Resolve coast_wait_target_valid : pres.

Lemma decelerate_steps_target_valid (n : nat) (i : Z) (v w : f32) :
  preserves (on_hw target_valid) (decelerate_steps n i v w).
Proof.
  revert i. induction n as [|n IH]; intros i; cbn [decelerate_steps]; pres target_leaf.
Qed.
#[local] Hint Resolve decelerate_steps_target_valid : pres.

Lemma perform_target_valid (c : call) : preserves (on_hw target_valid) (perform c).
Proof. destruct c; cbn [perform]; pres target_leaf. Qed.

Lemma target_always_valid (t : list call) :
  hardware_is_speed_valid (hw_target (run t boot)) = true.
Proof.
  apply (preserves_run (on_hw target_valid) perform_target_valid t boot). reflexivity.
Qed.

(* ================================================================== *)
(** * The automatic mode's cruise speed against the hardware limit *)
(* ================================================================== *)

Lemma cruise_speed_invalid :
  hardware_is_speed_valid AUTO_MODE_MAX_SPEED_MS = false
  /\ hardware_is_speed_valid AUTO_COASTING_CALIBRATION_SPEED = false.
Proof. split; reflexivity. Qed.

Lemma maintain_cruise_speed_hw_status (s : system) :
  hw_status_of (exec automatic_mode_maintain_cruise_speed s) = hw_status_of s.
Proof.
  unfold automatic_mode_maintain_cruise_speed, hw_status_of. cbn.
  destruct (F32.gt _ F32.c0_5); cbn; [|reflexivity].
  destruct (hardware_set_motor_speed_invalid s AUTO_MODE_MAX_SPEED_MS
              (Am.current_direction_forward (Am.g_auto_progress (am s)))
              (proj1 cruise_speed_invalid)) as [_ H].
  unfold hw_status_of in H. cbn in H. exact H.
Qed.

(** C3, as the claim states it, fails before [hardware_init]: the command
    that [automatic_mode_maintain_cruise_speed] issues at power-up is turned
    down by the initialisation guard, with the invalid-state error. *)
Lemma cruise_command_uninitialized_counterexample :
  eval (hardware_set_motor_speed AUTO_MODE_MAX_SPEED_MS
          (Am.current_direction_forward (Am.g_auto_progress (am boot)))) boot
  = ESP_ERR_INVALID_STATE
  /\ Hw.g_last_error (hw (exec automatic_mode_maintain_cruise_speed boot))
     = HW_ERROR_SYSTEM_NOT_INITIALIZED.
Proof. split; reflexivity. Qed.

(** C3 (amended). The cruise and coasting-calibration speed of the automatic
    mode, 5.0 m/s, exceeds [MAX_SPEED_MS] = 2.0 m/s, so
    [hardware_set_motor_speed] never accepts it: it answers with the
    invalid-argument error once the hardware is initialised (with the
    invalid-state error of the initialisation guard before that) and leaves
    the hardware status unchanged; [automatic_mode_maintain_cruise_speed]
    leaves it unchanged too, and in no run of the firmware does the
    hardware target speed leave [[0, MAX_SPEED_MS]], so it is never
    5.0 m/s. *)
Theorem automatic_cruise_speed_never_commanded :
  F32.gt AUTO_MODE_MAX_SPEED_MS MAX_SPEED_MS = true
  /\ F32.gt AUTO_COASTING_CALIBRATION_SPEED MAX_SPEED_MS = true
  /\ (forall (s : system) (d : bool),
        eval (hardware_set_motor_speed AUTO_MODE_MAX_SPEED_MS d) s
        = (if Hw.system_initialized (hw_status_of s)
           then ESP_ERR_INVALID_ARG else ESP_ERR_INVALID_STATE)
        /\ hw_status_of (exec (hardware_set_motor_speed AUTO_MODE_MAX_SPEED_MS d) s)
           = hw_status_of s)
  /\ (forall s : system,
        hw_status_of (exec automatic_mode_maintain_cruise_speed s) = hw_status_of s)
  /\ (forall t : list call,
        hardware_is_speed_valid (hw_target (run t boot)) = true
        /\ hw_target (run t boot) <> AUTO_MODE_MAX_SPEED_MS).
Proof.
  split; [reflexivity|]. split; [reflexivity|]. split; [|split].
  - intros s d. apply hardware_set_motor_speed_invalid, cruise_speed_invalid.
  - exact maintain_cruise_speed_hw_status.
  - intros t. pose proof (target_always_valid t) as H. split; [exact H|].
    intros E. rewrite E in H. discriminate H.
Qed.

(* ================================================================== *)
(** * The ESC task: Hall time-out *)
(* ================================================================== *)

(** C8. In one iteration of the ESC update task, when a Hall pulse has been
    recorded, more than 2000 ms have passed since and the target speed
    exceeds the deadband, [current_speed_ms] becomes 0 and
    [hall_sensor_healthy] becomes false. *)
Theorem esc_update_task_hall_timeout (s : system) :
  0 < Hw.last_hall_time (hw_status_of s) ->
  HALL_TIMEOUT_MS * 1000 < wrap64 (clock s - Hw.last_hall_time (hw_status_of s)) ->
  F32.gt (hw_target s) ESC_SPEED_DEADBAND = true ->
  Hw.current_speed_ms (hw_status_of (exec esc_update_task s)) = F32.zero
  /\ Hw.hall_sensor_healthy (hw_status_of (exec esc_update_task s)) = false.
Proof.
  intros Hlast Hgap Htarget. unfold hw_target, hw_status_of in *.
  apply Z.ltb_lt in Hlast. apply Z.ltb_lt in Hgap.
  unfold esc_update_task. cbn -[Z.ltb Z.mul].
  destruct (Hw.system_initialized (Hw.g_hw_status (hw s)) && Hw.esc_armed (Hw.g_hw_status (hw s)));
    cbn -[Z.ltb Z.mul]; unfold_projections; rewrite Hlast, Hgap; cbn; unfold_projections;
    rewrite Htarget; cbn; split; reflexivity.
Qed.

Lemma esc_update_task_hall_timeout_witness :
  0 < Hw.last_hall_time (hw_status_of stalled)
  /\ HALL_TIMEOUT_MS * 1000 < wrap64 (clock stalled - Hw.last_hall_time (hw_status_of stalled))
  /\ F32.gt (hw_target stalled) ESC_SPEED_DEADBAND = true
  /\ Hw.current_speed_ms (hw_status_of (exec esc_update_task stalled)) = F32.zero
  /\ Hw.hall_sensor_healthy (hw_status_of (exec esc_update_task stalled)) = false.
Proof.
  assert (H1 : 0 < Hw.last_hall_time (hw_status_of stalled)) by (vm_compute; reflexivity).
  assert (H2 : HALL_TIMEOUT_MS * 1000
               < wrap64 (clock stalled - Hw.last_hall_time (hw_status_of stalled)))
    by (vm_compute; reflexivity).
  assert (H3 : F32.gt (hw_target stalled) ESC_SPEED_DEADBAND = true) by (vm_compute; reflexivity).
  split; [exact H1|]. split; [exact H2|]. split; [exact H3|].
  exact (esc_update_task_hall_timeout stalled H1 H2 H3).
Defined.

(* ================================================================== *)
(** * Wire learning: the symmetry check of the result *)
(* ================================================================== *)

Lemma calculate_final_results_spec (s : system) :
  let fwd := Wl.forward_distance_m (wl_progress s) in
  let rev := Wl.reverse_distance_m (wl_progress s) in
  let s' := exec calculate_final_results s in
  Wl.calculated_wire_length_m (wl_progress s') = average_length fwd rev
  /\ Wl.length_difference_percent (wl_progress s') = difference_percent fwd rev
  /\ (F32.le (difference_percent fwd rev) WIRE_LENGTH_TOLERANCE_PERCENT = true ->
      eval calculate_final_results s = ESP_OK
      /\ Wl.state (wl_progress s') = WIRE_LEARNING_COMPLETE
      /\ Wl.learning_successful (wl_progress s') = true
      /\ Wl.complete (Wl.g_learning_results (wl s')) = true
      /\ Wl.wire_length_m (Wl.g_learning_results (wl s')) = average_length fwd rev
      /\ Mc.g_wire_learning_data (mc s') = Wl.g_learning_results (wl s'))
  /\ (F32.le (difference_percent fwd rev) WIRE_LENGTH_TOLERANCE_PERCENT = false ->
      eval calculate_final_results s = ESP_FAIL
      /\ Wl.state (wl_progress s') = WIRE_LEARNING_FAILED
      /\ Wl.learning_successful (wl_progress s') = false
      /\ Wl.g_learning_results (wl s') = Wl.g_learning_results (wl s)
      /\ mc s' = mc s).
Proof.
  unfold wl_progress, difference_percent, average_length, calculate_final_results.
  cbn. unfold_projections.
  destruct (F32.le _ WIRE_LENGTH_TOLERANCE_PERCENT) eqn:E; cbn.
  - repeat split; try reflexivity; intros; try discriminate.
    case_if; reflexivity.
  - repeat split; try reflexivity; intros; discriminate.
Qed.

Lemma symmetry_10_0_10_3 :
  F32.le (difference_percent f10_0 f10_3) WIRE_LENGTH_TOLERANCE_PERCENT = true
  /\ within (average_length f10_0 f10_3) 1014999 1015001 100000.
Proof. split; [reflexivity | vm_compute; split; discriminate]. Qed.

Lemma symmetry_10_0_12_0 :
  F32.le (difference_percent f10_0 f12_0) WIRE_LENGTH_TOLERANCE_PERCENT = false.
Proof. reflexivity. Qed.

Lemma wire_learning_mode_is_complete_true (s : system) :
  Wl.state (wl_progress s) = WIRE_LEARNING_COMPLETE ->
  Wl.learning_successful (wl_progress s) = true ->
  eval wire_learning_mode_is_complete s = true.
Proof.
  unfold wl_progress, wire_learning_mode_is_complete. intros H1 H2. cbn.
  unfold_projections. rewrite H1, H2. reflexivity.
Qed.

Lemma wire_learning_mode_is_complete_failed (s : system) :
  Wl.state (wl_progress s) = WIRE_LEARNING_FAILED ->
  eval wire_learning_mode_is_complete s = false.
Proof.
  unfold wl_progress, wire_learning_mode_is_complete. intros H1. cbn.
  unfold_projections. rewrite H1. reflexivity.
Qed.

(** C5. The final wire length is the average of the forward and the reverse
    distance, and the run succeeds exactly when their difference, in per cent
    of that average, is at most 5: with 10.0 m and 10.3 m the engine reports
    [complete] with a wire length within 0.00001 m of 10.15 m and hands the
    result to the coordinator; with 10.0 m and 12.0 m it reports Failed and
    leaves the coordinator's data untouched. *)
Theorem wire_learning_symmetry_check (s : system) :
  let fwd := Wl.forward_distance_m (wl_progress s) in
  let rev := Wl.reverse_distance_m (wl_progress s) in
  let s' := exec calculate_final_results s in
  Wl.calculated_wire_length_m (wl_progress s') = average_length fwd rev
  /\ (Wl.state (wl_progress s') = WIRE_LEARNING_COMPLETE
      <-> F32.le (difference_percent fwd rev) WIRE_LENGTH_TOLERANCE_PERCENT = true)
  /\ (Wl.state (wl_progress s') = WIRE_LEARNING_FAILED
      <-> F32.le (difference_percent fwd rev) WIRE_LENGTH_TOLERANCE_PERCENT = false)
  /\ (fwd = f10_0 -> rev = f10_3 ->
      eval calculate_final_results s = ESP_OK
      /\ eval wire_learning_mode_is_complete s' = true
      /\ Wl.complete (Wl.g_learning_results (wl s')) = true
      /\ within (Wl.wire_length_m (Wl.g_learning_results (wl s'))) 1014999 1015001 100000
      /\ Mc.g_wire_learning_data (mc s') = Wl.g_learning_results (wl s'))
  /\ (fwd = f10_0 -> rev = f12_0 ->
      eval calculate_final_results s = ESP_FAIL
      /\ Wl.state (wl_progress s') = WIRE_LEARNING_FAILED
      /\ eval wire_learning_mode_is_complete s' = false
      /\ Wl.g_learning_results (wl s') = Wl.g_learning_results (wl s)
      /\ mc s' = mc s).
Proof.
  intros fwd rev s'.
  destruct (calculate_final_results_spec s) as [Hlen [_ [Hok Hfail]]].
  fold fwd rev s' in Hlen, Hok, Hfail.
  split; [exact Hlen|].
  destruct (F32.le (difference_percent fwd rev) WIRE_LENGTH_TOLERANCE_PERCENT) eqn:E.
  - destruct (Hok eq_refl) as [Hr [Hst [Hsucc [Hc [Hw Hpub]]]]].
    split; [split; [reflexivity | intros _; exact Hst]|].
    split; [split; [rewrite Hst; discriminate | discriminate]|].
    split.
    + intros Hf Hv. split; [exact Hr|]. split.
      * exact (wire_learning_mode_is_complete_true s' Hst Hsucc).
      * split; [exact Hc|]. split; [|exact Hpub].
        rewrite Hw, Hf, Hv. exact (proj2 symmetry_10_0_10_3).
    + intros Hf Hv. rewrite Hf, Hv, symmetry_10_0_12_0 in E. discriminate E.
  - destruct (Hfail eq_refl) as [Hr [Hst [Hsucc [Hres Hmc]]]].
    split; [split; [rewrite Hst; discriminate | discriminate]|].
    split; [split; [reflexivity | intros _; exact Hst]|].
    split.
    + intros Hf Hv. rewrite Hf, Hv, (proj1 symmetry_10_0_10_3) in E. discriminate E.
    + intros Hf Hv. split; [exact Hr|]. split; [exact Hst|]. split.
      * exact (wire_learning_mode_is_complete_failed s' Hst).
      * split; [exact Hres | exact Hmc].
Qed.

Lemma wire_learning_symmetry_check_witness :
  (Wl.forward_distance_m (wl_progress (measured f10_0 f10_3)) = f10_0
   /\ Wl.reverse_distance_m (wl_progress (measured f10_0 f10_3)) = f10_3
   /\ eval wire_learning_mode_is_complete (exec calculate_final_results (measured f10_0 f10_3))
      = true)
  /\ (Wl.forward_distance_m (wl_progress (measured f10_0 f12_0)) = f10_0
      /\ Wl.reverse_distance_m (wl_progress (measured f10_0 f12_0)) = f12_0
      /\ Wl.state (wl_progress (exec calculate_final_results (measured f10_0 f12_0)))
         = WIRE_LEARNING_FAILED).
Proof.
  split.
  - split; [reflexivity|]. split; [reflexivity|].
    destruct (wire_learning_symmetry_check (measured f10_0 f10_3)) as [_ [_ [_ [H _]]]].
    exact (proj1 (proj2 (H eq_refl eq_refl))).
  - split; [reflexivity|]. split; [reflexivity|].
    destruct (wire_learning_symmetry_check (measured f10_0 f12_0)) as [_ [_ [_ [_ H]]]].
    exact (proj1 (proj2 (H eq_refl eq_refl))).
Defined.

(* ================================================================== *)
(** * Wire learning: speed validation and progression *)
(* ================================================================== *)

Lemma validate_current_speed_spec (s : system) :
  eval validate_current_speed s = (LEARNING_MIN_HALL_PULSES <=? pulses_since s)
  /\ exec validate_current_speed s
     = (if LEARNING_MIN_HALL_PULSES <=? pulses_since s
        then set_wl (Wl.set_g_speed_validated true (wl s)) s else s).
Proof.
  unfold validate_current_speed, pulses_since, hardware_get_rotation_count.
  cbn -[Z.leb Z.ltb Z.mul].
  destruct (LEARNING_MIN_HALL_PULSES <=? _); cbn -[Z.leb Z.ltb Z.mul].
  - split; reflexivity.
  - destruct (_ <? _); split; reflexivity.
Qed.

Lemma progress_to_next_speed_speed (s : system) :
  test_speed (exec progress_to_next_speed s) = next_test_speed (test_speed s).
Proof.
  unfold test_speed, next_test_speed, progress_to_next_speed. cbn.
  destruct (F32.ge _ WIRE_LEARNING_MAX_SPEED_MS); cbn; [reflexivity|].
  unfold start_speed_test. cbn.
  set (r := hardware_set_motor_speed _ _ _). destruct (esp_err_eqb (fst r) ESP_OK); cbn.
  all: unfold r, hardware_set_motor_speed; cbn; repeat (case_if; cbn); reflexivity.
Qed.

Lemma handle_direction_validated (s : system) :
  Wl.g_speed_validated (wl s) = false ->
  F32.eq (test_speed s) F32.zero = false ->
  LEARNING_MIN_HALL_PULSES <= pulses_since s ->
  test_speed (exec handle_forward_direction s) = next_test_speed (test_speed s)
  /\ test_speed (exec handle_reverse_direction s) = next_test_speed (test_speed s).
Proof.
  intros Hv Hz Hp. apply Z.leb_le in Hp.
  destruct (validate_current_speed_spec s) as [He Hx]. rewrite Hp in He, Hx.
  assert (Hs : test_speed (exec progress_to_next_speed (exec validate_current_speed s))
               = next_test_speed (test_speed s)).
  { rewrite progress_to_next_speed_speed, Hx. reflexivity. }
  unfold test_speed in Hz. unfold eval in He.
  split.
  - unfold handle_forward_direction. cbn -[validate_current_speed progress_to_next_speed].
    unfold_projections. rewrite Hv, Hz. cbn -[validate_current_speed progress_to_next_speed].
    rewrite He. exact Hs.
  - unfold handle_reverse_direction. cbn -[validate_current_speed progress_to_next_speed].
    unfold_projections. rewrite Hv, Hz. cbn -[validate_current_speed progress_to_next_speed].
    rewrite He. exact Hs.
Qed.

Lemma next_test_speed_le_max (cur : f32) :
  F32.gt cur WIRE_LEARNING_MAX_SPEED_MS = false ->
  F32.gt (next_test_speed cur) WIRE_LEARNING_MAX_SPEED_MS = false.
Proof.
  intros H. unfold next_test_speed.
  destruct (F32.ge cur WIRE_LEARNING_MAX_SPEED_MS); [exact H|].
  destruct (F32.gt (F32.add cur WIRE_LEARNING_SPEED_INCREMENT) WIRE_LEARNING_MAX_SPEED_MS) eqn:E;
    [reflexivity | exact E].
Qed.

Lemma progress_to_next_speed_command (s : system) :
  Hw.system_initialized (hw_status_of s) = true ->
  Hw.esc_armed (hw_status_of s) = true ->
  F32.ge (test_speed s) WIRE_LEARNING_MAX_SPEED_MS = false ->
  hardware_is_speed_valid (next_test_speed (test_speed s)) = true ->
  hw_target (exec progress_to_next_speed s) = next_test_speed (test_speed s).
Proof.
  unfold hw_target, hw_status_of, test_speed, next_test_speed. intros Hi Ha Hc.
  rewrite Hc. intros Hn.
  unfold progress_to_next_speed. cbn. unfold_projections. rewrite Hc. cbn.
  unfold start_speed_test, hardware_set_motor_speed. cbn. unfold_projections.
  rewrite Hi. cbn. rewrite Hn. cbn. rewrite Ha. cbn. reflexivity.
Qed.

Lemma ramp_from_start :
  Forall2 (fun x k => within x (k * 100000 - 1) (k * 100000 + 1) 1000000)
    (ramp 10 WIRE_LEARNING_START_SPEED_MS) [1; 2; 3; 4; 5; 6; 7; 8; 9; 10]
  /\ nth 9 (ramp 12 WIRE_LEARNING_START_SPEED_MS) F32.zero = WIRE_LEARNING_MAX_SPEED_MS
  /\ nth 10 (ramp 12 WIRE_LEARNING_START_SPEED_MS) F32.zero = WIRE_LEARNING_MAX_SPEED_MS
  /\ nth 11 (ramp 12 WIRE_LEARNING_START_SPEED_MS) F32.zero = WIRE_LEARNING_MAX_SPEED_MS.
Proof.
  split; [|repeat split; reflexivity].
  vm_compute. repeat constructor; discriminate.
Qed.

(* ================================================================== *)
(** * The wire-end check of the automatic mode *)
(* ================================================================== *)

(** C4, as the claim states it, fails: one observation of a silent Hall
    sensor is a wire end for the automatic mode and none for the detector of
    wire learning, which asks for three in a row; so is an impact of
    0.75 g, between the two impact thresholds. *)
Lemma wire_end_logic_differs_counterexample :
  (eval automatic_mode_is_at_wire_end first_silence = true
   /\ eval wire_learning_get_best_detection_method first_silence = WIRE_END_NONE
   /\ eval spec_automatic_mode_is_at_wire_end first_silence = false)
  /\ (eval automatic_mode_is_at_wire_end jolt = true
      /\ eval wire_learning_get_best_detection_method jolt = WIRE_END_NONE
      /\ eval spec_automatic_mode_is_at_wire_end jolt = false).
Proof. vm_compute. repeat split; reflexivity. Qed.

Lemma automatic_mode_is_at_wire_end_spec (s : system) :
  eval automatic_mode_is_at_wire_end s
  = (auto_impact s || (auto_hall_timeout s || auto_speed_drop s))
  /\ exec automatic_mode_is_at_wire_end s = s.
Proof.
  unfold automatic_mode_is_at_wire_end, auto_impact, auto_hall_timeout, auto_speed_drop,
    hw_status_of, hardware_get_time_since_last_hall_pulse.
  cbn -[Z.ltb]. unfold_projections.
  destruct (F32.gt _ AUTO_MODE_MAX_IMPACT_G); cbn -[Z.ltb]; [split; reflexivity|].
  destruct (_ =? 0).
  - cbn. destruct (_ && _); split; reflexivity.
  - cbn -[Z.ltb]. destruct (2000000 <? _); cbn -[Z.ltb]; [split; reflexivity|].
    destruct (_ && _); split; reflexivity.
Qed.

Lemma wire_learning_impact_is_auto_impact (s : system) :
  eval wire_learning_get_best_detection_method s = WIRE_END_IMPACT_DETECTED ->
  auto_impact s = true.
Proof.
  unfold wire_learning_get_best_detection_method, wire_learning_detect_impact, auto_impact.
  cbn -[wire_learning_detect_speed_drop wire_learning_detect_hall_timeout].
  case_if.
  - intros _. apply F32_gt_1_gt_0_5. assumption.
  - cbn -[wire_learning_detect_speed_drop wire_learning_detect_hall_timeout].
    repeat (case_if; cbn -[wire_learning_detect_speed_drop wire_learning_detect_hall_timeout]);
      discriminate.
Qed.

Lemma wire_learning_timeout_is_auto_timeout (s : system) :
  eval wire_learning_get_best_detection_method s = WIRE_END_HALL_TIMEOUT ->
  auto_hall_timeout s = true.
Proof.
  unfold wire_learning_get_best_detection_method, wire_learning_detect_impact,
    wire_learning_detect_speed_drop, wire_learning_detect_hall_timeout, auto_hall_timeout,
    hardware_get_time_since_last_hall_pulse.
  cbn -[Z.ltb Z.leb Z.mul]. unfold_projections.
  destruct (F32.gt _ WIRE_END_IMPACT_THRESHOLD_G); cbn -[Z.ltb Z.leb Z.mul]; [discriminate|].
  destruct (_ && _); cbn -[Z.ltb Z.leb Z.mul]; [discriminate|].
  destruct (_ =? 0); [cbn; discriminate|]. cbn -[Z.ltb Z.leb Z.mul].
  change (WIRE_END_HALL_TIMEOUT_MS * 1000) with 2000000.
  destruct (2000000 <? _); cbn -[Z.ltb Z.leb Z.mul]; [intros _; reflexivity | discriminate].
Qed.

(** C4 (amended). [automatic_mode_is_at_wire_end] has a check of its own
    with the same three kinds of detector: it reports a wire end exactly when
    the acceleration exceeds 0.5 g, or one observation shows more than
    2000 ms since the last Hall pulse, or its target speed exceeds 0.5 m/s
    while the measured speed is below 0.2 m/s (tested in this order); it
    keeps no state, so no count of consecutive time-outs; every impact and
    every Hall time-out that the detector of wire learning reports is a wire
    end for it too. *)
Theorem automatic_wire_end_check (s : system) :
  eval automatic_mode_is_at_wire_end s
  = (auto_impact s || (auto_hall_timeout s || auto_speed_drop s))
  /\ exec automatic_mode_is_at_wire_end s = s
  /\ (eval wire_learning_get_best_detection_method s = WIRE_END_IMPACT_DETECTED ->
      eval automatic_mode_is_at_wire_end s = true)
  /\ (eval wire_learning_get_best_detection_method s = WIRE_END_HALL_TIMEOUT ->
      eval automatic_mode_is_at_wire_end s = true).
Proof.
  destruct (automatic_mode_is_at_wire_end_spec s) as [He Hx].
  split; [exact He|]. split; [exact Hx|]. split.
  - intros H. rewrite He, (wire_learning_impact_is_auto_impact s H). reflexivity.
  - intros H. rewrite He, (wire_learning_timeout_is_auto_timeout s H).
    rewrite orb_true_l. apply orb_true_r.
Qed.

(** At a jolt of 1.25 g the detector of wire learning reports an impact, and
    the automatic mode a wire end. *)
Lemma automatic_wire_end_check_witness :
  eval wire_learning_get_best_detection_method hard_jolt = WIRE_END_IMPACT_DETECTED
  /\ eval automatic_mode_is_at_wire_end hard_jolt = true.
Proof.
  assert (H : eval wire_learning_get_best_detection_method hard_jolt
              = WIRE_END_IMPACT_DETECTED) by (vm_compute; reflexivity).
  split; [exact H|].
  exact (proj1 (proj2 (proj2 (automatic_wire_end_check hard_jolt))) H).
Defined.

(* ================================================================== *)
(** * The sensor-validation gate of the coordinator *)
(* ================================================================== *)

(** C1, at the failing input: the operator turns the wheel, confirms the
    Hall sensor and confirms the accelerometer although no shake was ever
    detected; both confirmations are accepted and the next update sets
    [sensors_validated]. *)
Theorem sensors_validated_without_shake :
  sensors_validated (run confirm_without_shake boot) = true
  /\ Forall (fun s => Sh.trolley_shake_detected (sh s) = false)
       (states confirm_without_shake boot)
  /\ map validation_state (states confirm_without_shake boot)
     = [SENSOR_VALIDATION_NOT_STARTED; SENSOR_VALIDATION_NOT_STARTED;
        SENSOR_VALIDATION_NOT_STARTED; SENSOR_VALIDATION_IN_PROGRESS;
        SENSOR_VALIDATION_IN_PROGRESS; SENSOR_VALIDATION_HALL_PENDING;
        SENSOR_VALIDATION_HALL_PENDING; SENSOR_VALIDATION_ACCEL_PENDING;
        SENSOR_VALIDATION_ACCEL_PENDING; SENSOR_VALIDATION_COMPLETE].
Proof.
  split; [vm_compute; reflexivity|]. split; [|vm_compute; reflexivity].
  vm_compute. repeat constructor.
Qed.

(* ================================================================== *)
(** * Emergency stop of the coordinator *)
(* ================================================================== *)

Ltac frame_leaf := unfold on_hw, on_wl, on_am, on_mm, on_mc; cbn; intros; assumption.

Lemma coast_wait_frame_am (P : Am.globals -> Prop) (n : nat) (t0 : Z) :
  preserves (on_am P) (coast_wait n t0).
Proof. induction n as [|n IH]; cbn [coast_wait]; pres frame_leaf. Qed.

Lemma coast_wait_frame_mm (P : Mm.globals -> Prop) (n : nat) (t0 : Z) :
  preserves (on_mm P) (coast_wait n t0).
Proof. induction n as [|n IH]; cbn [coast_wait]; pres frame_leaf. Qed.

Lemma coast_wait_frame_wl (P : Wl.globals -> Prop) (n : nat) (t0 : Z) :
  preserves (on_wl P) (coast_wait n t0).
Proof. induction n as [|n IH]; cbn [coast_wait]; pres frame_leaf. Qed.
#[local] Hint Resolve coast_wait_frame_am coast_wait_frame_mm coast_wait_frame_wl : pres.

Lemma decelerate_steps_frame_wl (P : Wl.globals -> Prop) (n : nat) (i : Z) (v w : f32) :
  preserves (on_wl P) (decelerate_steps n i v w).
Proof.
  revert i. induction n as [|n IH]; intros i; cbn [decelerate_steps]; pres frame_leaf.
Qed.

Lemma decelerate_steps_frame_mm (P : Mm.globals -> Prop) (n : nat) (i : Z) (v w : f32) :
  preserves (on_mm P) (decelerate_steps n i v w).
Proof.
  revert i. induction n as [|n IH]; intros i; cbn [decelerate_steps]; pres frame_leaf.
Qed.
#[local] Hint Resolve decelerate_steps_frame_wl decelerate_steps_frame_mm : pres.

Ltac neutral_leaf :=
  unfold on_hw, at_neutral; cbn; intros;
  repeat match goal with H : _ /\ _ |- _ => destruct H end;
  repeat split; try assumption; try reflexivity.

Lemma manual_mode_stop_at_neutral : preserves (on_hw at_neutral) manual_mode_stop.
Proof. pres neutral_leaf. Qed.

Lemma manual_mode_stop_frame_am (P : Am.globals -> Prop) : preserves (on_am P) manual_mode_stop.
Proof. pres frame_leaf. Qed.

Lemma manual_mode_stop_frame_wl (P : Wl.globals -> Prop) : preserves (on_wl P) manual_mode_stop.
Proof. pres frame_leaf. Qed.

Lemma manual_mode_stop_idle (s : system) :
  Mm.state (Mm.g_manual_status (mm (exec manual_mode_stop s))) = MANUAL_MODE_IDLE.
Proof. reflexivity. Qed.

Lemma automatic_mode_interrupt_spec (s : system) :
  Am.state (Am.g_auto_progress (am (exec automatic_mode_interrupt s)))
  = AUTO_MODE_STOPPING_INTERRUPTED
  /\ at_neutral (hw (exec automatic_mode_interrupt s))
  /\ wl (exec automatic_mode_interrupt s) = wl s.
Proof. repeat split. Qed.

Lemma wire_learning_mode_stop_idle (s : system) :
  Wl.state (wl_progress (exec (wire_learning_mode_stop true) s)) = WIRE_LEARNING_IDLE.
Proof. reflexivity. Qed.

Lemma automatic_mode_update_interrupted (s : system) :
  Am.state (Am.g_auto_progress (am s)) = AUTO_MODE_STOPPING_INTERRUPTED ->
  exec automatic_mode_update s = s.
Proof.
  intros H. unfold automatic_mode_update. cbn. unfold_projections. rewrite H.
  destruct (negb _); reflexivity.
Qed.

Lemma mode_coordinator_emergency_stop_states (s : system) :
  let s' := exec mode_coordinator_emergency_stop s in
  at_neutral (hw s')
  /\ Wl.state (wl_progress s') = WIRE_LEARNING_IDLE
  /\ Am.state (Am.g_auto_progress (am s')) = AUTO_MODE_STOPPING_INTERRUPTED
  /\ Mm.state (Mm.g_manual_status (mm s')) = MANUAL_MODE_IDLE.
Proof.
  cbv zeta. unfold mode_coordinator_emergency_stop.
  rewrite !exec_bind.
  set (s1 := exec hardware_emergency_stop s).
  set (s2 := exec (wire_learning_mode_stop true) s1).
  set (s3 := exec automatic_mode_interrupt s2).
  set (s4 := exec manual_mode_stop s3).
  destruct (automatic_mode_interrupt_spec s2) as [Ham [Hhw Hwl]]. fold s3 in Ham, Hhw, Hwl.
  pose proof (wire_learning_mode_stop_idle s1) as Hidle. fold s2 in Hidle.
  assert (N4 : at_neutral (hw s4)) by (apply (manual_mode_stop_at_neutral s3), Hhw).
  assert (A4 : Am.state (Am.g_auto_progress (am s4)) = AUTO_MODE_STOPPING_INTERRUPTED).
  { apply (manual_mode_stop_frame_am
             (fun g => Am.state (Am.g_auto_progress g) = AUTO_MODE_STOPPING_INTERRUPTED) s3), Ham. }
  assert (W4 : Wl.state (Wl.g_learning_progress (wl s4)) = WIRE_LEARNING_IDLE).
  { apply (manual_mode_stop_frame_wl
             (fun g => Wl.state (Wl.g_learning_progress g) = WIRE_LEARNING_IDLE) s3).
    unfold on_wl. rewrite Hwl. exact Hidle. }
  pose proof (manual_mode_stop_idle s3) as M4. fold s4 in M4.
  cbn. repeat split; first [apply N4 | exact W4 | exact A4 | exact M4].
Qed.

Lemma wire_learning_idle_inactive (s : system) :
  Wl.state (wl_progress s) = WIRE_LEARNING_IDLE ->
  eval wire_learning_mode_is_active s = false.
Proof.
  unfold wl_progress, wire_learning_mode_is_active. intros H. cbn.
  unfold_projections. rewrite H. reflexivity.
Qed.

Lemma manual_idle_inactive (s : system) :
  Mm.state (Mm.g_manual_status (mm s)) = MANUAL_MODE_IDLE ->
  eval manual_mode_is_active s = false.
Proof.
  unfold manual_mode_is_active. intros H. cbn. unfold_projections. rewrite H. reflexivity.
Qed.

Lemma automatic_interrupted_active (s : system) :
  Am.state (Am.g_auto_progress (am s)) = AUTO_MODE_STOPPING_INTERRUPTED ->
  eval automatic_mode_is_active s = true.
Proof.
  unfold automatic_mode_is_active. intros H. cbn. unfold_projections. rewrite H. reflexivity.
Qed.

Lemma update_cycle_keeps_interrupted (s : system) :
  Am.state (Am.g_auto_progress (am s)) = AUTO_MODE_STOPPING_INTERRUPTED ->
  Am.state (Am.g_auto_progress (am (run update_cycle s))) = AUTO_MODE_STOPPING_INTERRUPTED.
Proof.
  intros H. unfold update_cycle, run. cbn [fold_left].
  set (I := on_am (fun g => Am.state (Am.g_auto_progress g) = AUTO_MODE_STOPPING_INTERRUPTED)).
  assert (H1 : I (step McUpdate s)).
  { revert s H. change (preserves I (perform McUpdate)). unfold I. cbn [perform]. pres frame_leaf. }
  assert (H2 : I (step WlUpdate (step McUpdate s))).
  { revert H1. generalize (step McUpdate s). change (preserves I (perform WlUpdate)).
    unfold I. cbn [perform]. pres frame_leaf. }
  assert (H3 : I (step AmUpdate (step WlUpdate (step McUpdate s)))).
  { unfold step at 1. cbn [perform]. unfold discard. rewrite exec_bind.
    rewrite (automatic_mode_update_interrupted _ H2). exact H2. }
  revert H3. generalize (step AmUpdate (step WlUpdate (step McUpdate s))).
  change (preserves I (perform MmUpdate)). unfold I. cbn [perform]. pres frame_leaf.
Qed.

(** C2, where the code departs from the claim: from every state the
    coordinator's emergency stop leaves the hardware target speed at 0 and the
    ESC duty at neutral, and the wire-learning and manual engines inactive;
    the automatic engine, however, is left in the state Stopping-interrupted,
    in which [automatic_mode_is_active] answers true, also after its own
    update and after a full update cycle of the firmware. *)
Theorem emergency_stop_leaves_automatic_active (s : system) :
  let s' := exec mode_coordinator_emergency_stop s in
  hw_target s' = F32.zero
  /\ Hw.current_esc_duty (hw_status_of s') = ESC_NEUTRAL_DUTY
  /\ Hw.ledc_duty (hw s') = ESC_NEUTRAL_DUTY
  /\ eval wire_learning_mode_is_active s' = false
  /\ eval manual_mode_is_active s' = false
  /\ eval automatic_mode_is_active s' = true
  /\ eval automatic_mode_is_active (exec automatic_mode_update s') = true
  /\ eval automatic_mode_is_active (run update_cycle s') = true.
Proof.
  intros s'. destruct (mode_coordinator_emergency_stop_states s) as [[N1 [N2 N3]] [W [A Mn]]].
  fold s' in N1, N2, N3, W, A, Mn.
  split; [exact N1|]. split; [exact N2|]. split; [exact N3|].
  rewrite (automatic_mode_update_interrupted s' A).
  split; [exact (wire_learning_idle_inactive s' W)|].
  split; [exact (manual_idle_inactive s' Mn)|].
  split; [exact (automatic_interrupted_active s' A)|].
  split; [exact (automatic_interrupted_active s' A)|].
  exact (automatic_interrupted_active _ (update_cycle_keeps_interrupted s' A)).
Qed.

(* ================================================================== *)
(** * One active mode at a time *)
(* ================================================================== *)

(** C7, at two failing inputs.  (1) Automatic mode runs and the coordinator
    has recorded it; activating manual mode interrupts the automatic engine,
    which stays in Stopping-interrupted and so still reports active, and
    starts the manual engine: two engines report active.  (2) Manual mode is
    activated and, before the coordinator's next update has recorded it,
    wire learning is activated: the recorded mode is None, nothing is
    stopped, and again two engines report active. *)
Theorem two_engines_active :
  (active_engines (run automatic_then_manual boot_with_result)
   = [TROLLEY_MODE_AUTOMATIC; TROLLEY_MODE_MANUAL]
   /\ Mc.current_mode (Mc.g_mode_status
         (mc (run (bring_up ++ [McActivateAutomatic; McUpdate]) boot_with_result)))
      = TROLLEY_MODE_AUTOMATIC
   /\ Am.state (Am.g_auto_progress (am (run automatic_then_manual boot_with_result)))
      = AUTO_MODE_STOPPING_INTERRUPTED)
  /\ (active_engines (run manual_then_learning boot)
      = [TROLLEY_MODE_WIRE_LEARNING; TROLLEY_MODE_MANUAL]
      /\ Mc.current_mode (Mc.g_mode_status
            (mc (run (bring_up ++ [McActivateManual]) boot)))
         = TROLLEY_MODE_NONE).
Proof. vm_compute. repeat split; reflexivity. Qed.

(* ================================================================== *)
(** * Wire learning never reaches its coasting side-measurement *)
(* ================================================================== *)

Lemma start_speed_inv : test_speed_inv wl_boot.
Proof. split; reflexivity. Qed.

Ltac speed_leaf :=
  unfold on_wl, test_speed_inv; cbn; intros;
  repeat match goal with H : _ /\ _ |- _ => destruct H end;
  repeat split; try assumption; try reflexivity;
  try (case_if; [reflexivity | assumption]).

(** A test speed read from a state that satisfies the invariant is not
    4.0 m/s or more. *)
Ltac speed_absurd :=
  idtac;
  match goal with
  | H : exists s, on_wl test_speed_inv s /\ Wl.g_current_test_speed (wl s) = ?a,
    E : F32.ge ?a F32.c4_0 = true |- _ =>
      destruct H as [? [[H _] <-]]; apply F32_ge_4_gt_1 in E;
      unfold WIRE_LEARNING_MAX_SPEED_MS in H; unfold_projections; congruence
  end.

Lemma coast_wait_speed_inv (n : nat) (t0 : Z) :
  preserves (on_wl test_speed_inv) (coast_wait n t0).
Proof. apply coast_wait_frame_wl. Qed.

Lemma perform_speed_inv (c : call) : preserves (on_wl test_speed_inv) (perform c).
Proof. destruct c; cbn [perform]; pres_with speed_leaf speed_absurd. Qed.

Lemma test_speed_inv_always (t : list call) : test_speed_inv (wl (run t boot)).
Proof. apply (preserves_run (on_wl test_speed_inv) perform_speed_inv t boot), start_speed_inv. Qed.

Ltac data_leaf :=
  unfold coasting_data_is, test_speed_inv; cbn; intros;
  repeat match goal with H : _ /\ _ |- _ => destruct H end;
  repeat split; try assumption; try reflexivity;
  try (case_if; first [reflexivity | assumption | cbn; assumption]).

Ltac data_absurd :=
  idtac;
  match goal with
  | H : exists s, coasting_data_is _ s /\ Wl.g_current_test_speed (wl s) = ?a,
    E : F32.ge ?a F32.c4_0 = true |- _ =>
      destruct H as [? [[[H _] _] <-]]; apply F32_ge_4_gt_1 in E;
      unfold WIRE_LEARNING_MAX_SPEED_MS in H; unfold_projections; congruence
  end.

Lemma coast_wait_coasting_data (d : Mc.coasting_data_t) (n : nat) (t0 : Z) :
  preserves (coasting_data_is d) (coast_wait n t0).
Proof. induction n as [|n IH]; cbn [coast_wait]; pres data_leaf. Qed.
#[local] Hint Resolve coast_wait_coasting_data : pres.

Lemma wire_learning_keeps_coasting_data (d : Mc.coasting_data_t) :
  Forall (fun c => preserves (coasting_data_is d) (perform c)) wire_learning_calls.
Proof.
  unfold wire_learning_calls.
  repeat (constructor; [cbn [perform]; pres_with data_leaf data_absurd|]).
  constructor.
Qed.

(** C10. In every run of the firmware the test speed of wire learning never
    exceeds 1.0 m/s, so it is never 4.0 m/s or more, the trigger of the
    coasting side-measurement at the end of the forward direction: the
    side-measurement is never active, and no entry point of wire learning
    changes the coasting data held by the coordinator. *)
Theorem coasting_side_measurement_unreachable (t : list call) :
  F32.gt (test_speed (run t boot)) WIRE_LEARNING_MAX_SPEED_MS = false
  /\ F32.ge (test_speed (run t boot)) F32.c4_0 = false
  /\ Wl.g_coasting_calibration_active (wl (run t boot)) = false
  /\ Forall (fun c =>
       Mc.g_coasting_data (mc (step c (run t boot))) = Mc.g_coasting_data (mc (run t boot))
       /\ Wl.g_coasting_calibration_active (wl (step c (run t boot))) = false)
     wire_learning_calls.
Proof.
  destruct (test_speed_inv_always t) as [Hs Ha].
  split; [exact Hs|]. split.
  { destruct (F32.ge (test_speed (run t boot)) F32.c4_0) eqn:E; [|reflexivity].
    apply F32_ge_4_gt_1 in E. unfold test_speed, WIRE_LEARNING_MAX_SPEED_MS in *. congruence. }
  split; [exact Ha|].
  pose proof (wire_learning_keeps_coasting_data (Mc.g_coasting_data (mc (run t boot)))) as H.
  eapply Forall_impl; [|exact H]. intros c Hc. cbv beta in Hc.
  destruct (Hc (run t boot)) as [[_ Ha'] Hd]; [split; [split; assumption | reflexivity]|].
  split; [exact Hd | exact Ha'].
Qed.

(* ================================================================== *)
(** * The engines reach the hardware state through its operations only *)
(* ================================================================== *)

Ltac mcbv :=
  cbv beta iota zeta delta
    [bind gets ret modify exec eval discard upd_hw upd_hw_status upd_wl upd_progress upd_am
     upd_auto upd_mm upd_manual upd_mc upd_mode_status g_hw_status g_learning_progress
     g_auto_progress g_manual_status g_mode_status esp_timer_get_time vTaskDelay_ms
     ledc_write fst snd].

(** The same, with the boolean connectives and the comparison of error
    codes evaluated. *)
Ltac mcbvb :=
  cbv beta iota zeta delta
    [bind gets ret modify exec eval discard upd_hw upd_hw_status upd_wl upd_progress upd_am
     upd_auto upd_mm upd_manual upd_mc upd_mode_status g_hw_status g_learning_progress
     g_auto_progress g_manual_status g_mode_status esp_timer_get_time vTaskDelay_ms
     ledc_write fst snd negb andb orb esp_err_eqb].

(** A case distinction on the first atomic condition of a conditional. *)
Ltac atom_of b :=
  lazymatch b with
  | negb ?x => atom_of x
  | ?x && _ => atom_of x
  | ?x || _ => atom_of x
  | esp_err_eqb ?x _ => atom_of x
  | fst ?x => atom_of x
  | snd ?x => atom_of x
  | match ?x with _ => _ end => atom_of x
  | (match ?x with _ => _ end) _ => atom_of x
  | _ => b
  end.

Ltac case_atom :=
  match goal with
  | |- context [if ?b then _ else _] => let a := atom_of b in destruct a eqn:?
  end.

(** Opens the state into its fields, so that every projection computes. *)
Ltac open_records :=
  repeat match goal with
         | x : system |- _ => destruct x
         | x : Hw.globals |- _ => destruct x
         | x : Hw.hardware_status_t |- _ => destruct x
         | x : Sh.sensor_health_t |- _ => destruct x
         | x : Wl.globals |- _ => destruct x
         | x : Wl.wire_learning_progress_t |- _ => destruct x
         | x : Wl.wire_learning_results_t |- _ => destruct x
         | x : Am.globals |- _ => destruct x
         | x : Am.automatic_mode_progress_t |- _ => destruct x
         | x : Am.coasting_calibration_t |- _ => destruct x
         | x : Mm.globals |- _ => destruct x
         | x : Mm.manual_mode_status_t |- _ => destruct x
         | x : Mc.globals |- _ => destruct x
         | x : Mc.system_mode_status_t |- _ => destruct x
         | x : Mc.coasting_data_t |- _ => destruct x
         end.

Tactic Notation "mcbv" "in" hyp(H) :=
  cbv beta iota zeta delta
    [bind gets ret modify exec eval discard upd_hw upd_hw_status upd_wl upd_progress upd_am
     upd_auto upd_mm upd_manual upd_mc upd_mode_status g_hw_status g_learning_progress
     g_auto_progress g_manual_status g_mode_status esp_timer_get_time vTaskDelay_ms
     ledc_write fst snd] in H.

Section HardwareInvariant.
Variable P : Hw.globals -> Prop.
Hypothesis HP : hw_operations_keep P.

Lemma hw_keep_hall (t : Z) : preserves (on_hw P) (hall_processing_task t).
Proof. apply HP. Qed.
Lemma hw_keep_esc : preserves (on_hw P) esc_update_task.
Proof. apply HP. Qed.
Lemma hw_keep_init (q : bool) : preserves (on_hw P) (hardware_init q).
Proof. apply HP. Qed.
Lemma hw_keep_arm : preserves (on_hw P) hardware_esc_arm.
Proof. apply HP. Qed.
Lemma hw_keep_disarm : preserves (on_hw P) hardware_esc_disarm.
Proof. apply HP. Qed.
Lemma hw_keep_speed (v : f32) (d : bool) : preserves (on_hw P) (hardware_set_motor_speed v d).
Proof. apply HP. Qed.
Lemma hw_keep_stop : preserves (on_hw P) hardware_emergency_stop.
Proof. apply HP. Qed.
Lemma hw_keep_rotations : preserves (on_hw P) hardware_reset_rotation_count.
Proof. apply HP. Qed.
Lemma hw_keep_position : preserves (on_hw P) hardware_reset_position.
Proof. apply HP. Qed.

#[local] Hint Resolve hw_keep_hall hw_keep_esc hw_keep_init hw_keep_arm hw_keep_disarm
  hw_keep_speed hw_keep_stop hw_keep_rotations hw_keep_position : pres.

Lemma coast_wait_on_hw (n : nat) (t0 : Z) : preserves (on_hw P) (coast_wait n t0).
Proof. induction n as [|n IH]; cbn [coast_wait]; pres frame_leaf. Qed.

Lemma decelerate_steps_on_hw (n : nat) (i : Z) (v w : f32) :
  preserves (on_hw P) (decelerate_steps n i v w).
Proof. revert i. induction n as [|n IH]; intros i; cbn [decelerate_steps]; pres frame_leaf. Qed.

#[local] Hint Resolve coast_wait_on_hw decelerate_steps_on_hw : pres.

Lemma perform_on_hw (c : call) : preserves (on_hw P) (perform c).
Proof. destruct c; cbn [perform]; pres frame_leaf. Qed.

Lemma run_on_hw (t : list call) (s : system) : P (hw s) -> P (hw (run t s)).
Proof. apply (preserves_run (on_hw P) perform_on_hw t s). Qed.

End HardwareInvariant.

(* ================================================================== *)
(** * A disarmed ESC is at rest *)
(* ================================================================== *)

Ltac rest_intro :=
  intros s [Ha Hd]; unfold on_hw, disarmed_at_rest in *.

Lemma hall_processing_task_rest (t : Z) :
  preserves (on_hw disarmed_at_rest) (hall_processing_task t).
Proof. pres frame_leaf. Qed.

(** What one iteration of the ESC task leaves alone. *)
Lemma esc_update_task_frame (s : system) :
  let s' := exec esc_update_task s in
  Hw.esc_armed (hw_status_of s') = Hw.esc_armed (hw_status_of s)
  /\ Hw.system_initialized (hw_status_of s') = Hw.system_initialized (hw_status_of s)
  /\ hw_target s' = hw_target s
  /\ (Hw.system_initialized (hw_status_of s) && Hw.esc_armed (hw_status_of s) = false ->
      Hw.current_esc_duty (hw_status_of s') = Hw.current_esc_duty (hw_status_of s)
      /\ Hw.ledc_duty (hw s') = Hw.ledc_duty (hw s)).
Proof.
  unfold hw_target, hw_status_of, esc_update_task. mcbv.
  destruct (Hw.system_initialized (Hw.g_hw_status (hw s)) && Hw.esc_armed (Hw.g_hw_status (hw s)));
    mcbv.
  - match goal with
    | |- context [if ?b then _ else _] => destruct b
    end; mcbv.
    + match goal with
      | |- context [F32.gt ?a ?b] => destruct (F32.gt a b)
      end; repeat split; discriminate.
    + repeat split; discriminate.
  - match goal with
    | |- context [if ?b then _ else _] => destruct b
    end; mcbv.
    + match goal with
      | |- context [F32.gt ?a ?b] => destruct (F32.gt a b)
      end; repeat split; reflexivity.
    + repeat split; reflexivity.
Qed.

Lemma esc_update_task_rest : preserves (on_hw disarmed_at_rest) esc_update_task.
Proof.
  rest_intro.
  destruct (esc_update_task_frame s) as [Fa [Fi [Ft Fd]]].
  unfold hw_target, hw_status_of in *. rewrite Fa, Fi, Ft.
  split; [exact Ha|]. intros E. destruct (Fd (andb_false_intro2 _ _ E)) as [-> ->]. exact (Hd E).
Qed.

Lemma hardware_init_rest (q : bool) : preserves (on_hw disarmed_at_rest) (hardware_init q).
Proof.
  rest_intro. unfold hardware_init.
  destruct q; cbn; (split; [discriminate | intros _; repeat split; discriminate]).
Qed.

Lemma hardware_esc_arm_rest : preserves (on_hw disarmed_at_rest) hardware_esc_arm.
Proof.
  rest_intro. unfold hardware_esc_arm. mcbv.
  destruct (Hw.system_initialized (Hw.g_hw_status (hw s))) eqn:Ei; cbv [negb]; mcbv.
  - split; [intros _; exact Ei | cbn; discriminate].
  - cbn; unfold_projections; intuition congruence.
Qed.

Lemma hardware_esc_disarm_rest : preserves (on_hw disarmed_at_rest) hardware_esc_disarm.
Proof. rest_intro. cbn. split; [discriminate | intros _; repeat split]. Qed.

Lemma hardware_set_motor_speed_rest (v : f32) (d : bool) :
  preserves (on_hw disarmed_at_rest) (hardware_set_motor_speed v d).
Proof.
  rest_intro. unfold hardware_set_motor_speed. mcbv.
  destruct (Hw.system_initialized (Hw.g_hw_status (hw s))) eqn:Ei; cbv [negb]; mcbv;
    [destruct (hardware_is_speed_valid v); mcbv;
     [destruct (Hw.esc_armed (Hw.g_hw_status (hw s))) eqn:Ea; mcbv|]|];
    cbn; unfold_projections; intuition congruence.
Qed.

Lemma hardware_emergency_stop_rest : preserves (on_hw disarmed_at_rest) hardware_emergency_stop.
Proof.
  rest_intro. cbn. split; [exact Ha | intros _; repeat split].
Qed.

Lemma hardware_reset_rotation_count_rest :
  preserves (on_hw disarmed_at_rest) hardware_reset_rotation_count.
Proof. pres frame_leaf. Qed.

Lemma hardware_reset_position_rest :
  preserves (on_hw disarmed_at_rest) hardware_reset_position.
Proof. pres frame_leaf. Qed.

Lemma disarmed_at_rest_kept : hw_operations_keep disarmed_at_rest.
Proof.
  unfold hw_operations_keep.
  split; [exact hall_processing_task_rest|]. split; [exact esc_update_task_rest|].
  split; [exact hardware_init_rest|]. split; [exact hardware_esc_arm_rest|].
  split; [exact hardware_esc_disarm_rest|]. split; [exact hardware_set_motor_speed_rest|].
  split; [exact hardware_emergency_stop_rest|].
  split; [exact hardware_reset_rotation_count_rest | exact hardware_reset_position_rest].
Qed.


(* ================================================================== *)
(** * The rotation counter *)
(* ================================================================== *)

Lemma wrap32_add_l (a b : Z) : wrap32 (wrap32 a + b) = wrap32 (a + b).
Proof. unfold wrap32. apply Zplus_mod_idemp_l. Qed.

Lemma wrap32_sub_l (a b : Z) : wrap32 (wrap32 a - b) = wrap32 (a - b).
Proof. unfold wrap32. apply Zminus_mod_idemp_l. Qed.

Lemma environment_step_rotations (c : call) (s : system) :
  is_environment c = true ->
  Hw.g_rotation_count_offset (hw (step c s)) = Hw.g_rotation_count_offset (hw s)
  /\ Hw.total_rotations (hw_status_of (step c s))
     = (if is_hall_pulse c then wrap32 (Hw.total_rotations (hw_status_of s) + 1)
        else Hw.total_rotations (hw_status_of s)).
Proof.
  destruct c; try discriminate; intros _; unfold step, hw_status_of; cbn [perform is_hall_pulse].
  - split; reflexivity.
  - unfold hall_processing_task. mcbv. repeat (case_if; mcbv); split; reflexivity.
  - unfold esc_update_task. mcbv. repeat (case_if; mcbv); split; reflexivity.
  - split; reflexivity.
Qed.

Lemma environment_run_rotations (t : list call) (s : system) :
  Forall (fun c => is_environment c = true) t ->
  Hw.g_rotation_count_offset (hw (run t s)) = Hw.g_rotation_count_offset (hw s)
  /\ wrap32 (Hw.total_rotations (hw_status_of (run t s)))
     = wrap32 (Hw.total_rotations (hw_status_of s) + pulses_in t).
Proof.
  revert s. induction t as [|c t IH]; intros s Ht.
  - cbn. split; [reflexivity | f_equal; unfold pulses_in; cbn; lia].
  - inversion Ht as [|? ? Hc Ht']; subst.
    destruct (environment_step_rotations c s Hc) as [Ho Hr].
    destruct (IH (step c s) Ht') as [Ho' Hr'].
    change (run (c :: t) s) with (run t (step c s)).
    split; [rewrite Ho'; exact Ho|].
    rewrite Hr', Hr. unfold pulses_in. cbn [filter].
    destruct (is_hall_pulse c); cbn [List.length].
    + rewrite wrap32_add_l. f_equal. lia.
    + reflexivity.
Qed.

(** X2. After [hardware_reset_rotation_count], whatever time passes and
    however often the ESC task runs, [hardware_get_rotation_count] reads the
    number of Hall pulses processed since the reset, modulo 2^32. *)
Theorem rotation_count_counts_pulses (t : list call) (s : system) :
  Forall (fun c => is_environment c = true) t ->
  eval hardware_get_rotation_count (run t (exec hardware_reset_rotation_count s))
  = wrap32 (pulses_in t).
Proof.
  intros Ht.
  destruct (environment_run_rotations t (exec hardware_reset_rotation_count s) Ht) as [Ho Hr].
  unfold hardware_get_rotation_count, hw_status_of in *. cbn in *. unfold_projections.
  rewrite Ho. rewrite <- wrap32_sub_l, Hr, wrap32_sub_l. f_equal. lia.
Qed.

Lemma rotation_count_counts_pulses_witness :
  Forall (fun c => is_environment c = true) three_revolutions
  /\ eval hardware_get_rotation_count
       (run three_revolutions (exec hardware_reset_rotation_count stalled)) = 3.
Proof.
  assert (H : Forall (fun c => is_environment c = true) three_revolutions)
    by (repeat constructor).
  split; [exact H|].
  exact (rotation_count_counts_pulses three_revolutions stalled H).
Defined.

(* ================================================================== *)
(** * Speed commands: when they are accepted *)
(* ================================================================== *)

(** X3. [hardware_set_motor_speed] accepts a command exactly when the
    hardware is initialised, the speed lies in [[0, MAX_SPEED_MS]] and the
    ESC is armed; it then records the speed and the direction and nothing
    else.  A refused command leaves the status unchanged; uninitialised
    hardware and a disarmed ESC are both answered with the invalid-state
    code and differ only in the error recorded for
    [hardware_get_last_error]. *)
Theorem hardware_set_motor_speed_result (s : system) (v : f32) (d : bool) :
  let s' := exec (hardware_set_motor_speed v d) s in
  (eval (hardware_set_motor_speed v d) s = ESP_OK <-> speed_command_accepted s v = true)
  /\ (speed_command_accepted s v = true ->
      hw_status_of s'
      = Hw.set_direction_forward d (Hw.set_target_speed_ms v (hw_status_of s))
      /\ eval hardware_get_last_error s' = eval hardware_get_last_error s)
  /\ (speed_command_accepted s v = false -> hw_status_of s' = hw_status_of s)
  /\ (Hw.system_initialized (hw_status_of s) = false ->
      eval (hardware_set_motor_speed v d) s = ESP_ERR_INVALID_STATE
      /\ eval hardware_get_last_error s' = HW_ERROR_SYSTEM_NOT_INITIALIZED)
  /\ (Hw.system_initialized (hw_status_of s) = true ->
      hardware_is_speed_valid v = true ->
      Hw.esc_armed (hw_status_of s) = false ->
      eval (hardware_set_motor_speed v d) s = ESP_ERR_INVALID_STATE
      /\ eval hardware_get_last_error s' = HW_ERROR_ESC_NOT_RESPONDING).
Proof.
  unfold speed_command_accepted, hw_status_of, hardware_get_last_error, hardware_set_motor_speed.
  mcbv.
  destruct (Hw.system_initialized (Hw.g_hw_status (hw s))); cbv [negb andb]; mcbv;
    [destruct (hardware_is_speed_valid v); mcbv;
     [destruct (Hw.esc_armed (Hw.g_hw_status (hw s))); mcbv|]|];
    repeat split; intros; try reflexivity; try discriminate.
Qed.

Lemma hardware_set_motor_speed_result_witness :
  speed_command_accepted (run [HardwareInit true; HardwareArm] boot) F32.c0_5 = true
  /\ hw_target (exec (hardware_set_motor_speed F32.c0_5 false)
                  (run [HardwareInit true; HardwareArm] boot)) = F32.c0_5
  /\ Hw.system_initialized (hw_status_of boot) = false
  /\ eval (hardware_set_motor_speed F32.c0_5 false) boot = ESP_ERR_INVALID_STATE
  /\ Hw.system_initialized (hw_status_of (run [HardwareInit true] boot)) = true
  /\ hardware_is_speed_valid F32.c0_5 = true
  /\ Hw.esc_armed (hw_status_of (run [HardwareInit true] boot)) = false
  /\ eval hardware_get_last_error
       (exec (hardware_set_motor_speed F32.c0_5 false) (run [HardwareInit true] boot))
     = HW_ERROR_ESC_NOT_RESPONDING.
Proof.
  assert (A : speed_command_accepted (run [HardwareInit true; HardwareArm] boot) F32.c0_5 = true)
    by (vm_compute; reflexivity).
  assert (B : Hw.system_initialized (hw_status_of boot) = false) by reflexivity.
  assert (C1 : Hw.system_initialized (hw_status_of (run [HardwareInit true] boot)) = true)
    by (vm_compute; reflexivity).
  assert (C2 : hardware_is_speed_valid F32.c0_5 = true) by reflexivity.
  assert (C3 : Hw.esc_armed (hw_status_of (run [HardwareInit true] boot)) = false)
    by (vm_compute; reflexivity).
  destruct (hardware_set_motor_speed_result
              (run [HardwareInit true; HardwareArm] boot) F32.c0_5 false) as [_ [Ha _]].
  destruct (hardware_set_motor_speed_result boot F32.c0_5 false) as [_ [_ [_ [Hb _]]]].
  destruct (hardware_set_motor_speed_result (run [HardwareInit true] boot) F32.c0_5 false)
    as [_ [_ [_ [_ Hc]]]].
  split; [exact A|]. split; [unfold hw_target; rewrite (proj1 (Ha A)); reflexivity|].
  split; [exact B|]. split; [exact (proj1 (Hb B))|].
  split; [exact C1|]. split; [exact C2|]. split; [exact C3|].
  exact (proj2 (Hc C1 C2 C3)).
Defined.
(* ================================================================== *)
(** * A Hall sensor that never pulsed *)
(* ================================================================== *)

(** X4. While no Hall pulse has been recorded, the time since the last pulse
    reads 0 however much time has passed, so no monitor reports a Hall
    time-out: the detector of wire learning answers false and clears its
    count, the wire-end check of the automatic mode reduces to its impact
    and speed-drop tests, the Hall monitor of the manual mode answers true,
    and the ESC task leaves the Hall health flag and the measured speed
    alone. *)
Theorem silent_hall_sensor_is_not_reported (s : system) :
  never_pulsed s ->
  eval hardware_get_time_since_last_hall_pulse s = 0
  /\ eval wire_learning_detect_hall_timeout s = false
  /\ Wl.g_consecutive_hall_timeouts (wl (exec wire_learning_detect_hall_timeout s)) = 0
  /\ eval automatic_mode_is_at_wire_end s = (auto_impact s || auto_speed_drop s)
  /\ eval manual_mode_monitor_hall_sensor s = true
  /\ Hw.hall_sensor_healthy (hw_status_of (exec esc_update_task s))
     = Hw.hall_sensor_healthy (hw_status_of s)
  /\ Hw.current_speed_ms (hw_status_of (exec esc_update_task s))
     = Hw.current_speed_ms (hw_status_of s).
Proof.
  unfold never_pulsed, hw_status_of. intros H.
  assert (T : forall s', Hw.last_hall_time (Hw.g_hw_status (hw s')) = 0 ->
                hardware_get_time_since_last_hall_pulse s' = (0, s')).
  { intros s' H'. unfold hardware_get_time_since_last_hall_pulse. mcbv. rewrite H'. reflexivity. }
  split; [unfold eval; rewrite (T s H); reflexivity|].
  split; [unfold wire_learning_detect_hall_timeout; mcbv; rewrite (T s H); reflexivity|].
  split; [unfold wire_learning_detect_hall_timeout; mcbv; rewrite (T s H); reflexivity|].
  split.
  { destruct (automatic_mode_is_at_wire_end_spec s) as [-> _].
    unfold auto_hall_timeout, eval. rewrite (T s H). reflexivity. }
  split.
  { unfold manual_mode_monitor_hall_sensor. mcbv.
    destruct (Mm.motor_active _); cbv [negb]; mcbv; [|reflexivity].
    case_if; [|reflexivity]. rewrite (T s H). reflexivity. }
  unfold esc_update_task. cbn -[Z.ltb Z.mul].
  destruct (Hw.system_initialized (Hw.g_hw_status (hw s)) && Hw.esc_armed (Hw.g_hw_status (hw s)));
    cbn -[Z.ltb Z.mul]; unfold_projections; rewrite H; cbn; split; reflexivity.
Qed.

Lemma silent_hall_sensor_is_not_reported_witness :
  never_pulsed silent_wheel
  /\ clock silent_wheel = 66000000
  /\ eval wire_learning_detect_hall_timeout silent_wheel = false
  /\ eval manual_mode_monitor_hall_sensor silent_wheel = true.
Proof.
  assert (H : never_pulsed silent_wheel) by (vm_compute; reflexivity).
  destruct (silent_hall_sensor_is_not_reported silent_wheel H) as [_ [H1 [_ [_ [H2 _]]]]].
  split; [exact H|]. split; [vm_compute; reflexivity|]. split; [exact H1 | exact H2].
Defined.

(* ================================================================== *)
(** * Wire learning: time-out, start and stop *)
(* ================================================================== *)

Lemma wire_learning_failed_inactive (s : system) :
  Wl.state (wl_progress s) = WIRE_LEARNING_FAILED ->
  eval wire_learning_mode_is_active s = false.
Proof.
  unfold wl_progress, wire_learning_mode_is_active. intros H. mcbv. rewrite H. reflexivity.
Qed.

(** X5. An initialised wire-learning engine that is active more than 60 s
    after its start is failed by the next [wire_learning_mode_update]: the
    call answers with the time-out code, the state is Failed with the
    message of the time-out, the motor is stopped (target 0, duty neutral)
    and the engine no longer reports active. *)
Theorem wire_learning_run_times_out (s : system) :
  Wl.g_learning_initialized (wl s) = true ->
  eval wire_learning_mode_is_active s = true ->
  WIRE_LEARNING_TIMEOUT_S * 1000000
    < wrap64 (clock s - Wl.learning_start_time (wl_progress s)) ->
  eval wire_learning_mode_update s = ESP_ERR_TIMEOUT
  /\ Wl.state (wl_progress (exec wire_learning_mode_update s)) = WIRE_LEARNING_FAILED
  /\ Wl.error_message (wl_progress (exec wire_learning_mode_update s))
     = "Wire learning timeout"%string
  /\ at_neutral (hw (exec wire_learning_mode_update s))
  /\ eval wire_learning_mode_is_active (exec wire_learning_mode_update s) = false.
Proof.
  unfold wl_progress. intros Hi Ha Ht. apply Z.ltb_lt in Ht.
  assert (E : wire_learning_mode_update s
              = (ESP_ERR_TIMEOUT,
                 exec (upd_progress (fun p =>
                         Wl.set_state WIRE_LEARNING_FAILED
                           (Wl.set_error_message "Wire learning timeout" p)) ;;
                       hardware_emergency_stop) s)).
  { unfold eval, wire_learning_mode_is_active in Ha. mcbv in Ha.
    unfold wire_learning_mode_update, wire_learning_mode_is_active. mcbv.
    rewrite Hi. cbv [negb]. mcbv. rewrite Ha. cbv [andb].
    case_if; [reflexivity|]. exfalso. unfold_projections. congruence. }
  unfold eval, exec at 1 2 3 4. rewrite E. cbn [fst snd].
  split; [reflexivity|]. split; [reflexivity|]. split; [reflexivity|].
  split; [repeat split|]. apply wire_learning_failed_inactive. reflexivity.
Qed.

Lemma wire_learning_run_times_out_witness :
  Wl.g_learning_initialized (wl learning_overdue) = true
  /\ eval wire_learning_mode_is_active learning_overdue = true
  /\ eval wire_learning_mode_update learning_overdue = ESP_ERR_TIMEOUT
  /\ eval wire_learning_mode_is_active (exec wire_learning_mode_update learning_overdue) = false.
Proof.
  assert (H1 : Wl.g_learning_initialized (wl learning_overdue) = true) by (vm_compute; reflexivity).
  assert (H2 : eval wire_learning_mode_is_active learning_overdue = true)
    by (vm_compute; reflexivity).
  assert (H3 : WIRE_LEARNING_TIMEOUT_S * 1000000
               < wrap64 (clock learning_overdue
                         - Wl.learning_start_time (wl_progress learning_overdue)))
    by (vm_compute; reflexivity).
  destruct (wire_learning_run_times_out learning_overdue H1 H2 H3) as [R [_ [_ [_ A]]]].
  split; [exact H1|]. split; [exact H2|]. split; [exact R | exact A].
Defined.

Lemma F32_ge_1_ne_0 (x : f32) : F32.ge x F32.c1_0 = true -> F32.eq x F32.zero = false.
Proof.
  cbv beta iota delta [F32.ge F32.eq SFleb SFeqb SFcompare F32.zero F32.c1_0].
  destruct x as [[|]|[|]| |[|] m e]; cbv beta iota; try discriminate; reflexivity.
Qed.

(** X6. While the current test speed of a direction run counts as
    validated, [wire_learning_mode_update] does nothing at all (until the
    60 s time-out): it neither moves on nor looks for the wire end.  This is
    the state the engine is left in when the speed at the 1.0 m/s ceiling
    gets its ten pulses: the update only sets the validated flag. *)
Theorem validated_speed_ends_wire_end_detection (s : system) :
  Wl.g_learning_initialized (wl s) = true ->
  Wl.state (wl_progress s) = WIRE_LEARNING_FORWARD_DIRECTION
  \/ Wl.state (wl_progress s) = WIRE_LEARNING_REVERSE_DIRECTION ->
  wrap64 (clock s - Wl.learning_start_time (wl_progress s))
    <= WIRE_LEARNING_TIMEOUT_S * 1000000 ->
  (Wl.g_speed_validated (wl s) = true ->
   wire_learning_mode_update s = (ESP_OK, s))
  /\ (Wl.g_speed_validated (wl s) = false ->
      F32.ge (test_speed s) WIRE_LEARNING_MAX_SPEED_MS = true ->
      LEARNING_MIN_HALL_PULSES <= pulses_since s ->
      wire_learning_mode_update s
      = (ESP_OK, set_wl (Wl.set_g_speed_validated true (wl s)) s)).
Proof.
  unfold wl_progress, test_speed. intros Hi Hs Ht. apply Z.ltb_ge in Ht.
  assert (U : forall h : M esp_err_t,
            (Wl.state (Wl.g_learning_progress (wl s)) = WIRE_LEARNING_FORWARD_DIRECTION ->
             h = handle_forward_direction)
            -> (Wl.state (Wl.g_learning_progress (wl s)) = WIRE_LEARNING_REVERSE_DIRECTION ->
                h = handle_reverse_direction)
            -> wire_learning_mode_update s = (ESP_OK, snd (h s))).
  { intros h Hf Hr. unfold wire_learning_mode_update, wire_learning_mode_is_active. mcbv.
    rewrite Hi. cbv [negb]. mcbv.
    match goal with
    | |- context [if ?a && ?b then _ else _] =>
        replace b with false by (symmetry; unfold_projections; exact Ht)
    end.
    rewrite andb_false_r.
    destruct Hs as [Hs | Hs]; rewrite Hs; mcbv;
      [rewrite <- (Hf Hs) | rewrite <- (Hr Hs)]; reflexivity. }
  split.
  - intros Hv.
    rewrite (U (if match Wl.state (Wl.g_learning_progress (wl s)) with
                   | WIRE_LEARNING_FORWARD_DIRECTION => true | _ => false end
                then handle_forward_direction else handle_reverse_direction)).
    + destruct Hs as [Hs | Hs]; rewrite Hs;
        [unfold handle_forward_direction | unfold handle_reverse_direction];
        mcbv; rewrite Hv; reflexivity.
    + intros E; rewrite E; reflexivity.
    + intros E; rewrite E; reflexivity.
  - intros Hv Hg Hp.
    pose proof (F32_ge_1_ne_0 _ Hg) as Hz.
    apply Z.leb_le in Hp.
    destruct (validate_current_speed_spec s) as [He Hx]. rewrite Hp in He, Hx.
    unfold eval in He. unfold exec in Hx.
    rewrite (U (if match Wl.state (Wl.g_learning_progress (wl s)) with
                   | WIRE_LEARNING_FORWARD_DIRECTION => true | _ => false end
                then handle_forward_direction else handle_reverse_direction)).
    + destruct Hs as [Hs | Hs]; rewrite Hs;
        [unfold handle_forward_direction | unfold handle_reverse_direction];
        cbv beta iota zeta delta [bind gets ret]; cbn [fst snd]; rewrite Hv, Hz;
        cbv beta iota zeta delta [negb andb];
        cbv beta iota zeta delta [bind gets ret]; cbn [fst snd]; rewrite He, Hx;
        unfold progress_to_next_speed; cbv beta iota zeta delta [bind gets ret]; cbn [fst snd];
        cbn [wl set_wl Wl.g_current_test_speed Wl.set_g_speed_validated];
        unfold_projections; rewrite Hg; reflexivity.
    + intros E; rewrite E; reflexivity.
    + intros E; rewrite E; reflexivity.
Qed.

Lemma validated_speed_ends_wire_end_detection_witness :
  Wl.g_speed_validated (wl at_top_speed) = true
  /\ test_speed at_top_speed = WIRE_LEARNING_MAX_SPEED_MS
  /\ Wl.state (wl_progress at_top_speed) = WIRE_LEARNING_FORWARD_DIRECTION
  /\ wire_learning_mode_update at_top_speed = (ESP_OK, at_top_speed).
Proof.
  assert (H1 : Wl.g_learning_initialized (wl at_top_speed) = true) by (vm_compute; reflexivity).
  assert (H2 : Wl.state (wl_progress at_top_speed) = WIRE_LEARNING_FORWARD_DIRECTION)
    by (vm_compute; reflexivity).
  assert (H3 : wrap64 (clock at_top_speed - Wl.learning_start_time (wl_progress at_top_speed))
               <= WIRE_LEARNING_TIMEOUT_S * 1000000) by (vm_compute; discriminate).
  assert (H4 : Wl.g_speed_validated (wl at_top_speed) = true) by (vm_compute; reflexivity).
  split; [exact H4|]. split; [vm_compute; reflexivity|]. split; [exact H2|].
  exact (proj1 (validated_speed_ends_wire_end_detection at_top_speed H1 (or_introl H2) H3) H4).
Defined.

Lemma hardware_esc_arm_initialized (s : system) :
  Hw.system_initialized (Hw.g_hw_status (hw s)) = true ->
  fst (hardware_esc_arm s) = ESP_OK
  /\ Hw.esc_armed (Hw.g_hw_status (hw (snd (hardware_esc_arm s)))) = true.
Proof. intros H. unfold hardware_esc_arm. mcbv. rewrite H. split; reflexivity. Qed.

(** X7. [wire_learning_mode_start] succeeds exactly when the engine is
    initialised, the coordinator has validated the sensors, the hardware is
    initialised with a healthy Hall sensor and the sensor unit reports
    ready.  Otherwise it answers with the invalid-state code and changes
    nothing.  On success the engine is in the forward direction, active,
    with the ESC armed, the rotation count at 0, the test speed at 0 and not
    validated, so that the next update commands the start speed. *)
Theorem wire_learning_mode_start_result (s : system) :
  (eval wire_learning_mode_start s = ESP_OK <-> wire_learning_can_start s = true)
  /\ (wire_learning_can_start s = false ->
      wire_learning_mode_start s = (ESP_ERR_INVALID_STATE, s))
  /\ (wire_learning_can_start s = true ->
      Wl.state (wl_progress (exec wire_learning_mode_start s))
      = WIRE_LEARNING_FORWARD_DIRECTION
      /\ Wl.current_direction_forward (wl_progress (exec wire_learning_mode_start s)) = true
      /\ eval wire_learning_mode_is_active (exec wire_learning_mode_start s) = true
      /\ Hw.esc_armed (hw_status_of (exec wire_learning_mode_start s)) = true
      /\ eval hardware_get_rotation_count (exec wire_learning_mode_start s) = 0
      /\ test_speed (exec wire_learning_mode_start s) = F32.zero
      /\ Wl.g_speed_validated (wl (exec wire_learning_mode_start s)) = false).
Proof.
  unfold wire_learning_can_start, sensors_validated, hw_status_of, wl_progress, test_speed.
  unfold wire_learning_mode_start, wire_learning_validate_prerequisites,
    mode_coordinator_are_sensors_validated, hardware_get_status, wire_learning_mode_is_active,
    hardware_get_rotation_count, hardware_esc_is_armed, hardware_esc_arm.
  open_records. cbn.
  repeat (case_atom; cbn);
    repeat split; intros; try reflexivity; try congruence;
    try (unfold wrap32; rewrite Z.sub_diag; reflexivity).
Qed.

Lemma wire_learning_mode_start_result_witness :
  wire_learning_can_start (run bring_up boot) = true
  /\ eval wire_learning_mode_is_active (exec wire_learning_mode_start (run bring_up boot)) = true
  /\ wire_learning_can_start boot = false
  /\ wire_learning_mode_start boot = (ESP_ERR_INVALID_STATE, boot).
Proof.
  assert (H1 : wire_learning_can_start (run bring_up boot) = true) by (vm_compute; reflexivity).
  assert (H2 : wire_learning_can_start boot = false) by reflexivity.
  destruct (wire_learning_mode_start_result (run bring_up boot)) as [_ [_ Hs]].
  destruct (wire_learning_mode_start_result boot) as [_ [Hf _]].
  split; [exact H1|]. split; [exact (proj1 (proj2 (proj2 (Hs H1))))|].
  split; [exact H2 | exact (Hf H2)].
Defined.

(** X9. [wire_learning_mode_stop] stops the motor at once whether asked to
    stop immediately or gracefully, and in both cases the engine no longer
    reports active; the two differ in the state only, Idle or Stopping, and
    from neither does [wire_learning_mode_update] move the engine on: a
    graceful stop leaves it in Stopping. *)
Theorem wire_learning_mode_stop_result (s : system) (immediate : bool) :
  at_neutral (hw (exec (wire_learning_mode_stop immediate) s))
  /\ Wl.state (wl_progress (exec (wire_learning_mode_stop immediate) s))
     = (if immediate then WIRE_LEARNING_IDLE else WIRE_LEARNING_STOPPING)
  /\ eval wire_learning_mode_is_active (exec (wire_learning_mode_stop immediate) s) = false
  /\ Wl.g_coasting_calibration_active (wl (exec (wire_learning_mode_stop immediate) s)) = false
  /\ exec wire_learning_mode_update (exec (wire_learning_mode_stop immediate) s)
     = exec (wire_learning_mode_stop immediate) s.
Proof.
  unfold wl_progress, wire_learning_mode_stop, wire_learning_mode_update,
    wire_learning_mode_is_active, hardware_emergency_stop, at_neutral.
  open_records. destruct immediate; cbn; repeat (case_atom; cbn); repeat split.
Qed.

(* ================================================================== *)
(** * Wire learning: the ring buffer of measured speeds *)
(* ================================================================== *)

Lemma array_set_length {A : Type} (l : list A) (i : nat) (v : A) :
  List.length (array_set l i v) = List.length l.
Proof.
  revert i. induction l as [|h t IH]; intros i; [reflexivity|].
  destruct i; cbn; [reflexivity | f_equal; apply IH].
Qed.

Ltac history_leaf :=
  unfold on_wl, speed_history_inv; cbn -[Z.modulo]; intros;
  first
    [ assumption
    | match goal with H : _ /\ _ |- _ => destruct H end;
      split;
      [ first [assumption | apply Z.mod_pos_bound; lia | lia]
      | first [assumption | rewrite array_set_length; assumption | reflexivity] ] ].

Lemma coast_wait_history (n : nat) (t0 : Z) :
  preserves (on_wl speed_history_inv) (coast_wait n t0).
Proof. apply coast_wait_frame_wl. Qed.

Lemma perform_history (c : call) : preserves (on_wl speed_history_inv) (perform c).
Proof. destruct c; cbn [perform]; pres history_leaf. Qed.

(** X8. In every run of the firmware the index of the speed history of
    [wire_learning_detect_speed_drop] lies in 0..4 and the history has its
    five entries: the detector never writes outside its array. *)
Theorem speed_history_in_bounds (t : list call) :
  0 <= Wl.g_speed_history_index (wl (run t boot)) < 5
  /\ List.length (Wl.g_speed_history (wl (run t boot))) = 5%nat.
Proof.
  apply (preserves_run (on_wl speed_history_inv) perform_history t boot).
  split; [cbn; lia | reflexivity].
Qed.
(* ================================================================== *)
(** * The automatic mode: the states it reaches *)
(* ================================================================== *)

Ltac possible_leaf :=
  unfold on_am, automatic_possible; cbn; intros; first [assumption | reflexivity].

Lemma automatic_mode_start_possible : preserves (on_am automatic_possible) automatic_mode_start.
Proof.
  intros s. unfold on_am, automatic_possible, exec, automatic_mode_start,
    automatic_mode_validate_prerequisites, mode_coordinator_are_sensors_validated,
    mode_coordinator_get_wire_learning_results, automatic_mode_auto_arm_esc,
    hardware_esc_is_armed, hardware_esc_arm.
  open_records. cbn. intros H.
  repeat (case_atom; cbn); first [exact H | reflexivity].
Qed.

Lemma automatic_mode_update_possible : preserves (on_am automatic_possible) automatic_mode_update.
Proof.
  intros s. unfold on_am, automatic_possible, exec, automatic_mode_update,
    automatic_mode_update_coasting_calibration, hardware_get_current_speed,
    hardware_get_rotation_count, mode_coordinator_set_coasting_data, save_persistent_data,
    hardware_set_motor_speed, hardware_rotations_to_distance.
  open_records. cbn. intros H.
  match goal with st : automatic_mode_state_t |- _ => destruct st end;
    try discriminate H; cbn; repeat (case_atom; cbn); reflexivity.
Qed.

#[local] Hint Resolve automatic_mode_start_possible automatic_mode_update_possible : pres.

Lemma decelerate_steps_possible (n : nat) (i : Z) (v w : f32) :
  preserves (on_am automatic_possible) (decelerate_steps n i v w).
Proof.
  revert i. induction n as [|n IH]; intros i; cbn [decelerate_steps]; pres possible_leaf.
Qed.
#[local] Hint Resolve decelerate_steps_possible : pres.

Lemma perform_possible (c : call) : preserves (on_am automatic_possible) (perform c).
Proof. destruct c; cbn [perform]; pres possible_leaf. Qed.

(** X10. In every run of the firmware the automatic engine is, between two
    calls, in one of the states Idle, Arming-ESC, Coasting-calibration,
    Stopping-interrupted and Error: no entry point brings it to
    Accelerating, Cruising, Coasting, Wire-end approach, Direction change,
    Cycle complete, Stopping gracefully or Complete. *)
Theorem automatic_states_reached (t : list call) :
  automatic_state_possible (automatic_state (run t boot)) = true.
Proof.
  apply (preserves_run (on_am automatic_possible) perform_possible t boot). reflexivity.
Qed.
(* ================================================================== *)
(** * The manual mode *)
(* ================================================================== *)



(** X13. [manual_mode_disarm_esc] is not guarded by the state of the
    engine: called in any state, also Idle, Emergency stop or Error, it
    returns [ESP_OK], disarms the ESC with the hardware at neutral, clears
    the motor flags and the target of the manual status, and leaves the
    engine in Ready, which [manual_mode_is_active] reports as active. *)
Theorem manual_mode_disarm_esc_result (s : system) :
  let s' := exec manual_mode_disarm_esc s in
  eval manual_mode_disarm_esc s = ESP_OK
  /\ Mm.state (manual_status s') = MANUAL_MODE_READY
  /\ Mm.esc_armed (manual_status s') = false
  /\ Mm.motor_active (manual_status s') = false
  /\ Mm.target_speed_ms (manual_status s') = F32.zero
  /\ Hw.esc_armed (hw_status_of s') = false
  /\ at_neutral (hw s')
  /\ eval manual_mode_is_active s' = true.
Proof.
  unfold eval, exec, manual_status, hw_status_of, at_neutral, manual_mode_disarm_esc,
    manual_mode_stop_movement, manual_mode_set_speed, manual_mode_is_active,
    manual_mode_is_speed_safe, hardware_set_motor_speed, hardware_esc_disarm.
  open_records. cbn. repeat (case_atom; cbn); repeat split.
Qed.

(** X14. An initialised manual engine that is not Idle is stopped by its
    own update when the coordinator reports motion unsafe or the
    accelerometer reads more than 0.8 g: [manual_mode_update] returns
    [ESP_ERR_INVALID_STATE], the engine is in Emergency stop with target
    zero and the motor flag cleared, the hardware target and duty are at
    neutral, and the engine is no longer active. *)
Theorem manual_mode_update_unsafe (s : system) :
  Mm.g_manual_initialized (mm s) = true ->
  Mm.state (manual_status s) <> MANUAL_MODE_IDLE ->
  eval mode_coordinator_is_motion_safe s = false
  \/ F32.gt (Sh.total_accel_g (sh s)) MANUAL_MODE_MAX_IMPACT_G = true ->
  eval manual_mode_update s = ESP_ERR_INVALID_STATE
  /\ manual_halted (exec manual_mode_update s)
  /\ eval manual_mode_is_active (exec manual_mode_update s) = false.
Proof.
  unfold eval, exec, manual_status, manual_halted, at_neutral, manual_mode_update,
    manual_mode_is_operation_safe, mode_coordinator_is_motion_safe,
    manual_mode_monitor_sensor_health, manual_mode_check_impact_detection,
    manual_mode_monitor_hall_sensor, manual_mode_is_esc_responding,
    manual_mode_emergency_stop, hardware_emergency_stop, hardware_get_status,
    hardware_get_current_speed, hardware_esc_is_armed, manual_mode_is_active,
    mode_coordinator_are_sensors_validated, hardware_get_time_since_last_hall_pulse.
  open_records. cbn. intros Hi Hs Hu. rewrite Hi.
  match goal with
  | st : manual_mode_state_t |- _ =>
      assert (E : match st with MANUAL_MODE_IDLE => true | _ => false end = false)
        by (destruct st; first [reflexivity | exfalso; apply Hs; reflexivity])
  end.
  cbn. rewrite E. cbn. clear E Hs Hi.
  destruct Hu as [Hu | Hu];
    repeat (case_atom; cbn); try (cbn in Hu; congruence); repeat split.
Qed.

Lemma manual_mode_update_unsafe_witness :
  Mm.g_manual_initialized (mm (run [Sensors (Sh.set_total_accel_g (F32.lit 5 4) sensors_ready)]
                                 manual_moving)) = true
  /\ eval manual_mode_update
       (run [Sensors (Sh.set_total_accel_g (F32.lit 5 4) sensors_ready)] manual_moving)
     = ESP_ERR_INVALID_STATE.
Proof.
  assert (A : Mm.g_manual_initialized
                (mm (run [Sensors (Sh.set_total_accel_g (F32.lit 5 4) sensors_ready)]
                       manual_moving)) = true) by (vm_compute; reflexivity).
  split; [exact A|].
  apply (manual_mode_update_unsafe
           (run [Sensors (Sh.set_total_accel_g (F32.lit 5 4) sensors_ready)] manual_moving) A).
  - vm_compute. discriminate.
  - right. vm_compute. reflexivity.
Defined.

(** X15. [manual_mode_set_speed] succeeds exactly when the engine is
    active, the speed passes [manual_mode_is_speed_safe], the manual status
    shows the ESC armed or the speed is not above zero, and the hardware
    accepts the command.  A command that fails one of the engine's own checks
    changes nothing.  One that passes them is written to the manual status
    (target, direction, motor flag) before the hardware is asked, and the
    result is that of [hardware_set_motor_speed]: when the hardware refuses,
    the manual status keeps the new target while the state of the engine and
    the hardware status stay as they were; when it accepts, the engine is
    Moving forward, Moving backward or (at 0.05 m/s or less) Active. *)
Theorem manual_mode_set_speed_result (s : system) (v : f32) (d : bool) :
  let r := eval (manual_mode_set_speed v d) s in
  let s' := exec (manual_mode_set_speed v d) s in
  (r = ESP_OK <-> manual_speed_allowed s v && speed_command_accepted s v = true)
  /\ (manual_speed_allowed s v = false -> s' = s)
  /\ (manual_speed_allowed s v = true ->
      Mm.target_speed_ms (manual_status s') = v
      /\ Mm.direction_forward (manual_status s') = d
      /\ Mm.motor_active (manual_status s') = F32.gt v MANUAL_MODE_MIN_SPEED_MS
      /\ r = eval (hardware_set_motor_speed v d) s)
  /\ (r = ESP_OK ->
      Mm.state (manual_status s') = manual_state_for v d
      /\ hw_target s' = v
      /\ Hw.direction_forward (hw_status_of s') = d)
  /\ (r <> ESP_OK ->
      Mm.state (manual_status s') = Mm.state (manual_status s)
      /\ hw_status_of s' = hw_status_of s).
Proof.
  unfold manual_speed_allowed, speed_command_accepted, manual_state_for, hw_target,
    hw_status_of, manual_status, eval, exec, manual_mode_set_speed, manual_mode_is_active,
    manual_mode_is_speed_safe, hardware_set_motor_speed.
  open_records. cbn.
  repeat (case_atom; cbn); repeat split; intros; try reflexivity; try congruence.
Qed.

Lemma manual_mode_set_speed_result_witness :
  manual_speed_allowed manual_moving F32.c1_0 = true
  /\ Mm.target_speed_ms (manual_status (exec (manual_mode_set_speed F32.c1_0 false) manual_moving))
     = F32.c1_0
  /\ manual_speed_allowed boot F32.c1_0 = false
  /\ exec (manual_mode_set_speed F32.c1_0 false) boot = boot
  /\ eval (manual_mode_set_speed F32.c1_0 false) manual_moving = ESP_OK
  /\ hw_target (exec (manual_mode_set_speed F32.c1_0 false) manual_moving) = F32.c1_0
  /\ eval (manual_mode_set_speed F32.c1_0 false) (exec hardware_esc_disarm manual_moving)
     <> ESP_OK
  /\ hw_status_of (exec (manual_mode_set_speed F32.c1_0 false)
                     (exec hardware_esc_disarm manual_moving))
     = hw_status_of (exec hardware_esc_disarm manual_moving).
Proof.
  assert (A : manual_speed_allowed manual_moving F32.c1_0 = true) by (vm_compute; reflexivity).
  assert (B : manual_speed_allowed boot F32.c1_0 = false) by (vm_compute; reflexivity).
  assert (C : eval (manual_mode_set_speed F32.c1_0 false) manual_moving = ESP_OK)
    by (vm_compute; reflexivity).
  assert (D : eval (manual_mode_set_speed F32.c1_0 false)
                (exec hardware_esc_disarm manual_moving) <> ESP_OK)
    by (vm_compute; discriminate).
  destruct (manual_mode_set_speed_result manual_moving F32.c1_0 false)
    as (_ & _ & H3 & H4 & _).
  destruct (manual_mode_set_speed_result boot F32.c1_0 false) as (_ & H2 & _).
  destruct (manual_mode_set_speed_result (exec hardware_esc_disarm manual_moving)
              F32.c1_0 false) as (_ & _ & _ & _ & H5).
  split; [exact A|]. split; [exact (proj1 (H3 A))|].
  split; [exact B|]. split; [exact (H2 B)|].
  split; [exact C|]. split; [exact (proj1 (proj2 (H4 C)))|].
  split; [exact D|]. exact (proj2 (H5 D)).
Defined.

Lemma F32_gt_min_gt_0 (x : f32) :
  F32.gt x MANUAL_MODE_MIN_SPEED_MS = true -> F32.gt x F32.zero = true.
Proof. unfold MANUAL_MODE_MIN_SPEED_MS. f32_const_cmp x. Qed.

Lemma manual_target_inv_boot : manual_target_inv mm_boot.
Proof. repeat split; try reflexivity. cbn. discriminate. Qed.

Ltac manual_leaf :=
  unfold on_mm, manual_target_inv; cbn; intros;
  repeat match goal with H : _ /\ _ |- _ => destruct H end;
  first [ repeat split; solve [assumption | reflexivity | discriminate | auto]
        | repeat split; first [assumption | reflexivity | discriminate | auto] ].

Lemma manual_mode_set_speed_inv (v : f32) (d : bool) :
  preserves (on_mm manual_target_inv) (manual_mode_set_speed v d).
Proof.
  intros s. unfold on_mm, manual_target_inv, exec, manual_mode_set_speed,
    manual_mode_is_active, manual_mode_is_speed_safe, hardware_set_motor_speed.
  open_records. cbn. intros [H1 [H2 [H3 H4]]].
  repeat (case_atom; cbn); repeat split; intros; try assumption; try reflexivity;
    try (apply H4; assumption); try (symmetry; assumption);
    try match goal with
      | H : F32.gt ?v MANUAL_MODE_MIN_SPEED_MS = true |- _ =>
          pose proof (F32_gt_min_gt_0 _ H)
      end; try congruence.
Qed.
#[local] Hint Resolve manual_mode_set_speed_inv : pres.

Lemma manual_mode_arm_esc_inv : preserves (on_mm manual_target_inv) manual_mode_arm_esc.
Proof.
  intros s. unfold on_mm, manual_target_inv, exec, manual_mode_arm_esc,
    manual_mode_is_active, hardware_esc_arm.
  open_records. cbn. intros [H1 [H2 [H3 H4]]].
  repeat (case_atom; cbn); repeat split; intros; try assumption; try reflexivity;
    try (apply H4; assumption); try (symmetry; assumption).
Qed.
#[local] Hint Resolve manual_mode_arm_esc_inv : pres.

Lemma perform_manual_target_inv (c : call) :
  preserves (on_mm manual_target_inv) (perform c).
Proof. destruct c; cbn [perform]; pres manual_leaf. Qed.

(** X11. In every run of the firmware the target speed of the manual
    status is neither below zero nor above 2.0 m/s, the motor flag says
    whether the target is above 0.05 m/s, and the motor flag is only set
    while the manual status shows the ESC armed. *)
Theorem manual_target_stays_in_range (t : list call) :
  manual_target_inv (mm (run t boot)).
Proof.
  apply (preserves_run (on_mm manual_target_inv) perform_manual_target_inv t boot).
  exact manual_target_inv_boot.
Qed.
(* ================================================================== *)
(** * The coordinator: stored results *)
(* ================================================================== *)

Lemma mode_coordinator_emergency_stop_frame_mc_data (P : Mc.globals -> Prop) :
  (forall g f, P g -> P (Mc.set_g_mode_status f g)) ->
  preserves (on_mc P) mode_coordinator_emergency_stop.
Proof.
  intros HP. unfold mode_coordinator_emergency_stop.
  pres ltac:(unfold on_mc; cbn; intros; first [assumption | apply HP; assumption]).
Qed.

Lemma mode_coordinator_emergency_stop_nvs (s : system) :
  Mc.nvs_wire_learning (mc (exec mode_coordinator_emergency_stop s))
  = Mc.nvs_wire_learning (mc s).
Proof.
  apply (mode_coordinator_emergency_stop_frame_mc_data
           (fun g => Mc.nvs_wire_learning g = Mc.nvs_wire_learning (mc s))).
  - intros g f H. exact H.
  - reflexivity.
Qed.

Lemma mode_coordinator_reset_system_data (s : system) :
  Mc.g_wire_learning_data (mc (exec mode_coordinator_reset_system s)) = wl_results_zero
  /\ Mc.nvs_wire_learning (mc (exec mode_coordinator_reset_system s))
     = Mc.nvs_wire_learning (mc s).
Proof.
  rewrite <- (mode_coordinator_emergency_stop_nvs s).
  unfold mode_coordinator_reset_system, mode_coordinator_reset_sensor_validation,
    sensor_health_reset_validation, hardware_reset_position, hardware_reset_rotation_count.
  mcbv. cbn. split; reflexivity.
Qed.

Lemma mode_coordinator_init_loads (s : system) (r : Wl.wire_learning_results_t) :
  Mc.nvs_wire_learning (mc s) = Some r ->
  Mc.g_wire_learning_data (mc (exec mode_coordinator_init s)) = r.
Proof.
  unfold exec, mode_coordinator_init, load_persistent_data. open_records. cbn.
  intros ->. cbn.
  match goal with x : option Mc.coasting_data_t |- _ => destruct x end; reflexivity.
Qed.

(** X16. A complete wire-learning result given to the coordinator is
    written to NVS and outlives [mode_coordinator_reset_system]: the reset
    clears the copy in memory, so that no result is reported, and leaves the
    NVS blob alone, so that the next [mode_coordinator_init], with or without
    a power cycle in between, reports the same result again. *)
Theorem stored_results_survive_reset (s : system) (r : Wl.wire_learning_results_t) :
  Wl.complete r = true ->
  let s1 := exec (mode_coordinator_set_wire_learning_results r) s in
  let s2 := exec mode_coordinator_reset_system s1 in
  eval mode_coordinator_get_wire_learning_results s1 = Some r
  /\ eval mode_coordinator_get_wire_learning_results s2 = None
  /\ eval mode_coordinator_get_wire_learning_results
       (exec mode_coordinator_init s2) = Some r
  /\ eval mode_coordinator_get_wire_learning_results
       (exec mode_coordinator_init (power_cycle s2)) = Some r.
Proof.
  intros Hr s1 s2.
  assert (N1 : Mc.nvs_wire_learning (mc s1) = Some r
               /\ Mc.g_wire_learning_data (mc s1) = r).
  { unfold s1, exec, mode_coordinator_set_wire_learning_results, save_persistent_data.
    open_records. cbn in *. rewrite Hr. cbn. split; case_atom; reflexivity. }
  destruct N1 as [N1 D1].
  destruct (mode_coordinator_reset_system_data s1) as [D2 N2]. fold s2 in D2, N2.
  rewrite N1 in N2.
  assert (G : forall x, Mc.g_wire_learning_data (mc x) = r ->
                        eval mode_coordinator_get_wire_learning_results x = Some r).
  { intros x Hx. unfold eval, mode_coordinator_get_wire_learning_results, gets.
    clear - Hx Hr. open_records. cbn in *. injection Hx; intros; subst; reflexivity. }
  split; [apply G, D1|]. split.
  { unfold eval, mode_coordinator_get_wire_learning_results, gets.
    clearbody s2. clear - D2. open_records. cbn in *. unfold wl_results_zero in D2.
    injection D2; intros; subst; reflexivity. }
  split.
  - apply G, mode_coordinator_init_loads, N2.
  - apply G, mode_coordinator_init_loads. unfold power_cycle. cbn. exact N2.
Qed.

Lemma stored_results_survive_reset_witness :
  Wl.complete stored_result = true
  /\ eval mode_coordinator_get_wire_learning_results
       (exec mode_coordinator_init
          (power_cycle
             (exec mode_coordinator_reset_system
                (exec (mode_coordinator_set_wire_learning_results stored_result) boot))))
     = Some stored_result.
Proof.
  assert (A : Wl.complete stored_result = true) by reflexivity.
  split; [exact A|].
  exact (proj2 (proj2 (proj2 (stored_results_survive_reset boot stored_result A)))).
Defined.

Lemma save_persistent_data_nvs_inv : preserves (on_mc nvs_inv) save_persistent_data.
Proof.
  intros s. unfold on_mc, nvs_inv, exec, save_persistent_data. open_records. cbn.
  intros [H1 H2]. repeat (case_atom; cbn); split; intros ? E;
    first [ apply H1; exact E | apply H2; exact E
          | cbn in *; injection E; intros; subst; cbn; first [reflexivity | assumption] ].
Qed.
#[local] Hint Resolve save_persistent_data_nvs_inv : pres.

Lemma load_persistent_data_nvs_inv : preserves (on_mc nvs_inv) load_persistent_data.
Proof.
  intros s. unfold on_mc, nvs_inv, exec, load_persistent_data. open_records. cbn.
  intros H.
  repeat match goal with x : option _ |- _ => destruct x end; exact H.
Qed.
#[local] Hint Resolve load_persistent_data_nvs_inv : pres.

Lemma coast_wait_frame_mc (P : Mc.globals -> Prop) (n : nat) (t0 : Z) :
  preserves (on_mc P) (coast_wait n t0).
Proof. induction n as [|n IH]; cbn [coast_wait]; pres frame_leaf. Qed.

Lemma decelerate_steps_frame_mc (P : Mc.globals -> Prop) (n : nat) (i : Z) (v w : f32) :
  preserves (on_mc P) (decelerate_steps n i v w).
Proof.
  revert i. induction n as [|n IH]; intros i; cbn [decelerate_steps]; pres frame_leaf.
Qed.
#[local] Hint Resolve coast_wait_frame_mc decelerate_steps_frame_mc : pres.

Lemma perform_nvs_inv (c : call) : preserves (on_mc nvs_inv) (perform c).
Proof.
  destruct c; cbn [perform];
    pres ltac:(unfold on_mc, nvs_inv; cbn; intros; assumption).
Qed.

(** X17. No call of the firmware writes an incomplete wire-learning
    result or uncalibrated coasting data to NVS: if the two blobs are absent
    or complete and calibrated before a run, they are so after it. *)
Theorem nvs_holds_finished_results (t : list call) (s : system) :
  nvs_inv (mc s) -> nvs_inv (mc (run t s)).
Proof. exact (preserves_run (on_mc nvs_inv) perform_nvs_inv t s). Qed.

Lemma nvs_holds_finished_results_witness :
  nvs_inv (mc boot_with_result)
  /\ nvs_inv (mc (run (bring_up ++ [McActivateAutomatic; McResetSystem]) boot_with_result)).
Proof.
  assert (A : nvs_inv (mc boot_with_result)).
  { split; intros x E; [injection E as <-; reflexivity | discriminate E]. }
  split; [exact A|].
  exact (nvs_holds_finished_results (bring_up ++ [McActivateAutomatic; McResetSystem])
           boot_with_result A).
Defined.

(* ================================================================== *)
(** * The coordinator: activation and the validation of the sensors *)
(* ================================================================== *)

Lemma mode_coordinator_stop_current_mode_validated (b : bool) (i : bool) :
  preserves (on_mc (fun g => Mc.sensors_validated (Mc.g_mode_status g) = b))
    (mode_coordinator_stop_current_mode i).
Proof. unfold mode_coordinator_stop_current_mode. pres frame_leaf. Qed.

Lemma wire_learning_mode_start_not_validated (s : system) :
  sensors_validated s = false ->
  wire_learning_mode_start s = (ESP_ERR_INVALID_STATE, s).
Proof.
  unfold sensors_validated, wire_learning_mode_start, wire_learning_validate_prerequisites,
    mode_coordinator_are_sensors_validated.
  open_records. cbn. intros ->. case_atom; reflexivity.
Qed.

Lemma automatic_mode_start_not_validated (s : system) :
  sensors_validated s = false ->
  automatic_mode_start s = (ESP_ERR_INVALID_STATE, s).
Proof.
  unfold sensors_validated, automatic_mode_start, automatic_mode_validate_prerequisites,
    mode_coordinator_are_sensors_validated.
  open_records. cbn. intros ->. case_atom; reflexivity.
Qed.

Lemma manual_mode_start_not_validated (s : system) :
  sensors_validated s = false ->
  manual_mode_start s = (ESP_ERR_INVALID_STATE, s).
Proof.
  unfold sensors_validated, manual_mode_start, mode_coordinator_are_sensors_validated.
  open_records. cbn. intros ->. case_atom; reflexivity.
Qed.

(** X18. While the sensors are not validated, none of the three
    activation calls of the coordinator starts an engine: each returns
    [ESP_ERR_INVALID_STATE], also when the recorded availability is stale and
    still says Available; in that case the current mode has been stopped
    before the engine refused to start, otherwise nothing has changed. *)
Theorem activation_needs_validated_sensors (s : system) :
  sensors_validated s = false ->
  let stopped := exec (mode_coordinator_stop_current_mode true) s in
  (mode_coordinator_activate_wire_learning s = (ESP_ERR_INVALID_STATE, s)
   \/ mode_coordinator_activate_wire_learning s = (ESP_ERR_INVALID_STATE, stopped))
  /\ (mode_coordinator_activate_automatic s = (ESP_ERR_INVALID_STATE, s)
      \/ mode_coordinator_activate_automatic s = (ESP_ERR_INVALID_STATE, stopped))
  /\ (mode_coordinator_activate_manual s = (ESP_ERR_INVALID_STATE, s)
      \/ mode_coordinator_activate_manual s = (ESP_ERR_INVALID_STATE, stopped)).
Proof.
  intros H stopped.
  assert (Hs : sensors_validated stopped = false).
  { exact (mode_coordinator_stop_current_mode_validated false true s H). }
  unfold mode_coordinator_activate_wire_learning, mode_coordinator_activate_automatic,
    mode_coordinator_activate_manual.
  subst stopped. unfold mode_coordinator_is_mode_available, exec in *. mcbv.
  repeat split; case_if; first [left; reflexivity | right]; mcbv;
    destruct (mode_coordinator_stop_current_mode true s) as [u s1]; cbn [fst snd] in Hs.
  - rewrite (wire_learning_mode_start_not_validated s1 Hs). reflexivity.
  - rewrite (automatic_mode_start_not_validated s1 Hs). reflexivity.
  - rewrite (manual_mode_start_not_validated s1 Hs). reflexivity.
Qed.

Lemma activation_needs_validated_sensors_witness :
  sensors_validated (run (bring_up ++ [McResetValidation]) boot) = false
  /\ (mode_coordinator_activate_manual (run (bring_up ++ [McResetValidation]) boot)
      = (ESP_ERR_INVALID_STATE, run (bring_up ++ [McResetValidation]) boot)
      \/ mode_coordinator_activate_manual (run (bring_up ++ [McResetValidation]) boot)
         = (ESP_ERR_INVALID_STATE,
            exec (mode_coordinator_stop_current_mode true)
              (run (bring_up ++ [McResetValidation]) boot))).
Proof.
  assert (A : sensors_validated (run (bring_up ++ [McResetValidation]) boot) = false)
    by (vm_compute; reflexivity).
  split; [exact A|].
  exact (proj2 (proj2 (activation_needs_validated_sensors
                         (run (bring_up ++ [McResetValidation]) boot) A))).
Defined.

Lemma validation_inv_boot : validation_inv mc_boot.
Proof. repeat split; cbn in *; discriminate. Qed.

Ltac validation_leaf :=
  unfold on_mc, validation_inv; cbn; intros;
  first [ assumption | intuition congruence ].

Lemma update_sensor_validation_state_inv :
  preserves (on_mc validation_inv) update_sensor_validation_state.
Proof.
  intros s. unfold on_mc, validation_inv, exec, update_sensor_validation_state.
  open_records. cbn. intros (H1 & H2 & H3).
  match goal with st : sensor_validation_state_t |- _ => destruct st end; cbn in *;
    repeat (case_atom; cbn in * ); intuition congruence.
Qed.
#[local] Hint Resolve update_sensor_validation_state_inv : pres.

Lemma save_persistent_data_validation_inv :
  preserves (on_mc validation_inv) save_persistent_data.
Proof.
  intros s. unfold on_mc, validation_inv, exec, save_persistent_data. open_records. cbn.
  intros H. repeat (case_atom; cbn); exact H.
Qed.

Lemma load_persistent_data_validation_inv :
  preserves (on_mc validation_inv) load_persistent_data.
Proof.
  intros s. unfold on_mc, validation_inv, exec, load_persistent_data. open_records. cbn.
  intros H. repeat match goal with x : option _ |- _ => destruct x end; exact H.
Qed.

Lemma mode_coordinator_start_sensor_validation_inv :
  preserves (on_mc validation_inv) mode_coordinator_start_sensor_validation.
Proof.
  intros s. unfold on_mc, validation_inv, exec, mode_coordinator_start_sensor_validation.
  open_records. cbn. intros _. intuition congruence.
Qed.

Lemma mode_coordinator_reset_sensor_validation_inv :
  preserves (on_mc validation_inv) mode_coordinator_reset_sensor_validation.
Proof.
  intros s. unfold on_mc, validation_inv, exec, mode_coordinator_reset_sensor_validation,
    sensor_health_reset_validation.
  open_records. cbn. intros _. intuition congruence.
Qed.
#[local] Hint Resolve save_persistent_data_validation_inv
  load_persistent_data_validation_inv mode_coordinator_start_sensor_validation_inv
  mode_coordinator_reset_sensor_validation_inv : pres.

Lemma perform_validation_inv (c : call) : preserves (on_mc validation_inv) (perform c).
Proof. destruct c; cbn [perform]; pres validation_leaf. Qed.

(** X19. In every run of the firmware, whenever the coordinator reports
    the sensors validated, the validation is in the state Complete and both
    user confirmations, of the Hall sensor and of the accelerometer, have
    been recorded together with their completion flags. *)
Theorem validated_sensors_were_confirmed (t : list call) :
  sensors_validated (run t boot) = true ->
  validation_state (run t boot) = SENSOR_VALIDATION_COMPLETE
  /\ Mc.g_hall_validation_user_confirmed (mc (run t boot)) = true
  /\ Mc.g_accel_validation_user_confirmed (mc (run t boot)) = true
  /\ Mc.hall_validation_complete (Mc.g_mode_status (mc (run t boot))) = true
  /\ Mc.accel_validation_complete (Mc.g_mode_status (mc (run t boot))) = true.
Proof.
  intros H.
  destruct (preserves_run (on_mc validation_inv) perform_validation_inv t boot
              validation_inv_boot) as (H1 & H2 & _).
  split; [exact (H1 H)|]. exact (H2 (H1 H)).
Qed.

Lemma validated_sensors_were_confirmed_witness :
  sensors_validated (run bring_up boot) = true
  /\ validation_state (run bring_up boot) = SENSOR_VALIDATION_COMPLETE.
Proof.
  assert (A : sensors_validated (run bring_up boot) = true) by (vm_compute; reflexivity).
  split; [exact A|]. exact (proj1 (validated_sensors_were_confirmed bring_up A)).
Defined.
(* ================================================================== *)
(** * The coordinator: reported errors *)
(* ================================================================== *)

(** The bookkeeping of [mode_coordinator_report_error] before the threshold
    is looked at. *)
Lemma mode_coordinator_report_error_step (s : system) (msg : string) :
  exists s1,
    hw s1 = hw s /\ wl s1 = wl s /\ am s1 = am s /\ mm s1 = mm s
    /\ Mc.g_error_count (mc s1) = wrap32 (Mc.g_error_count (mc s) + 1)
    /\ Mc.system_healthy (Mc.g_mode_status (mc s1))
       = Mc.system_healthy (Mc.g_mode_status (mc s))
    /\ Mc.error_message (Mc.g_mode_status (mc s1)) = String.substring 0 127 msg
    /\ exec (mode_coordinator_report_error msg) s
       = if MAX_SYSTEM_ERRORS <=? wrap32 (Mc.g_error_count (mc s) + 1)
         then exec (upd_mode_status (Mc.set_system_healthy false))
                (exec mode_coordinator_emergency_stop s1)
         else s1.
Proof.
  exists (exec (upd_mc (fun g => Mc.set_g_error_count (wrap32 (Mc.g_error_count g + 1)) g) ;;
                now <- esp_timer_get_time ;;
                upd_mode_status (Mc.set_last_error_time now) ;;
                upd_mc (Mc.set_g_last_error_reset_time now) ;;
                upd_mode_status (Mc.set_error_message (String.substring 0 127 msg))) s).
  split; [reflexivity|]. split; [reflexivity|]. split; [reflexivity|].
  split; [reflexivity|]. split; [reflexivity|]. split; [reflexivity|].
  split; [reflexivity|].
  unfold mode_coordinator_report_error. mcbv.
  repeat match goal with
  | |- context [if ?b then _ else _] =>
      progress change b with (MAX_SYSTEM_ERRORS <=? wrap32 (Mc.g_error_count (mc s) + 1))
  end.
  case_if; reflexivity.
Qed.

Lemma mode_coordinator_emergency_stop_error_count (s : system) :
  Mc.g_error_count (mc (exec mode_coordinator_emergency_stop s)) = Mc.g_error_count (mc s).
Proof.
  apply (mode_coordinator_emergency_stop_frame_mc_data
           (fun g => Mc.g_error_count g = Mc.g_error_count (mc s))).
  - intros g f H. exact H.
  - reflexivity.
Qed.

(** X20. [mode_coordinator_report_error] counts the error.  Below the
    threshold of ten only the coordinator's bookkeeping changes: the message,
    cut to 127 characters, is recorded and hardware, engines and health flag
    stay as they were.  The error that brings the count to ten triggers the
    coordinator's emergency stop: the hardware is at neutral, the current
    mode is None, the wire-learning and manual engines are inactive, the
    system is marked unhealthy, and the recorded message is that of the
    emergency stop, not the reported one. *)
Theorem error_threshold_stops_the_system (s : system) (msg : string) :
  0 <= error_count s < 2 ^ 32 - 1 ->
  let s' := exec (mode_coordinator_report_error msg) s in
  error_count s' = error_count s + 1
  /\ (error_count s + 1 < MAX_SYSTEM_ERRORS ->
      hw s' = hw s /\ wl s' = wl s /\ am s' = am s /\ mm s' = mm s
      /\ system_healthy s' = system_healthy s
      /\ Mc.error_message (Mc.g_mode_status (mc s')) = String.substring 0 127 msg)
  /\ (MAX_SYSTEM_ERRORS <= error_count s + 1 ->
      system_healthy s' = false
      /\ at_neutral (hw s')
      /\ Mc.current_mode (Mc.g_mode_status (mc s')) = TROLLEY_MODE_NONE
      /\ Mc.error_message (Mc.g_mode_status (mc s')) = "Emergency stop activated"%string
      /\ eval wire_learning_mode_is_active s' = false
      /\ eval manual_mode_is_active s' = false).
Proof.
  intros Hc. cbv zeta. unfold error_count, system_healthy in *.
  destruct (mode_coordinator_report_error_step s msg)
    as (s1 & Hhw & Hwl & Ham & Hmm & Hn & Hh & Hm & E).
  assert (W : wrap32 (Mc.g_error_count (mc s) + 1) = Mc.g_error_count (mc s) + 1).
  { unfold wrap32. apply Z.mod_small. lia. }
  rewrite W in E, Hn. rewrite E. clear E.
  destruct (MAX_SYSTEM_ERRORS <=? Mc.g_error_count (mc s) + 1) eqn:T.
  - apply Z.leb_le in T.
    destruct (mode_coordinator_emergency_stop_states s1) as (N & Wi & _ & Mi).
    split; [|split].
    + change (Mc.g_error_count (mc (exec mode_coordinator_emergency_stop s1))
              = Mc.g_error_count (mc s) + 1).
      rewrite mode_coordinator_emergency_stop_error_count. exact Hn.
    + intros. lia.
    + intros _. split; [reflexivity|]. split; [exact N|].
      split; [reflexivity|]. split; [reflexivity|]. split.
      * apply wire_learning_idle_inactive. exact Wi.
      * apply manual_idle_inactive. exact Mi.
  - apply Z.leb_gt in T. split; [exact Hn|]. split.
    + intros _. repeat split; assumption.
    + intros. lia.
Qed.

Lemma error_threshold_stops_the_system_witness :
  0 <= error_count (run (repeat (McReportError "fault") 9) boot) < 2 ^ 32 - 1
  /\ MAX_SYSTEM_ERRORS <= error_count (run (repeat (McReportError "fault") 9) boot) + 1
  /\ system_healthy (exec (mode_coordinator_report_error "fault")
                       (run (repeat (McReportError "fault") 9) boot)) = false.
Proof.
  assert (A : error_count (run (repeat (McReportError "fault") 9) boot) = 9)
    by (vm_compute; reflexivity).
  assert (B : 0 <= error_count (run (repeat (McReportError "fault") 9) boot) < 2 ^ 32 - 1)
    by (rewrite A; lia).
  assert (C : MAX_SYSTEM_ERRORS <= error_count (run (repeat (McReportError "fault") 9) boot) + 1)
    by (rewrite A; unfold MAX_SYSTEM_ERRORS; lia).
  split; [exact B|]. split; [exact C|].
  exact (proj1 (proj2 (proj2 (error_threshold_stops_the_system
                                (run (repeat (McReportError "fault") 9) boot) "fault" B)) C)).
Defined.

(* ================================================================== *)
(** * The coordinator: the time limit of the validation *)
(* ================================================================== *)

(** What [mode_coordinator_update] does after the validation state machine. *)
Lemma mode_coordinator_update_shape (s : system) :
  Mc.g_coordinator_initialized (mc s) = true ->
  exec mode_coordinator_update s
  = exec (update_mode_availability ;;
          update_current_mode_status ;;
          hw_status <- hardware_get_status ;;
          sensor_status <- gets sh ;;
          count <- gets (fun s => Mc.g_error_count (mc s)) ;;
          upd_mode_status (Mc.set_system_healthy
            (Hw.system_initialized hw_status && Sh.system_ready sensor_status
             && (count <? MAX_SYSTEM_ERRORS))) ;;
          current_time <- esp_timer_get_time ;;
          last_reset <- gets (fun s => Mc.g_last_error_reset_time (mc s)) ;;
          (if (0 <? count) && (ERROR_RESET_TIME_MS * 1000 <? wrap64 (current_time - last_reset))
           then
             upd_mc (Mc.set_g_error_count 0) ;;
             upd_mode_status (Mc.set_error_message "")
           else ret tt) ;;
          ret ESP_OK)
      (exec update_sensor_validation_state s).
Proof.
  intros H. unfold mode_coordinator_update. mcbv. mcbv in H. rewrite H. reflexivity.
Qed.

Lemma mode_coordinator_update_validation_state (s : system) :
  Mc.g_coordinator_initialized (mc s) = true ->
  validation_state (exec mode_coordinator_update s)
  = validation_state (exec update_sensor_validation_state s)
  /\ Mc.g_coordinator_initialized (mc (exec mode_coordinator_update s)) = true.
Proof.
  intros H. rewrite (mode_coordinator_update_shape s H).
  assert (H' : Mc.g_coordinator_initialized (mc (exec update_sensor_validation_state s)) = true).
  { revert H.
    change (on_mc (fun g => Mc.g_coordinator_initialized g = true) s ->
            on_mc (fun g => Mc.g_coordinator_initialized g = true)
              (exec update_sensor_validation_state s)).
    revert s. change (preserves (on_mc (fun g => Mc.g_coordinator_initialized g = true))
                        update_sensor_validation_state).
    unfold update_sensor_validation_state. pres frame_leaf. }
  revert H'. generalize (exec update_sensor_validation_state s). clear s H. intros s H.
  set (I := on_mc (fun g =>
                Mc.sensor_validation_state (Mc.g_mode_status g) = validation_state s
                /\ Mc.g_coordinator_initialized g = true)).
  match goal with
  | |- validation_state (exec ?m s) = _ /\ _ => assert (P : preserves I m)
  end.
  { unfold I. pres ltac:(unfold on_mc; cbn; intros; assumption). }
  apply P. split; [reflexivity | exact H].
Qed.

(** Splits on the condition of an innermost conditional. *)
Ltac case_inner :=
  match goal with
  | |- context [if ?b then _ else _] =>
      lazymatch b with
      | context [if _ then _ else _] => fail
      | _ => let a := atom_of b in destruct a eqn:?
      end
  end.

Lemma update_sensor_validation_state_overdue (s : system) :
  validation_pending s = true ->
  validation_overdue s = true ->
  (validation_state s = SENSOR_VALIDATION_ACCEL_PENDING ->
   Mc.g_accel_validation_user_confirmed (mc s) = false) ->
  validation_state (exec update_sensor_validation_state s) = SENSOR_VALIDATION_FAILED.
Proof.
  unfold validation_pending, validation_overdue, validation_state, exec,
    update_sensor_validation_state.
  open_records. cbn. intros Hp Ho Ha.
  match goal with st : sensor_validation_state_t |- _ => destruct st end;
    try discriminate Hp; cbn in *; try rewrite (Ha eq_refl); cbn;
    repeat (case_inner; cbn); rewrite ?Ho; cbn; try reflexivity; try congruence.
Qed.

Lemma update_sensor_validation_state_failed (s : system) :
  validation_state s = SENSOR_VALIDATION_FAILED ->
  validation_state (exec update_sensor_validation_state s) = SENSOR_VALIDATION_FAILED.
Proof.
  unfold validation_state, exec, update_sensor_validation_state.
  open_records. cbn. intros ->. reflexivity.
Qed.

(** X21. A sensor validation that is under way (In progress, Hall pending
    or Accelerometer pending without the user's confirmation) more than 60 s
    after its start is failed by the next [mode_coordinator_update]; in the
    state Failed both confirmation calls are refused without effect and
    further updates keep the state. *)
Theorem sensor_validation_times_out (s : system) :
  Mc.g_coordinator_initialized (mc s) = true ->
  validation_pending s = true ->
  validation_overdue s = true ->
  (validation_state s = SENSOR_VALIDATION_ACCEL_PENDING ->
   Mc.g_accel_validation_user_confirmed (mc s) = false) ->
  let s' := exec mode_coordinator_update s in
  validation_state s' = SENSOR_VALIDATION_FAILED
  /\ mode_coordinator_confirm_hall_validation s' = (ESP_ERR_INVALID_STATE, s')
  /\ mode_coordinator_confirm_accel_validation s' = (ESP_ERR_INVALID_STATE, s')
  /\ validation_state (exec mode_coordinator_update s') = SENSOR_VALIDATION_FAILED.
Proof.
  intros Hi Hp Ho Ha. cbv zeta.
  destruct (mode_coordinator_update_validation_state s Hi) as [E Hi'].
  rewrite (update_sensor_validation_state_overdue s Hp Ho Ha) in E.
  revert E Hi'. generalize (exec mode_coordinator_update s). clear. intros s E Hi.
  split; [exact E|].
  destruct (mode_coordinator_update_validation_state s Hi) as [E' _].
  rewrite (update_sensor_validation_state_failed s E) in E'.
  split; [|split; [|exact E']];
    unfold mode_coordinator_confirm_hall_validation,
      mode_coordinator_confirm_accel_validation, validation_state in *;
    clear - E; open_records; cbn in *; subst; reflexivity.
Qed.

Lemma sensor_validation_times_out_witness :
  validation_pending (run [McInit; McStartValidation; Elapse 61000000] boot) = true
  /\ validation_overdue (run [McInit; McStartValidation; Elapse 61000000] boot) = true
  /\ validation_state
       (exec mode_coordinator_update (run [McInit; McStartValidation; Elapse 61000000] boot))
     = SENSOR_VALIDATION_FAILED.
Proof.
  assert (A : Mc.g_coordinator_initialized
                (mc (run [McInit; McStartValidation; Elapse 61000000] boot)) = true)
    by (vm_compute; reflexivity).
  assert (B : validation_pending (run [McInit; McStartValidation; Elapse 61000000] boot) = true)
    by (vm_compute; reflexivity).
  assert (C : validation_overdue (run [McInit; McStartValidation; Elapse 61000000] boot) = true)
    by (vm_compute; reflexivity).
  assert (D : validation_state (run [McInit; McStartValidation; Elapse 61000000] boot)
              = SENSOR_VALIDATION_ACCEL_PENDING ->
              Mc.g_accel_validation_user_confirmed
                (mc (run [McInit; McStartValidation; Elapse 61000000] boot)) = false)
    by (intros _; vm_compute; reflexivity).
  split; [exact B|]. split; [exact C|].
  exact (proj1 (sensor_validation_times_out
                  (run [McInit; McStartValidation; Elapse 61000000] boot) A B C D)).
Defined.
(* ================================================================== *)
(** * The automatic mode: start, acceleration and coasting calibration *)
(* ================================================================== *)

(** X22. [automatic_mode_start] succeeds exactly when the engine is
    initialised, the sensors are validated, a complete wire-learning result
    of at least 2.0 m is held by the coordinator, and the ESC is armed or can
    be armed.  It then leaves the engine in Arming-ESC with the ESC armed, the
    hardware target untouched and the wire length taken over; the engine
    reports active, and [automatic_mode_update] has no case for this state
    and changes nothing.  A wire shorter than 2.0 m is answered with
    [ESP_ERR_INVALID_SIZE] without any change; a failed start leaves the
    hardware status alone and the engine in its old state or in Error. *)
Theorem automatic_mode_start_result (s : system) :
  let r := eval automatic_mode_start s in
  let s' := exec automatic_mode_start s in
  (r = ESP_OK <-> automatic_can_start s = true)
  /\ (r = ESP_OK ->
      automatic_state s' = AUTO_MODE_ARMING_ESC
      /\ Hw.esc_armed (hw_status_of s') = true
      /\ hw_target s' = hw_target s
      /\ Am.wire_length_m (auto_progress s')
         = Wl.wire_length_m (Mc.g_wire_learning_data (mc s))
      /\ eval automatic_mode_is_active s' = true
      /\ automatic_mode_update s' = (ESP_OK, s'))
  /\ (r <> ESP_OK ->
      hw_status_of s' = hw_status_of s
      /\ (automatic_state s' = automatic_state s \/ automatic_state s' = AUTO_MODE_ERROR))
  /\ (Am.g_auto_initialized (am s) = true -> sensors_validated s = true ->
      Wl.complete (Mc.g_wire_learning_data (mc s)) = true ->
      F32.lt (Wl.wire_length_m (Mc.g_wire_learning_data (mc s)))
        AUTO_MODE_MIN_WIRE_LENGTH_M = true ->
      automatic_mode_start s = (ESP_ERR_INVALID_SIZE, s)).
Proof.
  unfold automatic_can_start, automatic_state, auto_progress, hw_target, hw_status_of,
    sensors_validated, eval, exec, automatic_mode_start,
    automatic_mode_validate_prerequisites, mode_coordinator_are_sensors_validated,
    mode_coordinator_get_wire_learning_results, automatic_mode_auto_arm_esc,
    hardware_esc_is_armed, hardware_esc_arm, automatic_mode_is_active,
    automatic_mode_update.
  open_records. cbn.
  repeat (case_inner; cbn); repeat split; intros; subst;
    try reflexivity; try congruence; try (left; reflexivity); try (right; reflexivity).
Qed.

Lemma automatic_mode_start_result_witness :
  eval automatic_mode_start (run bring_up boot_with_result) = ESP_OK
  /\ automatic_state (exec automatic_mode_start (run bring_up boot_with_result))
     = AUTO_MODE_ARMING_ESC
  /\ eval automatic_mode_start boot <> ESP_OK
  /\ hw_status_of (exec automatic_mode_start boot) = hw_status_of boot.
Proof.
  assert (A : eval automatic_mode_start (run bring_up boot_with_result) = ESP_OK)
    by (vm_compute; reflexivity).
  assert (B : eval automatic_mode_start boot <> ESP_OK) by (vm_compute; discriminate).
  destruct (automatic_mode_start_result (run bring_up boot_with_result)) as (_ & H2 & _).
  destruct (automatic_mode_start_result boot) as (_ & _ & H3 & _).
  split; [exact A|]. split; [exact (proj1 (H2 A))|].
  split; [exact B|]. exact (proj1 (H3 B)).
Defined.

(** X23. Whatever speed it is asked for,
    [automatic_mode_accelerate_to_speed] records the target (capped at
    5.0 m/s) and commands the start speed of 0.1 m/s only; its result is that
    of this command, and a refused command leaves hardware status and
    progress unchanged.  During a coasting calibration
    [automatic_mode_update] changes nothing as long as the measured speed is
    below 5.0 - 0.2 m/s. *)
Theorem automatic_acceleration_commands_start_speed (s : system) (v : f32) :
  let r := eval (automatic_mode_accelerate_to_speed v) s in
  let s' := exec (automatic_mode_accelerate_to_speed v) s in
  Am.g_current_acceleration_target (am s') = acceleration_target v
  /\ r = eval (hardware_set_motor_speed AUTO_MODE_START_SPEED_MS
                 (Am.current_direction_forward (auto_progress s))) s
  /\ (r = ESP_OK ->
      hw_target s' = AUTO_MODE_START_SPEED_MS
      /\ Am.current_target_speed (auto_progress s') = AUTO_MODE_START_SPEED_MS)
  /\ (r <> ESP_OK ->
      hw_status_of s' = hw_status_of s /\ auto_progress s' = auto_progress s)
  /\ (automatic_state s = AUTO_MODE_COASTING_CALIBRATION ->
      Am.g_auto_initialized (am s) = true ->
      F32.lt (Hw.current_speed_ms (hw_status_of s)) calibration_trigger_speed = true ->
      automatic_mode_update s = (ESP_OK, s)).
Proof.
  unfold acceleration_target, calibration_trigger_speed, automatic_state, auto_progress,
    hw_target, hw_status_of, eval, exec, automatic_mode_accelerate_to_speed,
    automatic_mode_update, automatic_mode_update_coasting_calibration,
    hardware_get_current_speed, hardware_get_rotation_count, hardware_set_motor_speed.
  open_records. cbn.
  repeat (case_inner; cbn); repeat split; intros; subst;
    try reflexivity; try congruence.
Qed.

Lemma automatic_acceleration_commands_start_speed_witness :
  eval (automatic_mode_accelerate_to_speed AUTO_MODE_MAX_SPEED_MS)
    (run [HardwareInit true; HardwareArm] boot) = ESP_OK
  /\ hw_target (exec (automatic_mode_accelerate_to_speed AUTO_MODE_MAX_SPEED_MS)
                  (run [HardwareInit true; HardwareArm] boot)) = AUTO_MODE_START_SPEED_MS
  /\ eval (automatic_mode_accelerate_to_speed AUTO_MODE_MAX_SPEED_MS) boot <> ESP_OK
  /\ hw_status_of (exec (automatic_mode_accelerate_to_speed AUTO_MODE_MAX_SPEED_MS) boot)
     = hw_status_of boot
  /\ automatic_state
       (run [HardwareInit true; HardwareArm; AmInit; AmStartCoastingCalibration] boot)
     = AUTO_MODE_COASTING_CALIBRATION
  /\ automatic_mode_update
       (run [HardwareInit true; HardwareArm; AmInit; AmStartCoastingCalibration] boot)
     = (ESP_OK, run [HardwareInit true; HardwareArm; AmInit; AmStartCoastingCalibration] boot).
Proof.
  assert (A : eval (automatic_mode_accelerate_to_speed AUTO_MODE_MAX_SPEED_MS)
                (run [HardwareInit true; HardwareArm] boot) = ESP_OK)
    by (vm_compute; reflexivity).
  assert (B : eval (automatic_mode_accelerate_to_speed AUTO_MODE_MAX_SPEED_MS) boot <> ESP_OK)
    by (vm_compute; discriminate).
  assert (C : automatic_state
                (run [HardwareInit true; HardwareArm; AmInit; AmStartCoastingCalibration] boot)
              = AUTO_MODE_COASTING_CALIBRATION) by (vm_compute; reflexivity).
  assert (D : Am.g_auto_initialized
                (am (run [HardwareInit true; HardwareArm; AmInit; AmStartCoastingCalibration]
                       boot)) = true) by (vm_compute; reflexivity).
  assert (E : F32.lt (Hw.current_speed_ms
                        (hw_status_of
                           (run [HardwareInit true; HardwareArm; AmInit;
                                 AmStartCoastingCalibration] boot)))
                calibration_trigger_speed = true) by (vm_compute; reflexivity).
  destruct (automatic_acceleration_commands_start_speed
              (run [HardwareInit true; HardwareArm] boot) AUTO_MODE_MAX_SPEED_MS)
    as (_ & _ & H3 & _).
  destruct (automatic_acceleration_commands_start_speed boot AUTO_MODE_MAX_SPEED_MS)
    as (_ & _ & _ & H4 & _).
  destruct (automatic_acceleration_commands_start_speed
              (run [HardwareInit true; HardwareArm; AmInit; AmStartCoastingCalibration] boot)
              AUTO_MODE_MAX_SPEED_MS) as (_ & _ & _ & _ & H5).
  split; [exact A|]. split; [exact (proj1 (H3 A))|].
  split; [exact B|]. split; [exact (proj1 (H4 B))|].
  split; [exact C|]. exact (H5 C D E).
Defined.
(* ================================================================== *)
(** * The web commands *)
(* ================================================================== *)

Lemma toupper_idempotent (c : Ascii.ascii) : toupper (toupper c) = toupper c.
Proof. destruct c as [[] [] [] [] [] [] [] []]; reflexivity. Qed.

Lemma web_process_command_unhandled (c : Ascii.ascii) (s : system) :
  web_handled c = false -> web_process_command c s = (ESP_ERR_INVALID_ARG, s).
Proof.
  destruct c as [[] [] [] [] [] [] [] []]; intros H; try discriminate H; reflexivity.
Qed.

Lemma web_manual_command_inactive (m : M esp_err_t) (s : system) :
  eval manual_mode_is_active s = false ->
  web_manual_command m s = (ESP_ERR_INVALID_STATE, s).
Proof.
  unfold web_manual_command, eval, manual_mode_is_active. mcbv. intros ->. reflexivity.
Qed.

Lemma web_process_command_manual (c : Ascii.ascii) (s : system) :
  web_manual c = true ->
  eval manual_mode_is_active s = false ->
  web_process_command c s = (ESP_ERR_INVALID_STATE, s).
Proof.
  intros H Ha.
  destruct c as [[] [] [] [] [] [] [] []]; try discriminate H;
    first [ exact (web_manual_command_inactive manual_mode_arm_esc s Ha)
          | exact (web_manual_command_inactive manual_mode_disarm_esc s Ha)
          | exact (web_manual_command_inactive manual_mode_move_forward s Ha)
          | exact (web_manual_command_inactive manual_mode_move_backward s Ha)
          | exact (web_manual_command_inactive manual_mode_stop_movement s Ha)
          | exact (web_manual_command_inactive manual_mode_increase_speed s Ha)
          | exact (web_manual_command_inactive manual_mode_decrease_speed s Ha) ].
Qed.

Lemma web_process_command_toupper (c : Ascii.ascii) :
  web_process_command c = web_process_command (toupper c).
Proof.
  unfold web_process_command, web_validate_command. rewrite toupper_idempotent. reflexivity.
Qed.

(** X24. The web command dispatcher treats a letter and its capital alike.
    A character it has no case for is answered with [ESP_ERR_INVALID_ARG]
    and changes nothing; among these are [L] and [K] (and NUL), which
    [web_validate_command] accepts.  The commands of the manual mode
    ([A], [D], [F], [B], [S], [+], [-]) are answered with
    [ESP_ERR_INVALID_STATE] and change nothing while the manual engine is not
    active, and the status command [T] succeeds without changing
    anything. *)
Theorem web_command_dispatch (c : Ascii.ascii) (s : system) :
  web_process_command c = web_process_command (toupper c)
  /\ (web_handled c = false -> web_process_command c s = (ESP_ERR_INVALID_ARG, s))
  /\ web_validate_command c && negb (web_handled c)
     = (Ascii.eqb (toupper c) "L" || Ascii.eqb (toupper c) "K" || Ascii.eqb c Ascii.zero)
  /\ (web_manual c = true -> eval manual_mode_is_active s = false ->
      web_process_command c s = (ESP_ERR_INVALID_STATE, s))
  /\ web_process_command "T" s = (ESP_OK, s).
Proof.
  split; [apply web_process_command_toupper|].
  split; [apply web_process_command_unhandled|].
  split; [destruct c as [[] [] [] [] [] [] [] []]; reflexivity|].
  split; [apply web_process_command_manual | reflexivity].
Qed.

Lemma web_command_dispatch_witness :
  web_handled "k" = false
  /\ web_validate_command "k" = true
  /\ web_process_command "k" manual_moving = (ESP_ERR_INVALID_ARG, manual_moving)
  /\ web_manual "f" = true
  /\ eval manual_mode_is_active boot = false
  /\ web_process_command "f" boot = (ESP_ERR_INVALID_STATE, boot).
Proof.
  assert (A : web_handled "k" = false) by reflexivity.
  assert (B : web_manual "f" = true) by reflexivity.
  assert (C : eval manual_mode_is_active boot = false) by reflexivity.
  destruct (web_command_dispatch "k" manual_moving) as (_ & H2 & _).
  destruct (web_command_dispatch "f" boot) as (_ & _ & _ & H4 & _).
  split; [exact A|]. split; [reflexivity|]. split; [exact (H2 A)|].
  split; [exact B|]. split; [exact C|]. exact (H4 B C).
Defined.
(* ================================================================== *)
(** * The ESC task: rate limiting *)
(* ================================================================== *)

Lemma ramp_step_bound (cur target : Z) :
  Z.abs (ramp_step cur target - cur) <= ESC_MAX_SPEED_CHANGE
  /\ Z.abs (target - ramp_step cur target) <= Z.abs (target - cur)
  /\ (Z.abs (target - cur) <= ESC_MAX_SPEED_CHANGE -> ramp_step cur target = target).
Proof.
  unfold ramp_step, ESC_MAX_SPEED_CHANGE.
  destruct (100 <? target - cur) eqn:E1; [apply Z.ltb_lt in E1; lia|].
  apply Z.ltb_ge in E1.
  destruct (100 <? cur - target) eqn:E2; [apply Z.ltb_lt in E2; lia|].
  apply Z.ltb_ge in E2. lia.
Qed.

(** The rate limiter of [esc_update_task] on duty cycles that fit the
    [int16_t] of its difference. *)
Lemma rate_limit_is_ramp_step (d0 dt : Z) :
  0 <= d0 < 2 ^ 15 -> 0 <= dt < 2 ^ 15 ->
  (if ESC_MAX_SPEED_CHANGE <? Z.abs (to_int16 (dt - d0))
   then if 0 <? to_int16 (dt - d0)
        then wrap16 (d0 + ESC_MAX_SPEED_CHANGE)
        else wrap16 (d0 - ESC_MAX_SPEED_CHANGE)
   else dt) = ramp_step d0 dt.
Proof.
  intros Hc Ht.
  assert (Hd : to_int16 (dt - d0) = dt - d0).
  { unfold to_int16, wrap16. cbv zeta.
    destruct (Z_lt_le_dec (dt - d0) 0) as [N|N].
    - replace ((dt - d0) mod 2 ^ 16) with (dt - d0 + 2 ^ 16)
        by (apply Z.mod_unique with (q := -1); lia).
      destruct (dt - d0 + 2 ^ 16 <? 2 ^ 15) eqn:E; [apply Z.ltb_lt in E; lia | lia].
    - rewrite Z.mod_small by lia.
      destruct (dt - d0 <? 2 ^ 15) eqn:E; [reflexivity | apply Z.ltb_ge in E; lia]. }
  rewrite Hd. unfold ramp_step, ESC_MAX_SPEED_CHANGE, wrap16.
  destruct (100 <? Z.abs (dt - d0)) eqn:E1.
  - apply Z.ltb_lt in E1. destruct (0 <? dt - d0) eqn:E2.
    + apply Z.ltb_lt in E2.
      destruct (100 <? dt - d0) eqn:E3; [|apply Z.ltb_ge in E3; lia].
      apply Z.mod_small. lia.
    + apply Z.ltb_ge in E2.
      destruct (100 <? dt - d0) eqn:E3; [apply Z.ltb_lt in E3; lia|].
      destruct (100 <? d0 - dt) eqn:E4; [|apply Z.ltb_ge in E4; lia].
      apply Z.mod_small. lia.
  - apply Z.ltb_ge in E1.
    destruct (100 <? dt - d0) eqn:E3; [apply Z.ltb_lt in E3; lia|].
    destruct (100 <? d0 - dt) eqn:E4; [apply Z.ltb_lt in E4; lia | reflexivity].
Qed.

Lemma esc_update_task_duty (s : system) :
  Hw.system_initialized (hw_status_of s) = true ->
  Hw.esc_armed (hw_status_of s) = true ->
  0 <= current_duty s < 2 ^ 15 ->
  0 <= target_duty s < 2 ^ 15 ->
  let d := if Hw.g_rate_limiting_enabled (hw s)
           then ramp_step (current_duty s) (target_duty s) else target_duty s in
  current_duty (exec esc_update_task s) = d
  /\ Hw.ledc_duty (hw (exec esc_update_task s)) = d
  /\ Hw.g_last_esc_duty (hw (exec esc_update_task s)) = d
  /\ Hw.esc_responding (hw_status_of (exec esc_update_task s)) = true
  /\ target_duty (exec esc_update_task s) = target_duty s
  /\ Hw.g_rate_limiting_enabled (hw (exec esc_update_task s))
     = Hw.g_rate_limiting_enabled (hw s)
  /\ Hw.system_initialized (hw_status_of (exec esc_update_task s)) = true
  /\ Hw.esc_armed (hw_status_of (exec esc_update_task s)) = true.
Proof.
  unfold current_duty, target_duty, hw_status_of, esc_update_task. intros Hi Ha Hc Ht.
  pose proof (rate_limit_is_ramp_step _ _ Hc Ht) as Hr.
  mcbv. mcbv in Hi. mcbv in Ha. rewrite Hi, Ha. cbv [andb]. mcbv.
  destruct (Hw.g_rate_limiting_enabled (hw s)) eqn:Hl; mcbv; rewrite ?Hr, ?Z.eqb_refl;
    repeat (case_if; mcbv); repeat split; try reflexivity; try assumption;
    cbn; unfold_projections; exact Hl.
Qed.

Lemma ramp_step_range (cur target : Z) :
  0 <= cur < 2 ^ 15 -> 0 <= target < 2 ^ 15 -> 0 <= ramp_step cur target < 2 ^ 15.
Proof.
  unfold ramp_step, ESC_MAX_SPEED_CHANGE. intros Hc Ht.
  destruct (100 <? target - cur) eqn:E1; [apply Z.ltb_lt in E1; lia|].
  destruct (100 <? cur - target) eqn:E2; [apply Z.ltb_lt in E2; lia | exact Ht].
Qed.

Lemma ramp_step_progress (cur target : Z) (n : nat) :
  Z.abs (target - cur) <= ESC_MAX_SPEED_CHANGE * Z.of_nat (S n) ->
  Z.abs (target - ramp_step cur target) <= ESC_MAX_SPEED_CHANGE * Z.of_nat n.
Proof.
  unfold ramp_step, ESC_MAX_SPEED_CHANGE. intros H.
  destruct (100 <? target - cur) eqn:E1; [apply Z.ltb_lt in E1; lia|].
  destruct (100 <? cur - target) eqn:E2; [apply Z.ltb_lt in E2; lia | lia].
Qed.

Lemma esc_update_task_reaches_target (n : nat) (s : system) :
  Hw.system_initialized (hw_status_of s) = true ->
  Hw.esc_armed (hw_status_of s) = true ->
  Hw.g_rate_limiting_enabled (hw s) = true ->
  0 <= current_duty s < 2 ^ 15 ->
  0 <= target_duty s < 2 ^ 15 ->
  Z.abs (target_duty s - current_duty s) <= ESC_MAX_SPEED_CHANGE * Z.of_nat n ->
  current_duty (run (repeat EscUpdate n) s) = target_duty s.
Proof.
  revert s. induction n as [|n IH]; intros s Hi Ha Hl Hc Ht Hn.
  - cbn. cbn in Hn. lia.
  - change (run (repeat EscUpdate (S n)) s) with (run (repeat EscUpdate n) (exec esc_update_task s)).
    destruct (esc_update_task_duty s Hi Ha Hc Ht) as (D1 & _ & _ & _ & D5 & D6 & D7 & D8).
    rewrite Hl in D1, D6.
    rewrite <- D5. apply IH; try assumption.
    + rewrite D1. apply ramp_step_range; assumption.
    + rewrite D5. exact Ht.
    + rewrite D5, D1. apply ramp_step_progress. exact Hn.
Qed.

(** X25. While the hardware is initialised and the ESC armed, and with the
    current and the target duty cycle between 0 and 32767 (so that their
    difference fits the [int16_t] it is computed in), one iteration of the
    ESC task moves the duty cycle towards the duty of the target speed: with
    rate limiting by at most 100 counts, never away from the target and onto
    it once it is within 100 counts; without rate limiting onto it at once.
    The value is written to the PWM register, the ESC counts as responding,
    and with rate limiting the target is reached after at most one iteration
    per 100 counts of distance. *)
Theorem esc_duty_is_rate_limited (s : system) (n : nat) :
  Hw.system_initialized (hw_status_of s) = true ->
  Hw.esc_armed (hw_status_of s) = true ->
  0 <= current_duty s < 2 ^ 15 ->
  0 <= target_duty s < 2 ^ 15 ->
  let s' := exec esc_update_task s in
  (Hw.g_rate_limiting_enabled (hw s) = true ->
   Z.abs (current_duty s' - current_duty s) <= ESC_MAX_SPEED_CHANGE
   /\ Z.abs (target_duty s - current_duty s') <= Z.abs (target_duty s - current_duty s)
   /\ (Z.abs (target_duty s - current_duty s) <= ESC_MAX_SPEED_CHANGE ->
       current_duty s' = target_duty s)
   /\ (Z.abs (target_duty s - current_duty s) <= ESC_MAX_SPEED_CHANGE * Z.of_nat n ->
       current_duty (run (repeat EscUpdate n) s) = target_duty s))
  /\ (Hw.g_rate_limiting_enabled (hw s) = false -> current_duty s' = target_duty s)
  /\ Hw.ledc_duty (hw s') = current_duty s'
  /\ Hw.esc_responding (hw_status_of s') = true
  /\ target_duty s' = target_duty s.
Proof.
  intros Hi Ha Hc Ht. cbv zeta.
  destruct (esc_update_task_duty s Hi Ha Hc Ht) as (D1 & D2 & _ & D4 & D5 & _).
  destruct (ramp_step_bound (current_duty s) (target_duty s)) as (R1 & R2 & R3).
  split; [|split; [|split; [|split]]].
  - intros Hl. rewrite Hl in D1. rewrite D1.
    split; [exact R1|]. split; [exact R2|]. split; [exact R3|].
    apply esc_update_task_reaches_target; assumption.
  - intros Hl. rewrite Hl in D1. exact D1.
  - rewrite D1. exact D2.
  - exact D4.
  - exact D5.
Qed.

Lemma esc_duty_is_rate_limited_witness :
  current_duty full_speed_commanded = ESC_NEUTRAL_DUTY
  /\ target_duty full_speed_commanded = ESC_MAX_DUTY
  /\ current_duty (exec esc_update_task full_speed_commanded)
     = ESC_NEUTRAL_DUTY + ESC_MAX_SPEED_CHANGE
  /\ current_duty (run (repeat EscUpdate 5) full_speed_commanded)
     = target_duty full_speed_commanded.
Proof.
  assert (A : Hw.system_initialized (hw_status_of full_speed_commanded) = true)
    by (vm_compute; reflexivity).
  assert (B : Hw.esc_armed (hw_status_of full_speed_commanded) = true)
    by (vm_compute; reflexivity).
  assert (C : current_duty full_speed_commanded = ESC_NEUTRAL_DUTY) by (vm_compute; reflexivity).
  assert (D : target_duty full_speed_commanded = ESC_MAX_DUTY) by (vm_compute; reflexivity).
  assert (C' : 0 <= current_duty full_speed_commanded < 2 ^ 15)
    by (rewrite C; unfold ESC_NEUTRAL_DUTY; lia).
  assert (D' : 0 <= target_duty full_speed_commanded < 2 ^ 15)
    by (rewrite D; unfold ESC_MAX_DUTY; lia).
  assert (E : Hw.g_rate_limiting_enabled (hw full_speed_commanded) = true)
    by (vm_compute; reflexivity).
  assert (F : Z.abs (target_duty full_speed_commanded - current_duty full_speed_commanded)
              <= ESC_MAX_SPEED_CHANGE * Z.of_nat 5)
    by (rewrite C, D; unfold ESC_NEUTRAL_DUTY, ESC_MAX_DUTY, ESC_MAX_SPEED_CHANGE; lia).
  destruct (esc_duty_is_rate_limited full_speed_commanded 5 A B C' D') as (H & _).
  split; [exact C|]. split; [exact D|]. split; [vm_compute; reflexivity|].
  exact (proj2 (proj2 (proj2 (H E))) F).
Defined.

(* ================================================================== *)
(** * Wire learning: a speed test from the speed change on *)
(* ================================================================== *)

Lemma wrap64_add_l (a b : Z) : wrap64 (wrap64 a + b) = wrap64 (a + b).
Proof. unfold wrap64. apply Zplus_mod_idemp_l. Qed.

Lemma wrap64_sub_l (a b : Z) : wrap64 (wrap64 a - b) = wrap64 (a - b).
Proof. unfold wrap64. apply Zminus_mod_idemp_l. Qed.

(** The environment leaves the globals of wire learning alone, and only
    [Elapse] moves the clock. *)
Lemma environment_step_wl (c : call) (s : system) :
  is_environment c = true ->
  wl (step c s) = wl s
  /\ wrap64 (clock (step c s)) = wrap64 (clock s + elapsed_of c).
Proof.
  destruct c; try discriminate; intros _; unfold step; cbn [perform elapsed_of].
  - split; [reflexivity|]. cbn. unfold wrap64. apply Zmod_mod.
  - unfold hall_processing_task. mcbv. rewrite Z.add_0_r.
    repeat (case_if; mcbv); split; reflexivity.
  - unfold esc_update_task. mcbv. rewrite Z.add_0_r.
    repeat (case_if; mcbv); split; reflexivity.
  - rewrite Z.add_0_r. split; reflexivity.
Qed.

Lemma environment_run_wl (t : list call) (s : system) :
  Forall (fun c => is_environment c = true) t ->
  wl (run t s) = wl s
  /\ wrap64 (clock (run t s)) = wrap64 (clock s + elapsed_in t).
Proof.
  revert s. induction t as [|c t IH]; intros s Ht.
  - cbn. rewrite Z.add_0_r. split; reflexivity.
  - inversion Ht as [|? ? Hc Ht']; subst.
    destruct (environment_step_wl c s Hc) as [Hw Hk].
    destruct (IH (step c s) Ht') as [Hw' Hk'].
    change (run (c :: t) s) with (run t (step c s)).
    split; [rewrite Hw'; exact Hw|].
    rewrite Hk'. cbn [elapsed_in fold_right]. fold (elapsed_in t).
    rewrite <- wrap64_add_l, Hk, wrap64_add_l. f_equal. lia.
Qed.

(** What [start_speed_test] records: the speed under test, the flag, and the
    rotation count and the time as the baseline of the test. *)
Lemma start_speed_test_baseline (s : system) (v : f32) :
  let s0 := exec (start_speed_test v) s in
  test_speed s0 = v
  /\ Wl.g_speed_validated (wl s0) = false
  /\ Wl.g_hall_pulses_at_speed_start (wl s0) = eval hardware_get_rotation_count s0
  /\ Wl.g_speed_test_start_time (wl s0) = clock s0
  /\ Hw.g_rotation_count_offset (hw s0) = Hw.g_rotation_count_offset (hw s)
  /\ Hw.total_rotations (hw_status_of s0) = Hw.total_rotations (hw_status_of s).
Proof.
  unfold test_speed, hw_status_of, eval, exec, start_speed_test, hardware_get_rotation_count,
    hardware_set_motor_speed.
  open_records. cbn. repeat (case_atom; cbn); repeat split.
Qed.

Lemma wrap32_sub (a b : Z) : wrap32 (wrap32 a - wrap32 b) = wrap32 (a - b).
Proof. unfold wrap32. symmetry. apply Zminus_mod. Qed.

(** From the speed change on, the pulses of the test are the pulses of the
    Hall sensor and its time is the time that has passed. *)
Lemma speed_test_since_change (s : system) (v : f32) (t : list call) :
  Forall (fun c => is_environment c = true) t ->
  let s1 := run t (exec (start_speed_test v) s) in
  test_speed s1 = v
  /\ Wl.g_speed_validated (wl s1) = false
  /\ pulses_since s1 = wrap32 (pulses_in t)
  /\ elapsed_since s1 = wrap64 (elapsed_in t).
Proof.
  intros Ht. cbv zeta.
  destruct (start_speed_test_baseline s v) as (B1 & B2 & B3 & B4 & _).
  set (s0 := exec (start_speed_test v) s) in *.
  destruct (environment_run_wl t s0 Ht) as [Hw Hk].
  destruct (environment_run_rotations t s0 Ht) as [Ho Hr].
  unfold test_speed, pulses_since, elapsed_since in *. rewrite Hw.
  split; [exact B1|]. split; [exact B2|]. split.
  - rewrite B3. unfold eval, hardware_get_rotation_count, gets. cbn [fst].
    unfold hw_status_of in Hr. rewrite Ho, wrap32_sub.
    match goal with
    | |- wrap32 (?a - ?o - (?b - ?o)) = _ => replace (a - o - (b - o)) with (a - b) by lia
    end.
    rewrite <- wrap32_sub_l, Hr, wrap32_sub_l. f_equal. lia.
  - rewrite B4. rewrite <- wrap64_sub_l, Hk, wrap64_sub_l. f_equal. lia.
Qed.

(** [progress_to_next_speed] below the ceiling is a speed change to the next
    test speed, half a second later. *)
Lemma progress_to_next_speed_is_speed_change (s : system) :
  F32.ge (test_speed s) WIRE_LEARNING_MAX_SPEED_MS = false ->
  exec progress_to_next_speed s
  = exec (start_speed_test (next_test_speed (test_speed s))) (exec (vTaskDelay_ms 500) s).
Proof.
  unfold test_speed, next_test_speed, progress_to_next_speed. intros H.
  mcbv. mcbv in H. rewrite H. reflexivity.
Qed.

(* ================================================================== *)
(** * Wire learning: speed validation and progression *)
(* ================================================================== *)

(** C9, as the claim states it, fails: the 3000 ms decide nothing.  With the
    trolley moving at the start speed it is commanded to, one pulse every
    1.9 s, the first check after the time-out finds two pulses and fails;
    the same test goes on, and at the tenth pulse, 19 s after the speed
    change, the speed is validated and wire learning moves on to
    0.2 m/s. *)
Lemma speed_validated_after_timeout_counterexample :
  Wl.state (wl_progress timed_out) = WIRE_LEARNING_FORWARD_DIRECTION
  /\ pulses_since timed_out = 2
  /\ LEARNING_HALL_TIMEOUT_MS * 1000 < elapsed_since timed_out
  /\ eval validate_current_speed timed_out = false
  /\ Wl.g_speed_validated (wl timed_out) = false
  /\ Wl.state (wl_progress tenth_pulse_late) = WIRE_LEARNING_FORWARD_DIRECTION
  /\ test_speed tenth_pulse_late = test_speed timed_out
  /\ Wl.g_speed_test_start_time (wl tenth_pulse_late)
     = Wl.g_speed_test_start_time (wl timed_out)
  /\ Wl.g_hall_pulses_at_speed_start (wl tenth_pulse_late)
     = Wl.g_hall_pulses_at_speed_start (wl timed_out)
  /\ Wl.g_speed_validated (wl tenth_pulse_late) = false
  /\ pulses_since tenth_pulse_late = 10
  /\ elapsed_since tenth_pulse_late = 19000000
  /\ eval validate_current_speed tenth_pulse_late = true
  /\ Wl.g_speed_validated (wl (exec validate_current_speed tenth_pulse_late)) = true
  /\ test_speed (exec wire_learning_mode_update tenth_pulse_late)
     = next_test_speed (test_speed tenth_pulse_late)
  /\ hw_target (exec wire_learning_mode_update tenth_pulse_late)
     = next_test_speed (test_speed tenth_pulse_late)
  /\ within (test_speed tenth_pulse_late) 99999 100001 1000000
  /\ within (hw_target (exec wire_learning_mode_update tenth_pulse_late))
       199999 200001 1000000.
Proof.
  vm_compute. repeat split; try reflexivity; discriminate.
Qed.

(** C9 (amended). In a direction run of wire learning a speed change records
    the speed under test, flags it un-validated and takes the rotation count
    and the time as the baseline of the test, so that from then on the pulses
    of the test are the Hall pulses that arrive and its time is the time that
    passes.  A check validates the speed exactly when at least 10 pulses were
    counted since the speed change; a check that finds fewer changes nothing,
    whatever time has passed: the speed stays un-validated and the test goes
    on.  On a validation success the test speed, which is the speed commanded
    to the hardware, moves on by the 0.1 m/s step, capped at 1.0 m/s, the
    ceiling it never exceeds (from 0.1 m/s the speeds are 0.2, 0.3, ... up to
    1.0 m/s, where they stay), and the step is itself a speed change, half a
    second later. *)
Theorem speed_validation_and_progression (s : system) (v : f32) (t : list call) :
  (Forall (fun c => is_environment c = true) t ->
   let s1 := run t (exec (start_speed_test v) s) in
   test_speed s1 = v
   /\ Wl.g_speed_validated (wl s1) = false
   /\ pulses_since s1 = wrap32 (pulses_in t)
   /\ elapsed_since s1 = wrap64 (elapsed_in t)
   /\ eval validate_current_speed s1 = (LEARNING_MIN_HALL_PULSES <=? wrap32 (pulses_in t))
   /\ Wl.g_speed_validated (wl (exec validate_current_speed s1))
      = (LEARNING_MIN_HALL_PULSES <=? wrap32 (pulses_in t)))
  /\ (eval validate_current_speed s = true <-> LEARNING_MIN_HALL_PULSES <= pulses_since s)
  /\ Wl.g_speed_validated (wl (exec validate_current_speed s))
     = (Wl.g_speed_validated (wl s) || (LEARNING_MIN_HALL_PULSES <=? pulses_since s))
  /\ (pulses_since s < LEARNING_MIN_HALL_PULSES ->
      eval validate_current_speed s = false
      /\ exec validate_current_speed s = s)
  /\ (Wl.g_speed_validated (wl s) = false ->
      F32.eq (test_speed s) F32.zero = false ->
      LEARNING_MIN_HALL_PULSES <= pulses_since s ->
      test_speed (exec handle_forward_direction s) = next_test_speed (test_speed s)
      /\ test_speed (exec handle_reverse_direction s) = next_test_speed (test_speed s))
  /\ (Hw.system_initialized (hw_status_of s) = true ->
      Hw.esc_armed (hw_status_of s) = true ->
      F32.ge (test_speed s) WIRE_LEARNING_MAX_SPEED_MS = false ->
      hardware_is_speed_valid (next_test_speed (test_speed s)) = true ->
      hw_target (exec progress_to_next_speed s) = next_test_speed (test_speed s))
  /\ (F32.ge (test_speed s) WIRE_LEARNING_MAX_SPEED_MS = false ->
      exec progress_to_next_speed s
      = exec (start_speed_test (next_test_speed (test_speed s)))
          (exec (vTaskDelay_ms 500) s))
  /\ (F32.ge (test_speed s) WIRE_LEARNING_MAX_SPEED_MS = false ->
      F32.gt (F32.add (test_speed s) WIRE_LEARNING_SPEED_INCREMENT)
             WIRE_LEARNING_MAX_SPEED_MS = false ->
      next_test_speed (test_speed s)
      = F32.add (test_speed s) WIRE_LEARNING_SPEED_INCREMENT)
  /\ (F32.gt (test_speed s) WIRE_LEARNING_MAX_SPEED_MS = false ->
      F32.gt (next_test_speed (test_speed s)) WIRE_LEARNING_MAX_SPEED_MS = false)
  /\ Forall2 (fun x k => within x (k * 100000 - 1) (k * 100000 + 1) 1000000)
       (ramp 10 WIRE_LEARNING_START_SPEED_MS) [1; 2; 3; 4; 5; 6; 7; 8; 9; 10]
  /\ nth 10 (ramp 12 WIRE_LEARNING_START_SPEED_MS) F32.zero = WIRE_LEARNING_MAX_SPEED_MS.
Proof.
  destruct (validate_current_speed_spec s) as [He Hx].
  split.
  { intros Ht. cbv zeta.
    destruct (speed_test_since_change s v t Ht) as (T1 & T2 & T3 & T4).
    destruct (validate_current_speed_spec (run t (exec (start_speed_test v) s))) as [He' Hx'].
    rewrite T3 in He', Hx'.
    split; [exact T1|]. split; [exact T2|]. split; [exact T3|]. split; [exact T4|].
    split; [exact He'|].
    rewrite Hx'. destruct (LEARNING_MIN_HALL_PULSES <=? wrap32 (pulses_in t));
      [reflexivity | exact T2]. }
  split; [rewrite He; apply Z.leb_le|].
  split.
  { rewrite Hx. destruct (LEARNING_MIN_HALL_PULSES <=? pulses_since s); cbn.
    - symmetry; apply orb_true_r.
    - symmetry; apply orb_false_r. }
  split.
  { intros Hp. apply Z.leb_gt in Hp. rewrite He, Hx, Hp. split; reflexivity. }
  split; [apply handle_direction_validated|].
  split; [apply progress_to_next_speed_command|].
  split; [apply progress_to_next_speed_is_speed_change|].
  split.
  { intros H1 H2. unfold next_test_speed. rewrite H1, H2. reflexivity. }
  split; [apply next_test_speed_le_max|].
  split; [apply ramp_from_start | apply ramp_from_start].
Qed.

Lemma speed_validation_and_progression_witness :
  (Forall (fun c => is_environment c = true) ten_pulses
   /\ eval validate_current_speed
        (run ten_pulses (exec (start_speed_test WIRE_LEARNING_START_SPEED_MS)
                           learning_activated)) = true)
  /\ (pulses_since timed_out < LEARNING_MIN_HALL_PULSES
      /\ eval validate_current_speed timed_out = false)
  /\ (Wl.g_speed_validated (wl tenth_pulse_late) = false
      /\ F32.eq (test_speed tenth_pulse_late) F32.zero = false
      /\ LEARNING_MIN_HALL_PULSES <= pulses_since tenth_pulse_late
      /\ test_speed (exec handle_forward_direction tenth_pulse_late)
         = next_test_speed (test_speed tenth_pulse_late))
  /\ (Hw.system_initialized (hw_status_of ten_pulses_later) = true
      /\ Hw.esc_armed (hw_status_of ten_pulses_later) = true
      /\ F32.ge (test_speed ten_pulses_later) WIRE_LEARNING_MAX_SPEED_MS = false
      /\ hardware_is_speed_valid (next_test_speed (test_speed ten_pulses_later)) = true
      /\ hw_target (exec progress_to_next_speed ten_pulses_later)
         = next_test_speed (test_speed ten_pulses_later)
      /\ F32.gt (test_speed ten_pulses_later) WIRE_LEARNING_MAX_SPEED_MS = false
      /\ F32.gt (next_test_speed (test_speed ten_pulses_later)) WIRE_LEARNING_MAX_SPEED_MS
         = false).
Proof.
  assert (E : Forall (fun c => is_environment c = true) ten_pulses)
    by (unfold ten_pulses; cbn; repeat constructor).
  assert (A1 : Wl.g_speed_validated (wl tenth_pulse_late) = false) by (vm_compute; reflexivity).
  assert (A2 : F32.eq (test_speed tenth_pulse_late) F32.zero = false) by (vm_compute; reflexivity).
  assert (A3 : LEARNING_MIN_HALL_PULSES <= pulses_since tenth_pulse_late)
    by (vm_compute; discriminate).
  assert (B1 : pulses_since timed_out < LEARNING_MIN_HALL_PULSES) by (vm_compute; reflexivity).
  assert (C1 : Hw.system_initialized (hw_status_of ten_pulses_later) = true)
    by (vm_compute; reflexivity).
  assert (C2 : Hw.esc_armed (hw_status_of ten_pulses_later) = true) by (vm_compute; reflexivity).
  assert (C3 : F32.ge (test_speed ten_pulses_later) WIRE_LEARNING_MAX_SPEED_MS = false)
    by (vm_compute; reflexivity).
  assert (C4 : hardware_is_speed_valid (next_test_speed (test_speed ten_pulses_later)) = true)
    by (vm_compute; reflexivity).
  assert (C5 : F32.gt (test_speed ten_pulses_later) WIRE_LEARNING_MAX_SPEED_MS = false)
    by (vm_compute; reflexivity).
  destruct (speed_validation_and_progression learning_activated WIRE_LEARNING_START_SPEED_MS
              ten_pulses) as (H1 & _).
  destruct (speed_validation_and_progression timed_out F32.zero []) as (_ & _ & _ & H4 & _).
  destruct (speed_validation_and_progression tenth_pulse_late F32.zero [])
    as (_ & _ & _ & _ & H5 & _).
  destruct (speed_validation_and_progression ten_pulses_later F32.zero [])
    as (_ & _ & _ & _ & _ & H6 & _ & _ & H9 & _).
  split.
  { split; [exact E|].
    exact (eq_trans (proj1 (proj2 (proj2 (proj2 (proj2 (H1 E)))))) eq_refl). }
  split; [split; [exact B1 | exact (proj1 (H4 B1))]|].
  split; [split; [exact A1 | split; [exact A2 | split; [exact A3 | exact (proj1 (H5 A1 A2 A3))]]]|].
  split; [exact C1|]. split; [exact C2|]. split; [exact C3|]. split; [exact C4|].
  split; [exact (H6 C1 C2 C3 C4)|]. split; [exact C5 | exact (H9 C5)].
Defined.
